(** * Certificate backend: the renderer and the certificate-request route

    A shallow embedding of [src/services/certificateGenerator.js] and of the
    [POST /request] handler of the certificates router, with the properties
    of the specification stated over it.

    Conventions of the embedding.
    - A JavaScript string is a [string], one character per code unit (code
      units below 256); its [length] is the number of code units.
    - A JavaScript number that the code computes with page geometry is an
      exact rational ([Q]); rounding of doubles is not modelled there.  The
      arithmetic on a draw of [Math.random] is rounded to the nearest
      double ([JSDouble]).  Numbers that are integers by construction (date
      fields, database integers) are [Z], with [NaN] as a separate
      constructor.
    - A database row is a JavaScript object used as a map: [gmap string jsval].
      A missing property ([undefined]) is [None].
    - [pdf-lib], [qrcode], [fs] and the Supabase client are outside the
      repository.  Their objects are represented by the data handed to them,
      and whether each call succeeds is decided by an environment record.
    - [console.log] and [console.error] have no influence on results and are
      left out. *)

From stdpp Require Import base option list gmap strings.
From Stdlib Require Import ZArith QArith Qround Qabs Qpower Lqa String Ascii List Lia DecimalString.
Import ListNotations.

Local Open Scope string_scope.
Local Open Scope Z_scope.

(* ===================================================================== *)
(** ** JavaScript values *)
(* ===================================================================== *)

Module JS.

(** Integer-valued numbers, with NaN. *)
Inductive jsnum : Type :=
| NaN
| Int (z : Z).

(** The values a JSON row or request body holds.  [undefined] is the
    absence of the property. *)
Inductive jsval : Type :=
| JNull
| JBool (b : bool)
| JNum (n : jsnum)
| JStr (s : string).

Definition object := gmap string jsval.

(** ToBoolean. *)
Definition truthy (v : option jsval) : bool :=
  match v with
  | None => false
  | Some JNull => false
  | Some (JBool b) => b
  | Some (JNum NaN) => false
  | Some (JNum (Int z)) => negb (z =? 0)
  | Some (JStr s) => negb (String.eqb s "")
  end.

(** The decimal digits of an integer, with a minus sign when negative:
    Number.prototype.toString for an integer below 10^21 in magnitude. *)
Definition Z_to_string (z : Z) : string :=
  NilEmpty.string_of_int (Z.to_int z).

Definition Number_toString (n : jsnum) : string :=
  match n with
  | NaN => "NaN"
  | Int z => Z_to_string z
  end.

(** ToString, as applied by a template literal to an interpolated value. *)
Definition ToString (v : option jsval) : string :=
  match v with
  | None => "undefined"
  | Some JNull => "null"
  | Some (JBool true) => "true"
  | Some (JBool false) => "false"
  | Some (JNum n) => Number_toString n
  | Some (JStr s) => s
  end.

(** [a || b] on values. *)
Definition or_else (a : option jsval) (b : option jsval) : option jsval :=
  if truthy a then a else b.

(** [arr[i]] for an array of strings: any index that is not an integer
    inside the bounds yields [undefined]. *)
Definition array_get (arr : list string) (i : jsnum) : option jsval :=
  match i with
  | NaN => None
  | Int z => if z <? 0 then None else JStr <$> nth_error arr (Z.to_nat z)
  end.

(** Array.prototype.join. *)
Fixpoint join (sep : string) (l : list string) : string :=
  match l with
  | [] => ""
  | [x] => x
  | x :: rest => x ++ sep ++ join sep rest
  end.

(** An [Error] object, identified by its message. *)
Inductive error : Type :=
| Error (message : string).

Definition message (e : error) : string :=
  match e with Error m => m end.

(** The outcome of an evaluation: a value, or a thrown error. *)
Inductive result (A : Type) : Type :=
| Ok (a : A)
| Throw (e : error).
Arguments Ok {A} a.
Arguments Throw {A} e.

Definition is_ok {A} (r : result A) : bool :=
  match r with Ok _ => true | Throw _ => false end.

End JS.
Import JS.

(* ===================================================================== *)
(** * Number values: rounding to the nearest double *)
(* ===================================================================== *)

Module JSDouble.

(** [floor (log2 x)] for a positive rational. *)
Definition binade (x : Q) : Z :=
  let k := Z.log2 (Qnum x) - Z.log2 (Zpos (Qden x)) in
  if Qle_bool (2 ^ k) x then k else k - 1.

(** The integer nearest to [y], the even one of two that are equally
    near. *)
Definition roundHalfEven (y : Q) : Z :=
  let f := Qfloor y in
  match (y - inject_Z f ?= 1 # 2)%Q with
  | Lt => f
  | Gt => f + 1
  | Eq => if Z.even f then f else f + 1
  end.

(** The exponent of the unit in the last place of a positive [x]: 52
    below its binade, and not below that of the subnormal numbers. *)
Definition ulpExponent (x : Q) : Z := Z.max (binade x - 52) (-1074).

(** The double nearest to a positive rational. *)
Definition roundPositive (x : Q) : Q :=
  (inject_Z (roundHalfEven (x / 2 ^ ulpExponent x)) * 2 ^ ulpExponent x)%Q.

(** The Number value of a rational (round to nearest, ties to even), for
    a magnitude below 2^1024, where the result is finite. *)
Definition roundDouble (x : Q) : Q :=
  match Qnum x with
  | Z0 => 0%Q
  | Zpos _ => roundPositive x
  | Zneg _ => (- roundPositive (- x))%Q
  end.

(** [x] is a Number value. *)
Definition isDouble (x : Q) : Prop := (roundDouble x == x)%Q.

(** [a * b] and [a + b] on Number values. *)
Definition mul (a b : Q) : Q := roundDouble (a * b).
Definition add (a b : Q) : Q := roundDouble (a + b).

End JSDouble.


(* ===================================================================== *)
(** ** The Date built-in, as far as the code uses it *)
(* ===================================================================== *)

Module JSDate.

Definition msPerDay : Z := 86400000.

(** A time value is a number of milliseconds since the epoch, or NaN
    ([None], an invalid date). *)
Definition timevalue := option Z.

Definition TimeClip (t : Z) : timevalue :=
  if Z.abs t <=? 8640000000000000 then Some t else None.

(** Day number of a proleptic Gregorian date (month 1..12), relative to
    1970-01-01. *)
Definition days_from_civil (y m d : Z) : Z :=
  let y' := if m <=? 2 then y - 1 else y in
  let era := y' / 400 in
  let yoe := y' - era * 400 in
  let mp := if m >? 2 then m - 3 else m + 9 in
  let doy := (153 * mp + 2) / 5 + d - 1 in
  let doe := yoe * 365 + yoe / 4 - yoe / 100 + doy in
  era * 146097 + doe - 719468.

(** Year, month (1..12) and day of month of a day number. *)
Definition civil_from_days (z : Z) : Z * Z * Z :=
  let z' := z + 719468 in
  let era := z' / 146097 in
  let doe := z' - era * 146097 in
  let yoe := (doe - doe / 1460 + doe / 36524 - doe / 146096) / 365 in
  let y := yoe + era * 400 in
  let doy := doe - (365 * yoe + yoe / 4 - yoe / 100) in
  let mp := (5 * doy + 2) / 153 in
  let d := doy - (153 * mp + 2) / 5 + 1 in
  let m := if mp <? 10 then mp + 3 else mp - 9 in
  (if m <=? 2 then y + 1 else y, m, d).

Definition Day (t : Z) : Z := t / msPerDay.

Definition YearFromTime (t : Z) : Z := fst (fst (civil_from_days (Day t))).
(** Month index 0..11. *)
Definition MonthFromTime (t : Z) : Z := snd (fst (civil_from_days (Day t))) - 1.
Definition DateFromTime (t : Z) : Z := snd (civil_from_days (Day t)).

Definition isLeapYear (y : Z) : bool :=
  ((y mod 4 =? 0) && negb (y mod 100 =? 0)) || (y mod 400 =? 0).

Definition daysInMonth (y m : Z) : Z :=
  if m =? 2 then (if isLeapYear y then 29 else 28)
  else if (m =? 4) || (m =? 6) || (m =? 9) || (m =? 11) then 30
  else 31.

(** A day number names a date of the calendar, and that date has this
    day number. *)
Definition calendar_agrees (z : Z) : bool :=
  let '(y, m, d) := civil_from_days z in
  (1 <=? m) && (m <=? 12) && (1 <=? d) && (d <=? daysInMonth y m)
  && (days_from_civil y m d =? z).

(** [calendar_agrees] on [n] consecutive days from [z] on. *)
Fixpoint calendar_agrees_from (n : nat) (z : Z) : bool :=
  match n with
  | O => true
  | S n' => calendar_agrees z && calendar_agrees_from n' (z + 1)
  end.

Definition digit (c : ascii) : option Z :=
  let n := Z.of_N (N_of_ascii c) in
  if (48 <=? n) && (n <=? 57) then Some (n - 48) else None.

Definition is_dash (c : ascii) : bool := Ascii.eqb c "-"%char.

(** The date-only form [YYYY-MM-DD] of the ECMAScript date-time string
    format, for a date that exists in the calendar.  A date-only form
    denotes midnight UTC. *)
Definition parseISODate (s : string) : option Z :=
  match s with
  | String y1 (String y2 (String y3 (String y4 (String s1
      (String m1 (String m2 (String s2
        (String d1 (String d2 EmptyString))))))))) =>
      match digit y1, digit y2, digit y3, digit y4,
            digit m1, digit m2, digit d1, digit d2 with
      | Some a, Some b, Some c, Some d, Some e, Some f, Some g, Some h =>
          let y := a * 1000 + b * 100 + c * 10 + d in
          let m := e * 10 + f in
          let dd := g * 10 + h in
          if is_dash s1 && is_dash s2
             && (1 <=? m) && (m <=? 12)
             && (1 <=? dd) && (dd <=? daysInMonth y m)
          then Some (days_from_civil y m dd * msPerDay)
          else None
      | _, _, _, _, _, _, _, _ => None
      end
  | _ => None
  end.

(** What the host decides: the local time zone, and the parsing of
    strings that are not a calendar date in the date-only form
    (other forms of the format, and the implementation-defined
    fallback). *)
Record Host : Type := {
  LocalTZA : Z -> Z;              (* offset in ms at a UTC time value *)
  parseOther : string -> timevalue
}.

Section WithHost.
Variable host : Host.

Definition Date_parse (s : string) : timevalue :=
  match parseISODate s with
  | Some t => Some t
  | None => parseOther host s
  end.

(** [new Date(value)] for a primitive value. *)
Definition Date_new (value : option jsval) : timevalue :=
  match value with
  | None => None
  | Some JNull => Some 0
  | Some (JBool b) => Some (if b then 1 else 0)
  | Some (JNum NaN) => None
  | Some (JNum (Int z)) => TimeClip z
  | Some (JStr s) => Date_parse s
  end.

Definition LocalTime (t : Z) : Z := t + LocalTZA host t.

Definition getDate (d : timevalue) : jsnum :=
  match d with
  | None => NaN
  | Some t => Int (DateFromTime (LocalTime t))
  end.

Definition getMonth (d : timevalue) : jsnum :=
  match d with
  | None => NaN
  | Some t => Int (MonthFromTime (LocalTime t))
  end.

Definition getFullYear (d : timevalue) : jsnum :=
  match d with
  | None => NaN
  | Some t => Int (YearFromTime (LocalTime t))
  end.
End WithHost.

(** A host on a fixed offset from UTC, in minutes, that parses nothing
    beyond calendar dates. *)
Definition fixedOffsetHost (minutes : Z) : Host :=
  {| LocalTZA := fun _ => minutes * 60000; parseOther := fun _ => None |}.

End JSDate.

(* ===================================================================== *)
(** ** The libraries: pdf-lib documents, QR images, query responses *)
(* ===================================================================== *)

Module Lib.

Definition Buffer := list Byte.byte.

Inductive StandardFonts : Type :=
| Helvetica
| HelveticaBold.

Record Color : Type := rgb { red : Q; green : Q; blue : Q }.

(** The options object handed to [QRCode.toBuffer]. *)
Record QROptions : Type := {
  qr_type : string;
  qr_width : Z;
  qr_margin : Z;
  qr_dark : string;
  qr_light : string
}.

(** A PNG buffer produced by [QRCode.toBuffer]: the image of [qr_data]
    rendered with [qr_options].  Scanning the image gives [qr_data]. *)
Record QRImage : Type := {
  qr_data : string;
  qr_options : QROptions
}.

(** What has been drawn on a page since it was loaded. *)
Inductive operator : Type :=
| DrawText (text : string) (x y size : Q) (font : StandardFonts) (color : Color)
| DrawImage (image : QRImage) (x y width height : Q).

(** A page: its size, and the operators appended to the content it was
    loaded with (that content is not touched by the code). *)
Record PDFPage : Type := {
  pageWidth : Q;
  pageHeight : Q;
  drawn : list operator
}.

Record PDFDocument : Type := {
  pages : list PDFPage;
  embeddedFonts : list StandardFonts;
  embeddedImages : list QRImage
}.

(** The bytes [save] returns: the serialisation of a document, stamped
    with the time of the encoding. *)
Record Uint8Array : Type := {
  serialized : PDFDocument;
  modificationDate : Z;
  byteLength : Z
}.

(** Reading the output back. *)
Definition pageCount (b : Uint8Array) : nat :=
  List.length (pages (serialized b)).

Definition imagesOf (p : PDFPage) : list QRImage :=
  flat_map (fun o => match o with
                     | DrawImage i _ _ _ _ => [i]
                     | DrawText _ _ _ _ _ _ => []
                     end) (drawn p).

(** The payloads of the QR images found on the pages of the output. *)
Definition decodeQR (b : Uint8Array) : list string :=
  List.map qr_data (flat_map imagesOf (pages (serialized b))).

(** A value sent to the database: a JSON value or a byte array. *)
Inductive dbvalue : Type :=
| Val (v : option jsval)
| Bytes (b : Uint8Array).

(** A request of the Supabase client: [from(table)], then [select] or
    [update], then the [eq] filters in order; [single] tells whether the
    chain ends in [single()] (an update is always followed by
    [select()]). *)
Inductive query : Type :=
| Select (table : string) (columns : string)
         (filters : list (string * option jsval)) (single : bool)
| Update (table : string) (values : list (string * dbvalue))
         (filters : list (string * option jsval)) (single : bool).

(** The [{ data, error }] object a query resolves to.  [data] is the row
    of a [single()] query, [None] for [null]. *)
Record response : Type := {
  data : option object;
  error : option JS.error
}.

(** The outside world, as seen by one request. *)
Record Env : Type := {
  host : JSDate.Host;
  (* fs.readFile *)
  readFile : string -> result Buffer;
  (* PDFDocument.load: the sizes of the pages of the parsed file *)
  load : Buffer -> result (list (Q * Q));
  embedFont_error : StandardFonts -> option JS.error;
  (* a font that cannot encode a text makes drawText throw *)
  encodeText_error : StandardFonts -> string -> option JS.error;
  toBuffer_error : string -> QROptions -> option JS.error;
  embedPng_error : QRImage -> option JS.error;
  save_error : PDFDocument -> option JS.error;
  save_length : PDFDocument -> Z;
  clock : Z;
  (* the i-th draw of Math.random *)
  random : nat -> Q;
  supabase : query -> response
}.

(** Calls that reach outside the process, in the order they are made. *)
Inductive event : Type :=
| ReadFile (path : string)
| Query (q : query).

End Lib.
Import Lib.

(* ===================================================================== *)
(** ** Computations: a log of outside calls and a result or an exception *)
(* ===================================================================== *)

Module Comp.

Definition M (A : Type) : Type := (list event * result A)%type.

Definition ret {A} (a : A) : M A := ([], Ok a).

Definition throw {A} (e : JS.error) : M A := ([], Throw e).

Definition bind {A B} (m : M A) (f : A -> M B) : M B :=
  match m with
  | (l, Ok a) => let (l', r) := f a in ((l ++ l')%list, r)
  | (l, Throw e) => (l, Throw e)
  end.

(** [try { m } catch (e) { h e }] *)
Definition try_catch {A} (m : M A) (h : JS.error -> M A) : M A :=
  match m with
  | (l, Throw e) => let (l', r) := h e in ((l ++ l')%list, r)
  | (l, Ok a) => (l, Ok a)
  end.

Definition emit (ev : event) : M unit := ([ev], Ok tt).

Definition lift {A} (r : result A) : M A := ([], r).

(** A step that fails when the environment reports an error. *)
Definition guard (e : option JS.error) : M unit :=
  match e with
  | Some err => throw err
  | None => ret tt
  end.

Definition log {A} (m : M A) : list event := fst m.
Definition outcome {A} (m : M A) : result A := snd m.

End Comp.
Import Comp.

Declare Scope comp_scope.
Delimit Scope comp_scope with comp.
Notation "x <- c1 ;; c2" := (bind c1 (fun x => c2))
  (at level 100, c1 at next level, right associativity) : comp_scope.
Notation "c1 ;; c2" := (bind c1 (fun _ => c2))
  (at level 100, right associativity) : comp_scope.
Local Open Scope comp_scope.

(** The library calls the code makes, over an environment. *)
Module Calls.
Section WithEnv.
Variable env : Env.

Definition fs_readFile (path : string) : M Buffer :=
  emit (ReadFile path) ;; lift (readFile env path).

(** A freshly loaded document: nothing drawn, nothing embedded. *)
Definition PDFDocument_load (bytes : Buffer) : M PDFDocument :=
  sizes <- lift (load env bytes) ;;
  ret {| pages := List.map (fun wh => {| pageWidth := fst wh;
                                         pageHeight := snd wh;
                                         drawn := [] |}) sizes;
         embeddedFonts := [];
         embeddedImages := [] |}.

Definition embedFont (doc : PDFDocument) (font : StandardFonts) : M PDFDocument :=
  guard (embedFont_error env font) ;;
  ret {| pages := pages doc;
         embeddedFonts := (embeddedFonts doc ++ [font])%list;
         embeddedImages := embeddedImages doc |}.

(** [page.drawText(text, { x, y, size, font, color })] for a string. *)
Definition drawText (page : PDFPage) (text : string) (x y size : Q)
           (font : StandardFonts) (color : Color) : M PDFPage :=
  guard (encodeText_error env font text) ;;
  ret {| pageWidth := pageWidth page;
         pageHeight := pageHeight page;
         drawn := (drawn page ++ [DrawText text x y size font color])%list |}.

(** [QRCode.toBuffer(text, options)]: only a string is encoded. *)
Definition QRCode_toBuffer (text : option jsval) (options : QROptions) : M QRImage :=
  match text with
  | Some (JStr s) =>
      guard (toBuffer_error env s options) ;;
      ret {| qr_data := s; qr_options := options |}
  | _ => throw (Error "Invalid data")
  end.

Definition embedPng (doc : PDFDocument) (png : QRImage) : M PDFDocument :=
  guard (embedPng_error env png) ;;
  ret {| pages := pages doc;
         embeddedFonts := embeddedFonts doc;
         embeddedImages := (embeddedImages doc ++ [png])%list |}.

(** [page.drawImage(image, { x, y, width, height })] *)
Definition drawImage (page : PDFPage) (image : QRImage) (x y width height : Q) : PDFPage :=
  {| pageWidth := pageWidth page;
     pageHeight := pageHeight page;
     drawn := (drawn page ++ [DrawImage image x y width height])%list |}.

Definition save (doc : PDFDocument) : M Uint8Array :=
  guard (save_error env doc) ;;
  ret {| serialized := doc;
         modificationDate := clock env;
         byteLength := save_length env doc |}.

(** Awaiting a query of the Supabase client. *)
Definition await_query (q : query) : M response :=
  emit (Query q) ;; ret (supabase env q).

End WithEnv.
End Calls.
Import Calls.

(* ===================================================================== *)
(** ** src/services/certificateGenerator.js *)
(* ===================================================================== *)

Module CertificateGenerator.

Definition months : list string :=
  [ "January"; "February"; "March"; "April"; "May"; "June";
    "July"; "August"; "September"; "October"; "November"; "December" ].

Definition qrOptions : QROptions :=
  {| qr_type := "png";
     qr_width := 150;
     qr_margin := 1;
     qr_dark := "#000000";
     qr_light := "#FFFFFF" |}.

Definition requiredFields : list string :=
  [ "preferred_name"; "course_name"; "internship_start_date";
    "internship_end_date"; "company_name"; "certificate_id" ].

(** [requiredFields.filter(field => !student[field])] *)
Definition missingFieldsOf (student : object) : list string :=
  List.filter (fun field => negb (truthy (student !! field))) requiredFields.

(** [s.length] as a number. *)
Definition len (s : string) : Q := inject_Z (Z.of_nat (String.length s)).

Definition black : Color := rgb 0 0 0.

(** The object [generateAndSaveCertificate] returns. *)
Record SaveResult : Type := {
  success : bool;
  message : string;
  student : option jsval;
  certificateId : option jsval;
  size : Z
}.

Section Generator.
Variable env : Env.
(** [this.templatePath], fixed by the constructor. *)
Variable templatePath : string.

Definition formatDate (dateString : option jsval) : string :=
  let date := JSDate.Date_new (host env) dateString in
  let day := JSDate.getDate (host env) date in
  let month := array_get months (JSDate.getMonth (host env) date) in
  let year := JSDate.getFullYear (host env) date in
  ToString (Some (JNum day)) ++ " " ++ ToString month ++ " "
    ++ ToString (Some (JNum year)).

Definition generateQRCode (certificateId : option jsval) : M QRImage :=
  try_catch
    (qrCodeBuffer <- QRCode_toBuffer env certificateId qrOptions ;;
     ret qrCodeBuffer)
    (fun _ => throw (Error "Failed to generate QR code")).

(** [width / 2 - (preferred_name.length * 12)] *)
Definition nameStart (width : Q) (name : string) : Q :=
  (width / 2 - len name * 12)%Q.

(** The first [drawText]: the arguments are evaluated before the call,
    so [preferred_name.length] throws on [undefined] and [null]; a value
    that is not a string is rejected by the type check of [drawText]. *)
Definition drawName (firstPage : PDFPage) (preferred_name : option jsval)
           (width height : Q) : M PDFPage :=
  match preferred_name with
  | None =>
      throw (Error "Cannot read properties of undefined (reading 'length')")
  | Some JNull =>
      throw (Error "Cannot read properties of null (reading 'length')")
  | Some (JStr name) =>
      drawText env firstPage name
               (nameStart width name)
               (height / 2 + 50)%Q
               24%Q HelveticaBold black
  | Some _ =>
      throw (Error "`text` must be of type `string`")
  end.

(** The template literal of [completionText]. *)
Definition completionTextOf (studentData : object) : string :=
  "has successfully completed a "
    ++ ToString (studentData !! "course_name")
    ++ " Internship at "
    ++ ToString (studentData !! "company_name") ++ ",".

(** The template literal of [dateText]. *)
Definition dateTextOf (studentData : object) : string :=
  let startDate := formatDate (studentData !! "internship_start_date") in
  let endDate := formatDate (studentData !! "internship_end_date") in
  "held from " ++ startDate ++ " to " ++ endDate ++ ".".

(** [certificateText] is built for the console only and is left out. *)
Definition generateCertificate (studentData : object) : M Uint8Array :=
  try_catch
    (templateBytes <- fs_readFile env templatePath ;;
     pdfDoc <- PDFDocument_load env templateBytes ;;
     match pages pdfDoc with
     | [] =>
         throw (Error "Cannot read properties of undefined (reading 'getSize')")
     | firstPage :: otherPages =>
         let width := pageWidth firstPage in
         let height := pageHeight firstPage in
         pdfDoc <- embedFont env pdfDoc Helvetica ;;
         pdfDoc <- embedFont env pdfDoc HelveticaBold ;;
         firstPage <- drawName firstPage (studentData !! "preferred_name")
                               width height ;;
         let completionText := completionTextOf studentData in
         firstPage <- drawText env firstPage completionText
                               (width / 2 - len completionText * 4)%Q
                               (height / 2 + 10)%Q
                               14%Q Helvetica black ;;
         let dateText := dateTextOf studentData in
         firstPage <- drawText env firstPage dateText
                               (width / 2 - len dateText * 4)%Q
                               (height / 2 - 20)%Q
                               14%Q Helvetica black ;;
         qrCodeBuffer <- generateQRCode (studentData !! "certificate_id") ;;
         pdfDoc <- embedPng env pdfDoc qrCodeBuffer ;;
         let qrCodeImage := qrCodeBuffer in
         let qrSize := 80%Q in
         let firstPage :=
           drawImage firstPage qrCodeImage
                     (width - qrSize - 20)%Q
                     (height - qrSize - 20)%Q
                     qrSize qrSize in
         (* [firstPage] is the first page object of [pdfDoc] *)
         pdfBytes <- save env {| pages := firstPage :: otherPages;
                                 embeddedFonts := embeddedFonts pdfDoc;
                                 embeddedImages := embeddedImages pdfDoc |} ;;
         ret pdfBytes
     end)
    (fun error =>
       throw (Error ("Certificate generation failed: " ++ JS.message error))).

(** The query that fetches the student. *)
Definition fetchStudentQuery (studentId : jsnum) : query :=
  Select "students" "*" [("student_id", Some (JNum studentId))] true.

(** The query that stores the rendered bytes. *)
Definition saveCertificateQuery (studentId : jsnum) (certificateBuffer : Uint8Array) : query :=
  Update "students" [("certificate", Bytes certificateBuffer)]
         [("student_id", Some (JNum studentId))] false.

Definition generateAndSaveCertificate (studentId : jsnum) : M SaveResult :=
  try_catch
    (fetched <- await_query env (fetchStudentQuery studentId) ;;
     match error fetched with
     | Some fetchError =>
         throw (Error ("Failed to fetch student: " ++ JS.message fetchError))
     | None =>
     match data fetched with
     | None => throw (Error "Student not found")
     | Some student =>
         let missingFields := missingFieldsOf student in
         if (0 <? Z.of_nat (List.length missingFields))
         then throw (Error ("Missing required fields: "
                              ++ join ", " missingFields))
         else
           certificateBytes <- generateCertificate student ;;
           let certificateBuffer := certificateBytes in
           updated <- await_query env
                        (saveCertificateQuery studentId certificateBuffer) ;;
           match error updated with
           | Some updateError =>
               throw (Error ("Failed to save certificate: "
                               ++ JS.message updateError))
           | None =>
               ret {| success := true;
                      message := "Certificate generated and saved successfully";
                      student := student !! "preferred_name";
                      certificateId := student !! "certificate_id";
                      size := byteLength certificateBytes |}
           end
     end
     end)
    (fun error => throw error).

End Generator.

End CertificateGenerator.

(* ===================================================================== *)
(** ** The certificates router: POST /request *)
(* ===================================================================== *)

Module CertificatesRoute.

(** The response: the status code and the JSON document sent back, as its
    top-level fields and the fields of its [data] object when it has one. *)
Record reply : Type := {
  status : Z;
  body : list (string * option jsval);
  body_data : option (list (string * option jsval))
}.

Definition jstring (s : string) : option jsval := Some (JStr s).
Definition jbool (b : bool) : option jsval := Some (JBool b).

Definition is_space (c : ascii) : bool :=
  let n := Z.of_N (N_of_ascii c) in
  ((9 <=? n) && (n <=? 13)) || (n =? 32) || (n =? 160).

Fixpoint trimStart (s : string) : string :=
  match s with
  | String c rest => if is_space c then trimStart rest else s
  | EmptyString => EmptyString
  end.

Definition reverse (s : string) : string :=
  string_of_list_ascii (List.rev (list_ascii_of_string s)).

(** String.prototype.trim *)
Definition trim (s : string) : string :=
  reverse (trimStart (reverse (trimStart s))).

(** [v.trim()] on a value. *)
Definition call_trim (v : option jsval) : M string :=
  match v with
  | Some (JStr s) => ret (trim s)
  | None => throw (Error "Cannot read properties of undefined (reading 'trim')")
  | Some JNull => throw (Error "Cannot read properties of null (reading 'trim')")
  | Some _ => throw (Error "preferred_name.trim is not a function")
  end.

Definition chars : string := "ABCDEFGHIJKLMNOPQRSTUVWXYZ0123456789".

(** String.prototype.charAt *)
Definition charAt (s : string) (i : Z) : string :=
  if i <? 0 then "" else substring (Z.to_nat i) 1 s.

Definition lookup_query (table columns key : string) (value : option jsval) : query :=
  Select table columns [(key, value)] true.

(** The query that looks for the student of a phone number. *)
Definition existingStudentQuery (phone_number : option jsval) : query :=
  Select "students" "certificate_id, internship_start_date, preferred_name"
         [("phone_number", phone_number); ("deleted", Some (JBool false))] true.

Definition failure (code : Z) (err msg_key msg : string) : reply :=
  {| status := code;
     body := [("success", jbool false);
              ("error", jstring err);
              (msg_key, jstring msg)];
     body_data := None |}.

Section Handler.
Variable env : Env.
(** Built-ins of the host that are taken as given: [parseInt]; the date
    part of [toISOString()] of the start date advanced by a number of
    months with [setMonth], which throws a RangeError for an invalid
    date; and [new Date().toISOString()]. *)
Variable parseInt : option jsval -> jsnum.
Variable endDateISO : option jsval -> jsnum -> result string.
Variable nowISO : string.

(** The loop of [generateCertificateId], with [i] the index of the next
    draw of [Math.random] and [n] the iterations left.  The product of the
    draw and the length is a Number: it is rounded to the nearest double
    before [Math.floor]. *)
Fixpoint generateCertificateId_loop (n i : nat) (acc : string) : string :=
  match n with
  | O => acc
  | S n' =>
      generateCertificateId_loop n' (S i)
        (acc ++ charAt chars
                       (Qfloor (JSDouble.mul (random env i)
                                             (inject_Z (Z.of_nat (String.length chars))))))
  end.

Definition generateCertificateId : string :=
  generateCertificateId_loop 8 0 "".

Definition post_request (req_body : object) : M reply :=
  try_catch
    (let phone_number := req_body !! "phone_number" in
     let internship_start_date := req_body !! "internship_start_date" in
     let internship_duration := req_body !! "internship_duration" in
     let course_name := req_body !! "course_name" in
     let company_name := req_body !! "company_name" in
     let preferred_name := req_body !! "preferred_name" in
     if negb (truthy phone_number) || negb (truthy internship_start_date)
        || negb (truthy internship_duration) || negb (truthy course_name)
        || negb (truthy company_name) || negb (truthy preferred_name)
     then ret (failure 400 "Missing required fields" "message"
                       "All fields are required for certificate request")
     else
       course <- await_query env
                   (lookup_query "courses" "course_id, course_name"
                                 "course_name" course_name) ;;
       match error course, data course with
       | None, Some courses =>
       company <- await_query env
                    (lookup_query "companies" "company_id, company_name"
                                  "company_name" company_name) ;;
       match error company, data company with
       | None, Some companies =>
       existing <- await_query env (existingStudentQuery phone_number) ;;
       let existingStudent := data existing in
       let alreadySubmitted :=
         match existingStudent with
         | Some st =>
             truthy (or_else (st !! "internship_start_date")
                             (st !! "preferred_name"))
         | None => false
         end in
       if alreadySubmitted
       then ret (failure 400 "Certificate request already submitted" "message"
                         "You have already submitted a certificate request. Each student can only request a certificate once.")
       else
         let certificateId :=
           or_else (existingStudent ≫= fun st => st !! "certificate_id")
                   (Some (JStr generateCertificateId)) in
         endDate <- lift (endDateISO internship_start_date
                                     (parseInt internship_duration)) ;;
         trimmed <- call_trim preferred_name ;;
         updated <- await_query env
                      (Update "students"
                         [("internship_start_date", Val internship_start_date);
                          ("internship_end_date", Val (Some (JStr endDate)));
                          ("internship_duration",
                             Val (Some (JNum (parseInt internship_duration))));
                          ("course_id", Val (courses !! "course_id"));
                          ("company_id", Val (companies !! "company_id"));
                          ("preferred_name", Val (Some (JStr trimmed)));
                          ("certificate_id", Val certificateId)]
                         [("phone_number", phone_number);
                          ("deleted", Some (JBool false))] true) ;;
         match error updated with
         | Some updateError =>
             ret (failure 500 "Failed to submit certificate request" "details"
                          (JS.message updateError))
         | None =>
         match data updated with
         | None =>
             ret (failure 404 "Student not found" "message"
                          "No student found with the provided phone number")
         | Some updatedStudent =>
             ret {| status := 200;
                    body :=
                      [("success", jbool true);
                       ("message",
                          jstring "Certificate request submitted successfully")];
                    body_data := Some
                      [("studentId", updatedStudent !! "student_id");
                       ("name", updatedStudent !! "name");
                       ("preferredName", updatedStudent !! "preferred_name");
                       ("course", course_name);
                       ("company", company_name);
                       ("internshipStartDate", internship_start_date);
                       ("internshipEndDate", jstring endDate);
                       ("requestDate", jstring nowISO)] |}
         end
         end
       | _, _ =>
           ret (failure 400 "Invalid company selection" "message"
                        "Selected company not found")
       end
       | _, _ =>
           ret (failure 400 "Invalid course selection" "message"
                        "Selected course not found")
       end)
    (fun error =>
       ret (failure 500 "Failed to process certificate request" "message"
                    (JS.message error))).

End Handler.

End CertificatesRoute.

(* ===================================================================== *)
(** ** What a finished render consists of *)
(* ===================================================================== *)

Module Rendering.
Import CertificateGenerator.

Definition qrImageOf (cid : string) : QRImage :=
  {| qr_data := cid; qr_options := qrOptions |}.

(** The four operators of a finished certificate on a page of size
    [w] x [h], in the order they are drawn. *)
Definition certificateOperators (env : Env) (sd : object) (w h : Q)
           (name cid : string) : list operator :=
  [ DrawText name (nameStart w name) (h / 2 + 50)%Q 24%Q HelveticaBold black;
    DrawText (completionTextOf sd)
             (w / 2 - len (completionTextOf sd) * 4)%Q (h / 2 + 10)%Q
             14%Q Helvetica black;
    DrawText (dateTextOf env sd)
             (w / 2 - len (dateTextOf env sd) * 4)%Q (h / 2 - 20)%Q
             14%Q Helvetica black;
    DrawImage (qrImageOf cid) (w - 80 - 20)%Q (h - 80 - 20)%Q 80%Q 80%Q ].

Definition blankPage (wh : Q * Q) : PDFPage :=
  {| pageWidth := fst wh; pageHeight := snd wh; drawn := [] |}.

(** The template with the certificate stamped on its first page. *)
Definition certificateDocument (env : Env) (sd : object) (w h : Q)
           (rest : list (Q * Q)) (name cid : string) : PDFDocument :=
  {| pages := {| pageWidth := w; pageHeight := h;
                 drawn := certificateOperators env sd w h name cid |}
                :: List.map blankPage rest;
     embeddedFonts := [Helvetica; HelveticaBold];
     embeddedImages := [qrImageOf cid] |}.

(** [rendered env path sd b]: every step of the render of [sd] succeeded
    in [env], and [b] is the serialisation of the complete document. *)
Inductive rendered (env : Env) (path : string) (sd : object) : Uint8Array -> Prop :=
| Rendered (buf : Buffer) (w h : Q) (rest : list (Q * Q)) (name cid : string) :
    readFile env path = Ok buf ->
    load env buf = Ok ((w, h) :: rest) ->
    embedFont_error env Helvetica = None ->
    embedFont_error env HelveticaBold = None ->
    sd !! "preferred_name" = Some (JStr name) ->
    encodeText_error env HelveticaBold name = None ->
    encodeText_error env Helvetica (completionTextOf sd) = None ->
    encodeText_error env Helvetica (dateTextOf env sd) = None ->
    sd !! "certificate_id" = Some (JStr cid) ->
    toBuffer_error env cid qrOptions = None ->
    embedPng_error env (qrImageOf cid) = None ->
    save_error env (certificateDocument env sd w h rest name cid) = None ->
    rendered env path sd
      {| serialized := certificateDocument env sd w h rest name cid;
         modificationDate := clock env;
         byteLength := save_length env (certificateDocument env sd w h rest name cid) |}.

End Rendering.

(** Reading an output and a log of outside calls. *)
Module Observe.

Definition firstPageSize (b : Uint8Array) : option (Q * Q) :=
  match pages (serialized b) with
  | p :: _ => Some (pageWidth p, pageHeight p)
  | [] => None
  end.

Definition placementsOf (p : PDFPage) : list (Q * Q * Q * Q) :=
  flat_map (fun o => match o with
                     | DrawImage _ x y width height => [(x, y, width, height)]
                     | DrawText _ _ _ _ _ _ => []
                     end) (drawn p).

(** Position and size of every image drawn on the pages of the output. *)
Definition imagePlacements (b : Uint8Array) : list (Q * Q * Q * Q) :=
  flat_map placementsOf (pages (serialized b)).

(** The images drawn on the pages of the output. *)
Definition imagesDrawn (b : Uint8Array) : list QRImage :=
  flat_map imagesOf (pages (serialized b)).

(** The texts drawn on the first page of the output, in order. *)
Definition textsDrawn (b : Uint8Array) : list string :=
  match pages (serialized b) with
  | p :: _ =>
      flat_map (fun o => match o with
                         | DrawText t _ _ _ _ _ => [t]
                         | DrawImage _ _ _ _ _ => []
                         end) (drawn p)
  | [] => []
  end.

Definition bytesIn (values : list (string * dbvalue)) : list Uint8Array :=
  flat_map (fun kv => match snd kv with
                      | Bytes b => [b]
                      | Val _ => []
                      end) values.

(** The byte arrays written to the database, each with the filters that
    select the rows they are written to. *)
Definition persisted (l : list event) : list (list (string * option jsval) * Uint8Array) :=
  flat_map (fun ev => match ev with
                      | Query (Update _ values filters _) =>
                          List.map (fun b => (filters, b)) (bytesIn values)
                      | _ => []
                      end) l.

(** The values written to a column by the updates of a log. *)
Definition written (column : string) (l : list event) : list dbvalue :=
  flat_map (fun ev => match ev with
                      | Query (Update _ values _ _) =>
                          List.map snd
                            (List.filter (fun kv => String.eqb (fst kv) column) values)
                      | _ => []
                      end) l.

End Observe.

(* ===================================================================== *)
(** ** Two sentences of the specification, as they are worded *)
(* ===================================================================== *)

Module Worded.
Import CertificateGenerator Observe.

(** C1 as the specification words it: on success one string is at once
    the payload of the QR image of the bytes that were stored, the
    [certificateId] of the result, and the key the bytes were stored
    under. *)
Definition identifiers_coincide (run : M SaveResult) : Prop :=
  forall res, outcome run = Ok res ->
    exists id : string,
      certificateId res = Some (JStr id)
      /\ forall filters b, In (filters, b) (persisted (log run)) ->
           decodeQR b = [id]
           /\ forall column key, In (column, key) filters -> ToString key = id.

(** The horizontal distance between the page's midpoint and the point
    [start + estimatedWidth / 2] of the name line. *)
Definition offCenter (w : Q) (name : string) (estimatedWidth : Q) : Q :=
  Qabs (nameStart w name + estimatedWidth / 2 - w / 2).

(** C5 as the specification words it, with the estimated width the
    character count times the constant 12 of the start position: some
    tolerance bounds the distance for every two names of different
    lengths. *)
Definition centred_within_tolerance : Prop :=
  exists tol : Q, forall (w : Q) (n1 n2 : string),
    String.length n1 <> String.length n2 ->
    (offCenter w n1 (len n1 * 12) <= tol)%Q
    /\ (offCenter w n2 (len n2 * 12) <= tol)%Q.

Fixpoint letters (n : nat) : string :=
  match n with
  | O => ""
  | S n' => String "x" (letters n')
  end.

End Worded.
Import Worded.

(* ===================================================================== *)
(** ** Concrete environments and requests *)
(* ===================================================================== *)

Module Demo.
Import CertificateGenerator.

Definition templatePath : string := "/app/template/template.pdf".

Definition studentRow (name start cid : string) : object :=
  <["student_id" := JNum (Int 7)]>
  (<["preferred_name" := JStr name]>
  (<["course_name" := JStr "Full Stack"]>
  (<["company_name" := JStr "AddWise Tech Innovations"]>
  (<["internship_start_date" := JStr start]>
  (<["internship_end_date" := JStr "2025-04-15"]>
  (<["certificate_id" := JStr cid]> ∅)))))).

Definition asha : object := studentRow "Asha Rao" "2025-01-15" "AB12CD34".
Definition bartholomew : object :=
  studentRow "Bartholomew Fitzgerald" "2025-01-15" "ZX90QW12".
Definition undated : object := studentRow "Asha Rao" "soon" "AB12CD34".

(** A host [minutes] away from UTC where every library call succeeds: an
    A4 landscape template of one page, and a students table that answers
    every fetch with [row]. *)
Definition world (minutes now : Z) (row : object) : Env :=
  {| host := JSDate.fixedOffsetHost minutes;
     readFile := fun _ => Ok [];
     load := fun _ => Ok [(842, 595)%Q];
     embedFont_error := fun _ => None;
     encodeText_error := fun _ _ => None;
     toBuffer_error := fun _ _ => None;
     embedPng_error := fun _ => None;
     save_error := fun _ => None;
     save_length := fun _ => 48213;
     clock := now;
     random := fun _ => 0%Q;
     supabase := fun q =>
       match q with
       | Select _ _ _ _ => {| data := Some row; error := None |}
       | Update _ _ _ _ => {| data := None; error := None |}
       end |}.

(** The bytes of a render, when there are any. *)
Definition bytesOf (run : M Uint8Array) : Uint8Array :=
  match outcome run with
  | Ok b => b
  | Throw _ =>
      {| serialized := {| pages := []; embeddedFonts := []; embeddedImages := [] |};
         modificationDate := 0;
         byteLength := 0 |}
  end.

(** A row whose name is the empty string, whose course is null and whose
    company is not there. *)
Definition nameless : object :=
  <["student_id" := JNum (Int 7)]>
  (<["preferred_name" := JStr ""]>
  (<["course_name" := JNull]>
  (<["internship_start_date" := JStr "2025-01-15"]>
  (<["internship_end_date" := JStr "2025-04-15"]>
  (<["certificate_id" := JStr "AB12CD34"]> ∅))))).

Definition ashaBytes : Uint8Array :=
  bytesOf (generateCertificate (world 0 0 asha) templatePath asha).

Definition bartholomewBytes : Uint8Array :=
  bytesOf (generateCertificate (world 0 0 asha) templatePath bartholomew).

(** The same request rendered at two times of the clock. *)
Definition mondayBytes : Uint8Array :=
  bytesOf (generateCertificate (world 330 1000 asha) templatePath asha).

Definition tuesdayBytes : Uint8Array :=
  bytesOf (generateCertificate (world 330 2000 asha) templatePath asha).

Definition ashaResult : SaveResult :=
  match outcome (generateAndSaveCertificate (world 0 0 asha) templatePath (Int 7)) with
  | Ok res => res
  | Throw e =>
      {| success := false; message := JS.message e; student := None;
         certificateId := None; size := 0 |}
  end.

Definition undatedResult : SaveResult :=
  match outcome (generateAndSaveCertificate (world 0 0 undated) templatePath (Int 7)) with
  | Ok res => res
  | Throw e =>
      {| success := false; message := JS.message e; student := None;
         certificateId := None; size := 0 |}
  end.

(** A student who is registered and holds an identifier, and has not yet
    asked for a certificate. *)
Definition enrolled : object :=
  <["student_id" := JNum (Int 7)]>
  (<["name" := JStr "Asha Rao"]>
  (<["phone_number" := JStr "8184930950"]>
  (<["certificate_id" := JStr "AB12CD34"]> ∅))).

(** The request body of the repository's test script. *)
Definition testCertificateRequest : object :=
  <["phone_number" := JStr "8184930950"]>
  (<["internship_start_date" := JStr "2025-01-15"]>
  (<["internship_duration" := JNum (Int 3)]>
  (<["course_name" := JStr "Full Stack"]>
  (<["company_name" := JStr "AddWise Tech Innovations"]>
  (<["preferred_name" := JStr "Test User Certificate Request"]> ∅))))).

Definition parseInt (v : option jsval) : jsnum :=
  match v with
  | Some (JNum n) => n
  | _ => NaN
  end.

Definition endDateISO (start : option jsval) (months : jsnum) : result string :=
  Ok "2025-04-15".

Definition nowISO : string := "2025-01-20T10:00:00.000Z".

(** A world whose tables answer every lookup and every update with
    [enrolled]. *)
Definition office : Env :=
  {| host := JSDate.fixedOffsetHost 330;
     readFile := fun _ => Ok [];
     load := fun _ => Ok [(842, 595)%Q];
     embedFont_error := fun _ => None;
     encodeText_error := fun _ _ => None;
     toBuffer_error := fun _ _ => None;
     embedPng_error := fun _ => None;
     save_error := fun _ => None;
     save_length := fun _ => 48213;
     clock := 0;
     random := fun i => (inject_Z (Z.of_nat i) / 8)%Q;
     supabase := fun _ => {| data := Some enrolled; error := None |} |}.

Definition replyOf (run : M CertificatesRoute.reply) : CertificatesRoute.reply :=
  match outcome run with
  | Ok r => r
  | Throw e => CertificatesRoute.failure 0 "uncaught" "message" (JS.message e)
  end.

End Demo.

From Stdlib Require Import Bool DecimalFacts DecimalPos DecimalZ.

(* ===================================================================== *)
(** ** The built-in parseInt *)
(* ===================================================================== *)

Module JSNumber.

(** The value of a character as a digit: 0 to 9, then the letters of
    either case from 10 on. *)
Definition digitValue (c : ascii) : option Z :=
  let n := Z.of_N (N_of_ascii c) in
  if (48 <=? n) && (n <=? 57) then Some (n - 48)
  else if (97 <=? n) && (n <=? 122) then Some (n - 87)
  else if (65 <=? n) && (n <=? 90) then Some (n - 55)
  else None.

(** The value in radix [R] of the longest prefix of [s] made of digits of
    that radix, continuing from [acc]; [None] while no digit was read. *)
Fixpoint digitsValue (R : Z) (s : string) (acc : option Z) : option Z :=
  match s with
  | String c rest =>
      match digitValue c with
      | Some v =>
          if v <? R
          then digitsValue R rest
                           (Some match acc with
                                 | Some a => a * R + v
                                 | None => v
                                 end)
          else acc
      | None => acc
      end
  | EmptyString => acc
  end.

(** A leading sign: its value and the rest of the string. *)
Definition stripSign (s : string) : Z * string :=
  match s with
  | String c rest =>
      if Ascii.eqb c "-"%char then (-1, rest)
      else if Ascii.eqb c "+"%char then (1, rest)
      else (1, s)
  | EmptyString => (1, s)
  end.

(** A leading [0x] or [0X] selects radix 16, otherwise the radix is 10. *)
Definition stripPrefix (s : string) : Z * string :=
  match s with
  | String c0 (String c1 rest) =>
      if Ascii.eqb c0 "0"%char && (Ascii.eqb c1 "x"%char || Ascii.eqb c1 "X"%char)
      then (16, rest)
      else (10, s)
  | _ => (10, s)
  end.

(** [parseInt(string)] without a radix.  The result is the exact integer;
    JavaScript rounds it to a double, which differs above 2^53. *)
Definition parseIntString (s : string) : jsnum :=
  let trimmed := CertificatesRoute.trimStart s in
  let (sign, unsigned) := stripSign trimmed in
  let (R, digits) := stripPrefix unsigned in
  match digitsValue R digits None with
  | None => NaN
  | Some v => Int (sign * v)
  end.

(** [parseInt(value)]: the value is converted to a string first. *)
Definition parseInt (value : option jsval) : jsnum :=
  parseIntString (ToString value).

End JSNumber.

(* ===================================================================== *)
(** ** Decimal digits *)
(* ===================================================================== *)

Module Digits.
Import JSNumber.

(** The value of decimal digits read from the most significant, continuing
    from [acc]. *)
Fixpoint horner (acc : Z) (d : Decimal.uint) : Z :=
  match d with
  | Decimal.Nil => acc
  | Decimal.D0 d' => horner (acc * 10 + 0) d'
  | Decimal.D1 d' => horner (acc * 10 + 1) d'
  | Decimal.D2 d' => horner (acc * 10 + 2) d'
  | Decimal.D3 d' => horner (acc * 10 + 3) d'
  | Decimal.D4 d' => horner (acc * 10 + 4) d'
  | Decimal.D5 d' => horner (acc * 10 + 5) d'
  | Decimal.D6 d' => horner (acc * 10 + 6) d'
  | Decimal.D7 d' => horner (acc * 10 + 7) d'
  | Decimal.D8 d' => horner (acc * 10 + 8) d'
  | Decimal.D9 d' => horner (acc * 10 + 9) d'
  end.

(** The string is empty or starts with something else than a decimal
    digit. *)
Definition notDigit (rest : string) : bool :=
  match rest with
  | String c _ => match digitValue c with
                  | Some v => negb (v <? 10)
                  | None => true
                  end
  | EmptyString => true
  end.

(** The string is empty or starts with something else than [x] or [X]. *)
Definition notHex (rest : string) : bool :=
  match rest with
  | String c _ => negb (Ascii.eqb c "x"%char || Ascii.eqb c "X"%char)
  | EmptyString => true
  end.

End Digits.

(* ===================================================================== *)
(** ** src/services/certificateGenerator.js: getCertificate *)
(* ===================================================================== *)

Module CertificateReader.

(** The object [getCertificate] returns. *)
Record CertificateData : Type := {
  certificate : option jsval;
  studentName : option jsval;
  certificateId : option jsval
}.

Definition getCertificateQuery (studentId : jsnum) : query :=
  Select "students" "certificate, preferred_name, certificate_id"
         [("student_id", Some (JNum studentId))] true.

Section Reader.
Variable env : Env.

Definition getCertificate (studentId : jsnum) : M CertificateData :=
  try_catch
    (fetched <- await_query env (getCertificateQuery studentId) ;;
     match error fetched with
     | Some fetchError =>
         throw (Error ("Failed to fetch certificate: " ++ JS.message fetchError))
     | None =>
     match data fetched with
     | None => throw (Error "Certificate not found")
     | Some student =>
         if negb (truthy (student !! "certificate"))
         then throw (Error "Certificate not found")
         else ret {| certificate := student !! "certificate";
                     studentName := student !! "preferred_name";
                     certificateId := student !! "certificate_id" |}
     end
     end)
    (fun error => throw error).

End Reader.

End CertificateReader.

(* ===================================================================== *)
(** ** src/index.js: the certificate and eligibility endpoints *)
(* ===================================================================== *)

Module Server.

(** What is sent back: a JSON document (its top-level fields and the
    fields of its [data] object when it has one) or the bytes of a file. *)
Inductive payload : Type :=
| JsonBody (fields : list (string * option jsval))
           (data_fields : option (list (string * option jsval)))
| Raw (content : string).

(** A response: the status code, the headers the handler has set with
    [setHeader], and the payload. *)
Record sent : Type := {
  status : Z;
  headers : list (string * string);
  body : payload
}.

Definition json (code : Z) (set_headers : list (string * string))
           (fields : list (string * option jsval))
           (data_fields : option (list (string * option jsval))) : sent :=
  {| status := code; headers := set_headers; body := JsonBody fields data_fields |}.

Definition jstring (s : string) : option jsval := Some (JStr s).
Definition jbool (b : bool) : option jsval := Some (JBool b).

(** The double quote character. *)
Definition dquote : string := String (ascii_of_nat 34) EmptyString.

(** [Buffer.from(value)]: the bytes of a string, held here as the string
    they encode; a number, a boolean, [null] or [undefined] is a
    TypeError. *)
Definition Buffer_from (value : option jsval) : result string :=
  match value with
  | Some (JStr s) => Ok s
  | _ => Throw (Error "The first argument must be of type string or an instance of Buffer, ArrayBuffer, or Array or an Array-like Object.")
  end.

(** The fields of the object [generateAndSaveCertificate] returns. *)
Definition resultFields (r : CertificateGenerator.SaveResult) : list (string * option jsval) :=
  [("success", jbool (CertificateGenerator.success r));
   ("message", jstring (CertificateGenerator.message r));
   ("student", CertificateGenerator.student r);
   ("certificateId", CertificateGenerator.certificateId r);
   ("size", Some (JNum (Int (CertificateGenerator.size r))))].

(** The header that names the downloaded file. *)
Definition contentDisposition (studentName certificateId : option jsval) : string :=
  "attachment; filename=" ++ dquote ++ ToString studentName ++ "_Certificate_"
    ++ ToString certificateId ++ ".pdf" ++ dquote.

(** The characters a header value may hold: the tab, the visible
    characters and the space, and the code units from 128 on (Node's
    [checkInvalidHeaderChar]). *)
Definition validHeaderChar (c : ascii) : bool :=
  let n := Z.of_N (N_of_ascii c) in
  (n =? 9) || ((32 <=? n) && (n <=? 126)) || (128 <=? n).

Definition validHeaderValue (value : string) : bool :=
  forallb validHeaderChar (list_ascii_of_string value).

(** [res.setHeader(name, value)] for a string value: the headers set so
    far with this one added, or the TypeError ERR_INVALID_CHAR. *)
Definition setHeader (set_headers : list (string * string)) (name value : string)
  : M (list (string * string)) :=
  if validHeaderValue value
  then ret (set_headers ++ [(name, value)])%list
  else throw (Error ("Invalid character in header content [" ++ dquote ++ name
                       ++ dquote ++ "]")).

Definition certificateStatusQuery (studentId : jsnum) : query :=
  Select "students" "preferred_name, certificate_id, certificate"
         [("student_id", Some (JNum studentId))] true.

Definition eligibilityUpdate (studentId : jsnum) (eligible : bool) : query :=
  Update "students" [("eligible", Val (Some (JBool eligible)))]
         [("student_id", Some (JNum studentId))] true.

Section Endpoints.
Variable env : Env.
(** The template path of the one [CertificateGenerator] the server makes. *)
Variable templatePath : string.
(** The built-in [parseInt], taken as given. *)
Variable parseInt : option jsval -> jsnum.

(** POST /v1/certificates/generate/:studentId *)
Definition post_generate (params : object) : M sent :=
  try_catch
    (let studentId := params !! "studentId" in
     if negb (truthy studentId)
     then ret (json 400 [] [("success", jbool false);
                            ("error", jstring "Student ID is required")] None)
     else
       result <- CertificateGenerator.generateAndSaveCertificate
                   env templatePath (parseInt studentId) ;;
       ret (json 200 [] [("success", jbool true);
                         ("message", jstring "Certificate generated successfully")]
                 (Some (resultFields result))))
    (fun error =>
       ret (json 500 [] [("success", jbool false);
                         ("error", jstring "Failed to generate certificate");
                         ("details", jstring (JS.message error))] None)).

(** GET /v1/certificates/download/:studentId.  Each [setHeader] checks
    its value and throws on a character that a header cannot hold; a
    header that was set stays on the response when a later step throws. *)
Definition get_download (params : object) : M sent :=
  try_catch
    (let studentId := params !! "studentId" in
     if negb (truthy studentId)
     then ret (json 400 [] [("success", jbool false);
                            ("error", jstring "Student ID is required")] None)
     else
       certificateData <- CertificateReader.getCertificate env (parseInt studentId) ;;
       let download_error set_headers error :=
         ret (json 500 set_headers
                   [("success", jbool false);
                    ("error", jstring "Failed to download certificate");
                    ("details", jstring (JS.message error))] None) in
       try_catch
         (set1 <- setHeader [] "Content-Type" "application/pdf" ;;
          try_catch
            (set2 <- setHeader set1 "Content-Disposition"
                       (contentDisposition
                          (CertificateReader.studentName certificateData)
                          (CertificateReader.certificateId certificateData)) ;;
             try_catch
               (content <- lift (Buffer_from
                                   (CertificateReader.certificate certificateData)) ;;
                ret {| status := 200; headers := set2; body := Raw content |})
               (download_error set2))
            (download_error set1))
         (download_error []))
    (fun error =>
       ret (json 500 [] [("success", jbool false);
                         ("error", jstring "Failed to download certificate");
                         ("details", jstring (JS.message error))] None)).

(** GET /v1/certificates/status/:studentId *)
Definition get_status (params : object) : M sent :=
  try_catch
    (let studentId := params !! "studentId" in
     if negb (truthy studentId)
     then ret (json 400 [] [("success", jbool false);
                            ("error", jstring "Student ID is required")] None)
     else
       fetched <- await_query env (certificateStatusQuery (parseInt studentId)) ;;
       match error fetched with
       | Some error =>
           ret (json 500 [] [("success", jbool false);
                             ("error", jstring "Failed to fetch certificate status");
                             ("details", jstring (JS.message error))] None)
       | None =>
       match data fetched with
       | None =>
           ret (json 404 [] [("success", jbool false);
                             ("error", jstring "Student not found")] None)
       | Some student =>
           let hasCertificate := truthy (student !! "certificate") in
           ret (json 200 [] [("success", jbool true)]
                     (Some [("studentName", student !! "preferred_name");
                            ("certificateId", student !! "certificate_id");
                            ("hasCertificate", jbool hasCertificate);
                            ("generatedAt", Some JNull);
                            ("status", jstring (if hasCertificate
                                                then "generated"
                                                else "not_generated"))]))
       end
       end)
    (fun error =>
       ret (json 500 [] [("success", jbool false);
                         ("error", jstring "Failed to get certificate status");
                         ("details", jstring (JS.message error))] None)).

(** PUT /v1/students/:studentId/eligibility.  Reading [student_id] off an
    update that answered with neither an error nor a row is a TypeError. *)
Definition put_eligibility (params req_body : object) : M sent :=
  try_catch
    (let studentId := params !! "studentId" in
     let eligible := req_body !! "eligible" in
     if negb (truthy studentId)
     then ret (json 400 [] [("success", jbool false);
                            ("error", jstring "Student ID is required")] None)
     else
       match eligible with
       | Some (JBool b) =>
           updated <- await_query env (eligibilityUpdate (parseInt studentId) b) ;;
           match error updated with
           | Some updateError =>
               ret (json 500 [] [("success", jbool false);
                                 ("error", jstring "Failed to update student eligibility");
                                 ("details", jstring (JS.message updateError))] None)
           | None =>
           match data updated with
           | None =>
               throw (Error "Cannot read properties of null (reading 'student_id')")
           | Some updatedStudent =>
               ret (json 200 []
                         [("success", jbool true);
                          ("message", jstring "Student eligibility updated successfully")]
                         (Some [("studentId", updatedStudent !! "student_id");
                                ("eligible", updatedStudent !! "eligible")]))
           end
           end
       | _ =>
           ret (json 400 [] [("success", jbool false);
                             ("error", jstring "Eligible status must be a boolean value")]
                     None)
       end)
    (fun error =>
       ret (json 500 [] [("success", jbool false);
                         ("error", jstring "Failed to update student eligibility");
                         ("details", jstring (JS.message error))] None)).

End Endpoints.

End Server.

(* ===================================================================== *)
(** ** The certificates router: GET /request-status/:phoneNumber *)
(* ===================================================================== *)

Module RequestStatus.

(** The template literal handed to [select], line breaks and indentation
    included. *)
Definition requestStatusColumns : string :=
  "
        student_id,
        name,
        preferred_name,
        internship_start_date,
        internship_end_date,
        eligible,
        courses(course_name),
        companies(company_name)
      ".

(** The row of an embedded table is held under dotted keys:
    [student.courses?.course_name] is the key [courses.course_name]. *)
Definition requestStatusQuery (phoneNumber : option jsval) : query :=
  Select "students" requestStatusColumns
         [("phone_number", phoneNumber); ("deleted", Some (JBool false))] true.

(** [hasCertificate ? 'completed' : hasSubmittedRequest ? 'pending' : 'not_requested'] *)
Definition statusOf (hasCertificate hasSubmittedRequest : bool) : string :=
  if hasCertificate then "completed"
  else if hasSubmittedRequest then "pending" else "not_requested".

Section Handler.
Variable env : Env.

Definition get_request_status (params : object) : M Server.sent :=
  try_catch
    (let phoneNumber := params !! "phoneNumber" in
     if negb (truthy phoneNumber)
     then ret (Server.json 400 [] [("success", Server.jbool false);
                                   ("error", Server.jstring "Phone number is required")]
                           None)
     else
       fetched <- await_query env (requestStatusQuery phoneNumber) ;;
       match error fetched with
       | Some error =>
           ret (Server.json 500 []
                  [("success", Server.jbool false);
                   ("error", Server.jstring "Failed to fetch certificate request status");
                   ("details", Server.jstring (JS.message error))] None)
       | None =>
       match data fetched with
       | None =>
           ret (Server.json 404 [] [("success", Server.jbool false);
                                    ("error", Server.jstring "Student not found")] None)
       | Some student =>
           let hasSubmittedRequest :=
             truthy (student !! "internship_start_date")
             && truthy (student !! "preferred_name") in
           let hasCertificate := false in
           ret (Server.json 200 [] [("success", Server.jbool true)]
                  (Some [("studentId", student !! "student_id");
                         ("name", student !! "name");
                         ("preferredName", student !! "preferred_name");
                         ("course", student !! "courses.course_name");
                         ("company", student !! "companies.company_name");
                         ("internshipStartDate", student !! "internship_start_date");
                         ("internshipEndDate", student !! "internship_end_date");
                         ("requestDate", Some JNull);
                         ("hasSubmittedRequest", Server.jbool hasSubmittedRequest);
                         ("isEligible", student !! "eligible");
                         ("hasCertificate", Server.jbool hasCertificate);
                         ("certificateGeneratedAt", Some JNull);
                         ("status", Server.jstring
                                      (statusOf hasCertificate hasSubmittedRequest))]))
       end
       end)
    (fun error =>
       ret (Server.json 500 []
              [("success", Server.jbool false);
               ("error", Server.jstring "Failed to get certificate request status");
               ("message", Server.jstring (JS.message error))] None)).

End Handler.

End RequestStatus.

(* ===================================================================== *)
(** ** Reading the text of an output *)
(* ===================================================================== *)

Module Layout.

(** Text, start, baseline, size, font and colour of every text drawn on a
    page, in order. *)
Definition linesOf (p : PDFPage) : list (string * Q * Q * Q * StandardFonts * Color) :=
  flat_map (fun o => match o with
                     | DrawText t x y size font color => [(t, x, y, size, font, color)]
                     | DrawImage _ _ _ _ _ => []
                     end) (drawn p).

Definition firstPageLines (b : Uint8Array) : list (string * Q * Q * Q * StandardFonts * Color) :=
  match pages (serialized b) with
  | p :: _ => linesOf p
  | [] => []
  end.

Definition pageSizes (b : Uint8Array) : list (Q * Q) :=
  List.map (fun p => (pageWidth p, pageHeight p)) (pages (serialized b)).

End Layout.

(* ===================================================================== *)
(** ** Reading a response and the queries of a log *)
(* ===================================================================== *)

Module Replies.
Import CertificatesRoute.

(** The value of a field of the [data] object of a JSON response. *)
Definition dataField (name : string) (s : Server.sent) : option (option jsval) :=
  match Server.body s with
  | Server.JsonBody _ (Some fields) =>
      snd <$> List.find (fun kv => String.eqb (fst kv) name) fields
  | _ => None
  end.

(** The value of a top-level field of a JSON response. *)
Definition topField (name : string) (s : Server.sent) : option (option jsval) :=
  match Server.body s with
  | Server.JsonBody fields _ =>
      snd <$> List.find (fun kv => String.eqb (fst kv) name) fields
  | Server.Raw _ => None
  end.

(** The updates of a log, in order. *)
Definition updatesOf (l : list event) : list query :=
  flat_map (fun ev => match ev with
                      | Query (Update t v f s) => [Update t v f s]
                      | _ => []
                      end) l.

(** The fields of the body of POST /request that must be present. *)
Definition requestFields : list string :=
  [ "phone_number"; "internship_start_date"; "internship_duration";
    "course_name"; "company_name"; "preferred_name" ].

(** The two lookups of POST /request. *)
Definition courseQuery (course_name : option jsval) : query :=
  lookup_query "courses" "course_id, course_name" "course_name" course_name.

Definition companyQuery (company_name : option jsval) : query :=
  lookup_query "companies" "company_id, company_name" "company_name" company_name.

(** A lookup that answered with a row and no error. *)
Definition found (r : response) : bool :=
  match error r, data r with
  | None, Some _ => true
  | _, _ => false
  end.

End Replies.

(* ===================================================================== *)
(** ** src/test-otp.js: the functions of WorkingOtpService that call nothing *)
(* ===================================================================== *)

Module Otp.

(** [Math.floor(100000 + Math.random() * 900000).toString()] for the draw
    [r] of [Math.random]: the product is rounded to the nearest double,
    then the sum. *)
Definition generateOTP (r : Q) : string :=
  Z_to_string (Qfloor (JSDouble.add 100000 (JSDouble.mul r 900000))).

(** The character class [[\s\-\+]]. *)
Definition is_separator (c : ascii) : bool :=
  CertificatesRoute.is_space c || Ascii.eqb c "-"%char || Ascii.eqb c "+"%char.

(** [phoneNumber.replace(/[\s\-\+]/g, '')] *)
Fixpoint clean (s : string) : string :=
  match s with
  | String c rest => if is_separator c then clean rest else String c (clean rest)
  | EmptyString => EmptyString
  end.

(** The character classes [\d] and [[6-9]]. *)
Definition is_digit (c : ascii) : bool :=
  let n := Z.of_N (N_of_ascii c) in (48 <=? n) && (n <=? 57).

Definition is_6_to_9 (c : ascii) : bool :=
  let n := Z.of_N (N_of_ascii c) in (54 <=? n) && (n <=? 57).

(** [/^[6-9]\d{9}$/.test] *)
Definition indianMobileRegex (s : string) : bool :=
  match s with
  | String c rest =>
      is_6_to_9 c && (String.length rest =? 9)%nat
      && forallb is_digit (list_ascii_of_string rest)
  | EmptyString => false
  end.

Definition validatePhoneNumber (phoneNumber : string) : bool :=
  let cleanNumber := clean phoneNumber in
  indianMobileRegex cleanNumber.

(** [s.substring(n)] *)
Fixpoint substringFrom (n : nat) (s : string) : string :=
  match n, s with
  | S n', String _ rest => substringFrom n' rest
  | _, _ => s
  end.

Definition formatPhoneNumber (phoneNumber : string) : string :=
  let cleanNumber := clean phoneNumber in
  if String.prefix "91" cleanNumber && (String.length cleanNumber =? 12)%nat
  then substringFrom 2 cleanNumber
  else cleanNumber.

(** [/^\d{6}$/.test], the check of an OTP in POST /verify-otp. *)
Definition otpFormat (otp : string) : bool :=
  (String.length otp =? 6)%nat && forallb is_digit (list_ascii_of_string otp).

End Otp.

(* ===================================================================== *)
(** ** The auth router: the session token and the profile endpoints *)
(* ===================================================================== *)

Module Auth.

(** The response: the status code, the top-level fields of the JSON
    document and the fields of its [user] object when it has one. *)
Record reply : Type := {
  status : Z;
  body : list (string * option jsval);
  user : option (list (string * option jsval))
}.

Definition refusal (code : Z) (err msg : string) : reply :=
  {| status := code;
     body := [("success", Some (JBool false));
              ("error", Some (JStr err));
              ("message", Some (JStr msg))];
     user := None |}.

(** String.prototype.split with a separator of one character. *)
Fixpoint split (sep : ascii) (s : string) : list string :=
  match s with
  | EmptyString => [EmptyString]
  | String c rest =>
      if Ascii.eqb c sep then EmptyString :: split sep rest
      else match split sep rest with
           | first :: others => String c first :: others
           | [] => [String c EmptyString]
           end
  end.

(** The token of POST /verify-otp: [`session_${userId}_${Date.now()}`]. *)
Definition sessionToken (userId : option jsval) (now : Z) : string :=
  "session_" ++ ToString userId ++ "_" ++ Z_to_string now.

Definition adminQuery (userId : option jsval) : query :=
  Select "admin" "*" [("admin_id", userId)] true.

Definition studentQuery (userId : option jsval) : query :=
  Select "students" "*"
         [("student_id", userId); ("deleted", Some (JBool false))] true.

Definition renameQuery (table key : string) (userId : option jsval) (name : string)
  : query :=
  Update table [("name", Val (Some (JStr name)))] [(key, userId)] true.

(** [!error && row] *)
Definition isFound (r : response) : option object :=
  match error r, data r with
  | None, Some row => Some row
  | _, _ => None
  end.

(** The response that carries a profile. *)
Definition profile (message userType key : string) (row : object) : reply :=
  {| status := 200;
     body := [("success", Some (JBool true));
              ("message", Some (JStr message));
              ("userType", Some (JStr userType))];
     user := Some [("id", row !! key);
                   ("phoneNumber", row !! "phone_number");
                   ("name", row !! "name");
                   ("email", or_else (row !! "email") (Some JNull));
                   ("createdAt", row !! "created_at");
                   ("role", Some (JStr userType))] |}.

(** [name.trim()] on a value that is truthy. *)
Definition trimName (name : option jsval) : M string :=
  match name with
  | Some (JStr s) => ret (CertificatesRoute.trim s)
  | _ => throw (Error "name.trim is not a function")
  end.

Section Handlers.
Variable env : Env.

(** GET /profile/:sessionToken *)
Definition get_profile (params : object) : M reply :=
  try_catch
    (let sessionToken := params !! "sessionToken" in
     if negb (truthy sessionToken)
     then ret (refusal 401 "Invalid session token" "Valid session token is required")
     else
       match sessionToken with
       | Some (JStr token) =>
           if negb (String.prefix "session_" token)
           then ret (refusal 401 "Invalid session token"
                             "Valid session token is required")
           else
             let parts := split "_" token in
             if (length parts <? 3)%nat
             then ret (refusal 401 "Invalid session token format"
                               "Session token format is invalid")
             else
               let userId := JStr <$> nth_error parts 1 in
               admin <- await_query env (adminQuery userId) ;;
               match isFound admin with
               | Some adminUser =>
                   ret (profile "Profile retrieved successfully" "admin" "admin_id"
                                adminUser)
               | None =>
                   student <- await_query env (studentQuery userId) ;;
                   match isFound student with
                   | Some studentUser =>
                       ret (profile "Profile retrieved successfully" "student"
                                    "student_id" studentUser)
                   | None =>
                       ret (refusal 404 "User not found" "User profile not found")
                   end
               end
       | _ => throw (Error "sessionToken.startsWith is not a function")
       end)
    (fun error => ret (refusal 500 "Failed to get profile" (JS.message error))).

(** The end of PUT /profile: the row that the update returned is read. *)
Definition updatedProfile (userType key : string) (updatedUser : option object)
  : M reply :=
  match updatedUser with
  | Some row => ret (profile "Profile updated successfully" userType key row)
  | None => throw (Error ("Cannot read properties of null (reading '" ++ key ++ "')"))
  end.

(** PUT /profile/:sessionToken *)
Definition put_profile (params req_body : object) : M reply :=
  try_catch
    (let sessionToken := params !! "sessionToken" in
     let name := req_body !! "name" in
     if negb (truthy sessionToken)
     then ret (refusal 401 "Invalid session token" "Valid session token is required")
     else
       match sessionToken with
       | Some (JStr token) =>
           if negb (String.prefix "session_" token)
           then ret (refusal 401 "Invalid session token"
                             "Valid session token is required")
           else if negb (truthy name)
           then ret (refusal 400 "Invalid name" "Name must be at least 2 characters long")
           else
             trimmed <- trimName name ;;
             if (String.length trimmed <? 2)%nat
             then ret (refusal 400 "Invalid name"
                               "Name must be at least 2 characters long")
             else
               let parts := split "_" token in
               let userId := JStr <$> nth_error parts 1 in
               admin <- await_query env (adminQuery userId) ;;
               match isFound admin with
               | Some _ =>
                   updated <- await_query env
                                (renameQuery "admin" "admin_id" userId trimmed) ;;
                   match error updated with
                   | Some updateError =>
                       ret (refusal 500 "Failed to update admin profile"
                                    (JS.message updateError))
                   | None => updatedProfile "admin" "admin_id" (data updated)
                   end
               | None =>
                   student <- await_query env (studentQuery userId) ;;
                   match isFound student with
                   | Some _ =>
                       updated <- await_query env
                                    (renameQuery "students" "student_id" userId
                                                 trimmed) ;;
                       match error updated with
                       | Some updateError =>
                           ret (refusal 500 "Failed to update student profile"
                                        (JS.message updateError))
                       | None => updatedProfile "student" "student_id" (data updated)
                       end
                   | None =>
                       ret (refusal 404 "User not found" "User profile not found")
                   end
               end
       | _ => throw (Error "sessionToken.startsWith is not a function")
       end)
    (fun error => ret (refusal 500 "Failed to update profile" (JS.message error))).

End Handlers.

End Auth.

(* ===================================================================== *)
(** ** src/test-otp.js and the auth router: sending and verifying an OTP *)
(* ===================================================================== *)

Module OtpService.
Import Otp.

(** Calls that reach outside the process, in the order they are made.
    Selects that end in [single()] are queries as before; the other
    statements on [otp_sessions] and on the login logs, and the request to
    the SMS gateway, are named by what varies in them (the fixed parameters
    of the gateway are the same in every request).  Times are time values:
    the column receives their [toISOString()]. *)
Inductive call : Type :=
| Sql (q : query)
  (* update otp_sessions set is_verified = true
     where phone_number = .. and is_verified = false *)
| InvalidateOtps (phoneNumber : string)
  (* insert into otp_sessions, then select().single() *)
| InsertOtp (phoneNumber otp : string) (expiresAt : Z)
  (* select * from otp_sessions where phone_number = .. and otp_code = ..
     and is_verified = false and expires_at > now
     order by created_at desc limit 1, single() *)
| FindOtp (phoneNumber : string) (otp : option jsval) (now : Z)
  (* update otp_sessions set is_verified = true where session_id = .. *)
| MarkVerified (session_id : option jsval)
  (* insert into admin_login_logs or student_login_logs *)
| InsertLoginLog (table field : string) (userId : option jsval) (login_time : Z)
  (* GET to the gateway with this receiver and this text *)
| HttpGet (receiver sms : string).

(** What [fetch] and [response.text()] come to: a status and a body, or a
    rejection with the name and the message of its error. *)
Inductive fetched : Type :=
| Responded (status : Z) (text : string)
| Rejected (name message : string).

(** The outside world, as seen by one request. *)
Record World : Type := {
  tables : query -> response;
  insertOtp : string -> string -> Z -> response;
  findOtp : string -> option jsval -> Z -> response;
  markVerified : option jsval -> option JS.error;
  insertLoginLog : string -> string -> option jsval -> Z -> option JS.error;
  fetch : string -> string -> fetched;
  (* the n-th reading of the clock within the request *)
  time : nat -> Z;
  (* Math.random *)
  draw : Q
}.

(** Computations that log their calls and may throw. *)
Definition T (A : Type) : Type := (list call * result A)%type.

Definition ret {A} (a : A) : T A := ([], Ok a).

Definition throw {A} (e : JS.error) : T A := ([], Throw e).

Definition bind {A B} (m : T A) (f : A -> T B) : T B :=
  match m with
  | (l, Ok a) => let (l', r) := f a in ((l ++ l')%list, r)
  | (l, Throw e) => (l, Throw e)
  end.

Definition try_catch {A} (m : T A) (h : JS.error -> T A) : T A :=
  match m with
  | (l, Throw e) => let (l', r) := h e in ((l ++ l')%list, r)
  | (l, Ok a) => (l, Ok a)
  end.

Definition emit (c : call) : T unit := ([c], Ok tt).

Definition calls {A} (m : T A) : list call := fst m.
Definition answer {A} (m : T A) : result A := snd m.

Declare Scope otp_scope.
Delimit Scope otp_scope with otp.
Notation "x <- c1 ;; c2" := (bind c1 (fun x => c2))
  (at level 100, c1 at next level, right associativity) : otp_scope.
Notation "c1 ;; c2" := (bind c1 (fun _ => c2))
  (at level 100, right associativity) : otp_scope.
Local Open Scope otp_scope.

(** A JavaScript object given by its fields, in order. *)
Definition fields : Type := list (string * option jsval).

Definition field (name : string) (o : fields) : option jsval :=
  match List.find (fun kv => String.eqb (fst kv) name) o with
  | Some kv => snd kv
  | None => None
  end.

(** String.prototype.includes *)
Fixpoint includes (needle hay : string) : bool :=
  String.prefix needle hay
  || match hay with
     | String _ rest => includes needle rest
     | EmptyString => false
     end.

(** [role === s] *)
Definition isRole (role : option jsval) (s : string) : bool :=
  match role with
  | Some (JStr r) => String.eqb r s
  | _ => false
  end.

(** What [validatePhoneInDatabase] returns. *)
Record Validation : Type := {
  exists_ : bool;
  userType : option string;
  user : option object;
  message : option string
}.

(** What [sendOTP] returns. *)
Record SendResult : Type := {
  success : bool;
  sentMessage : string;
  phoneNumber : string;
  sentUserType : option string;
  smsResult : fields;
  otp : string
}.

(** What [verifyOTP] returns. *)
Record VerifyResult : Type := {
  isValid : bool;
  verifyMessage : string;
  otpRecord : option object
}.

(** A response of the auth router for [send-otp]: the status code, the
    top-level fields of the JSON document, and its objects [smsDetails]
    and [debug] when it has them. *)
Record sendReply : Type := {
  status : Z;
  body : fields;
  smsDetails : option fields;
  debug : option fields
}.

Definition refusal (code : Z) (err msg : string) : sendReply :=
  {| status := code;
     body := [("success", Some (JBool false));
              ("error", Some (JStr err));
              ("message", Some (JStr msg))];
     smsDetails := None;
     debug := None |}.

Definition adminByPhone (columns phoneNumber : string) : query :=
  Select "admin" columns [("phone_number", Some (JStr phoneNumber))] true.

Definition studentByPhone (columns phoneNumber : string) : query :=
  Select "students" columns
         [("phone_number", Some (JStr phoneNumber)); ("deleted", Some (JBool false))] true.

(** The text of the SMS. *)
Definition smsText (otp : string) : string :=
  "Welcome to NighaTech Global Your OTP for authentication is " ++ otp
    ++ " don't share with anybody Thank you".

Section Service.
Variable world : World.

Definition await_sql (q : query) : T response :=
  emit (Sql q) ;; ret (tables world q).

Definition found (userType : string) (row : object) : Validation :=
  {| exists_ := true; userType := Some userType; user := Some row; message := None |}.

Definition notFound (msg : option string) : Validation :=
  {| exists_ := false; userType := None; user := None; message := msg |}.

Definition validatePhoneInDatabase (phoneNumber : string) (role : option jsval)
  : T Validation :=
  try_catch
    (if isRole role "admin"
     then
       admin <- await_sql (adminByPhone "admin_id, name, phone_number" phoneNumber) ;;
       match Auth.isFound admin with
       | Some adminUser => ret (found "admin" adminUser)
       | None => ret (notFound (Some "Phone number not found in admin records"))
       end
     else if isRole role "user" || isRole role "student"
     then
       student <- await_sql
                    (studentByPhone "student_id, name, phone_number" phoneNumber) ;;
       match Auth.isFound student with
       | Some studentUser => ret (found "student" studentUser)
       | None => ret (notFound (Some "Phone number not found in student records"))
       end
     else
       admin <- await_sql (adminByPhone "admin_id, name, phone_number" phoneNumber) ;;
       match Auth.isFound admin with
       | Some adminUser => ret (found "admin" adminUser)
       | None =>
           student <- await_sql
                        (studentByPhone "student_id, name, phone_number" phoneNumber) ;;
           match Auth.isFound student with
           | Some studentUser => ret (found "student" studentUser)
           | None => ret (notFound None)
           end
       end)
    (fun error => throw error).

(** [storeOTP]: the clock is read once, for the expiry ten minutes on. *)
Definition storeOTP (phoneNumber otp : string) : T (option object) :=
  try_catch
    (let expiresAt := time world 0 + 10 * 60 * 1000 in
     emit (InvalidateOtps phoneNumber) ;;
     emit (InsertOtp phoneNumber otp expiresAt) ;;
     let stored := insertOtp world phoneNumber otp expiresAt in
     match error stored with
     | Some error => throw (Error ("Failed to store OTP: " ++ JS.message error))
     | None => ret (data stored)
     end)
    (fun error => throw error).

(** [sendOtpSms] never throws: a rejection becomes a result. *)
Definition sendOtpSms (phoneNumber otp : string) : T fields :=
  let message := smsText otp in
  emit (HttpGet phoneNumber message) ;;
  match fetch world phoneNumber message with
  | Responded status responseText =>
      if status =? 200
      then ret [("success", Some (JBool true));
                ("message", Some (JStr ("SMS sent successfully to " ++ phoneNumber)));
                ("apiResponse", Some (JStr responseText));
                ("status", Some (JNum (Int status)))]
      else ret [("success", Some (JBool false));
                ("error", Some (JStr ("SMS API returned status " ++ Z_to_string status
                                        ++ ": " ++ responseText)));
                ("apiResponse", Some (JStr responseText));
                ("status", Some (JNum (Int status)))]
  | Rejected name msg =>
      ret [("success", Some (JBool false));
           ("error", Some (JStr ("Failed to send SMS: " ++ msg)));
           ("exception", Some (JStr name))]
  end.

Definition roleMessage (role : option jsval) : string :=
  if isRole role "admin" then "admin records"
  else if isRole role "user" || isRole role "student" then "student records"
  else "database".

Definition sendOTP (phoneNumber : string) (name role : option jsval) : T SendResult :=
  try_catch
    (let formattedPhone := formatPhoneNumber phoneNumber in
     if negb (validatePhoneNumber formattedPhone)
     then throw (Error "Invalid phone number format. Must be a valid 10-digit Indian mobile number starting with 6-9")
     else
       phoneValidation <- validatePhoneInDatabase formattedPhone role ;;
       if negb (exists_ phoneValidation)
       then throw (Error ("Phone number not registered in " ++ roleMessage role
                            ++ ". Please contact administrator to register your phone number."))
       else
         let otp := generateOTP (draw world) in
         storeOTP formattedPhone otp ;;
         smsResult <- sendOtpSms formattedPhone otp ;;
         ret {| success := true;
                sentMessage := "OTP sent successfully";
                phoneNumber := formattedPhone;
                sentUserType := userType phoneValidation;
                smsResult := smsResult;
                otp := otp |})
    (fun error => throw error).

(** [verifyOTP]: the clock is read once, for the expiry test. *)
Definition verifyOTP (phoneNumber : string) (otp : option jsval) : T VerifyResult :=
  try_catch
    (let now := time world 0 in
     emit (FindOtp phoneNumber otp now) ;;
     match Auth.isFound (findOtp world phoneNumber otp now) with
     | None => ret {| isValid := false;
                      verifyMessage := "Invalid or expired OTP";
                      otpRecord := None |}
     | Some otpRecord =>
         emit (MarkVerified (otpRecord !! "session_id")) ;;
         match markVerified world (otpRecord !! "session_id") with
         | Some updateError =>
             throw (Error ("Failed to update OTP status: " ++ JS.message updateError))
         | None => ret {| isValid := true;
                          verifyMessage := "OTP verified successfully";
                          otpRecord := Some otpRecord |}
         end
     end)
    (fun error => throw error).

(** [phoneNumber.replace(...)] on a value that is truthy: a value that is
    not a string has no [replace]. *)
Definition formatted (phoneNumber : option jsval) : T string :=
  match phoneNumber with
  | Some (JStr s) => ret (formatPhoneNumber s)
  | _ => throw (Error "phoneNumber.replace is not a function")
  end.

(** POST /send-otp *)
Definition send_otp (req_body : object) : T sendReply :=
  try_catch
    (let phoneNumber := req_body !! "phoneNumber" in
     let name := req_body !! "name" in
     let role := req_body !! "role" in
     if negb (truthy phoneNumber)
     then ret (refusal 400 "Phone number is required" "Phone number must be provided")
     else
       formattedPhone <- formatted phoneNumber ;;
       if negb (validatePhoneNumber formattedPhone)
       then ret (refusal 400 "Invalid phone number format"
                         "Phone number must be a valid 10-digit Indian mobile number starting with 6-9")
       else
         result <- sendOTP formattedPhone name role ;;
         if negb (success result)
         then ret (refusal 400 "Failed to send OTP"
                           (if String.eqb (sentMessage result) ""
                            then "OTP sending failed" else sentMessage result))
         else
           let smsSuccess := truthy (field "success" (smsResult result)) in
           let message := "OTP sent successfully for authentication" in
           ret {| status := 200;
                  body :=
                    [("success", Some (JBool true));
                     ("message",
                      Some (JStr (if smsSuccess then message
                                  else message ++ " (SMS delivery may have failed)")));
                     ("phoneNumber", Some (JStr formattedPhone));
                     ("smsStatus", field "success" (smsResult result))];
                  smsDetails := Some (smsResult result);
                  debug := Some [("generatedOtp", Some (JStr (otp result)));
                                 ("service", Some (JStr "WorkingOtpService"))] |})
    (fun error =>
       if includes "Phone number not registered" (JS.message error)
       then ret (refusal 400 "Phone number not registered" (JS.message error))
       else ret (refusal 500 "Failed to send OTP" (JS.message error))).

(** The user object of a login. *)
Definition loggedIn (message userType key : string) (row : object) (token : string)
  : Auth.reply :=
  {| Auth.status := 200;
     Auth.body := [("success", Some (JBool true));
                   ("message", Some (JStr message));
                   ("isNewUser", Some (JBool false));
                   ("userType", Some (JStr userType));
                   ("sessionToken", Some (JStr token));
                   ("otpVerified", Some (JBool true))];
     Auth.user := Some [("id", row !! key);
                        ("phoneNumber", row !! "phone_number");
                        ("name", row !! "name");
                        ("email", or_else (row !! "email") (Some JNull));
                        ("createdAt", row !! "created_at");
                        ("role", Some (JStr userType))] |}.

(** The end of POST /verify-otp, once the user is known: the token is made
    at the second reading of the clock, the login is logged with the
    third, and an error of that insert is only printed. *)
Definition login (message userType key logTable : string) (row : object)
  : T Auth.reply :=
  let userId := row !! key in
  let sessionToken := Auth.sessionToken userId (time world 1) in
  emit (InsertLoginLog logTable key userId (time world 2)) ;;
  ret (loggedIn message userType key row sessionToken).

(** POST /verify-otp *)
Definition verify_otp (req_body : object) : T Auth.reply :=
  try_catch
    (let phoneNumber := req_body !! "phoneNumber" in
     let otp := req_body !! "otp" in
     if negb (truthy phoneNumber) || negb (truthy otp)
     then ret (Auth.refusal 400 "Phone number and OTP are required"
                            "Both phone number and OTP must be provided")
     else
       formattedPhone <- formatted phoneNumber ;;
       if negb (validatePhoneNumber formattedPhone)
       then ret (Auth.refusal 400 "Invalid phone number format"
                              "Phone number must be a valid 10-digit Indian mobile number starting with 6-9")
       else if negb (otpFormat (ToString otp))
       then ret (Auth.refusal 400 "Invalid OTP format" "OTP must be a 6-digit number")
       else
         otpResult <- verifyOTP formattedPhone otp ;;
         if negb (isValid otpResult)
         then ret (Auth.refusal 401 "Invalid or expired OTP" (verifyMessage otpResult))
         else
           admin <- await_sql (adminByPhone "*" formattedPhone) ;;
           match Auth.isFound admin with
           | Some adminUser =>
               login "Admin login successful" "admin" "admin_id" "admin_login_logs"
                     adminUser
           | None =>
               student <- await_sql (studentByPhone "*" formattedPhone) ;;
               match Auth.isFound student with
               | Some studentUser =>
                   login "Student login successful" "student" "student_id"
                         "student_login_logs" studentUser
               | None =>
                   ret (Auth.refusal 404 "User not found"
                                     "Phone number not registered. Please contact administrator to register your phone number.")
               end
           end)
    (fun error => ret (Auth.refusal 500 "OTP verification failed" (JS.message error))).

End Service.

End OtpService.

(* ===================================================================== *)
(** ** Reading the calls of the OTP service *)
(* ===================================================================== *)

Module OtpCalls.
Import OtpService.

Section Lookups.
Variable world : World.

(** The lookups that [validatePhoneInDatabase] makes for a role and a
    phone number: the table of the role, or without a role the admins and,
    when the number is not among them, the students. *)
Definition lookupsOf (role : option jsval) (phone : string) : list call :=
  if isRole role "admin"
  then [Sql (adminByPhone "admin_id, name, phone_number" phone)]
  else if isRole role "user" || isRole role "student"
  then [Sql (studentByPhone "student_id, name, phone_number" phone)]
  else
    match Auth.isFound (tables world (adminByPhone "admin_id, name, phone_number" phone)) with
    | Some _ => [Sql (adminByPhone "admin_id, name, phone_number" phone)]
    | None => [Sql (adminByPhone "admin_id, name, phone_number" phone);
               Sql (studentByPhone "student_id, name, phone_number" phone)]
    end.

End Lookups.

End OtpCalls.

(* ===================================================================== *)
(** ** Calendar dates as strings *)
(* ===================================================================== *)

Module Calendar.
Import CertificateGenerator.

(** The character of a decimal digit. *)
Definition digitChar (k : Z) : ascii := ascii_of_N (Z.to_N (48 + k)).

(** The date-only form YYYY-MM-DD of a year from 0 to 9999, a month and a
    day of the month. *)
Definition isoDate (y m d : Z) : string :=
  String (digitChar (y / 1000))
 (String (digitChar (y / 100 mod 10))
 (String (digitChar (y / 10 mod 10))
 (String (digitChar (y mod 10))
 (String "-"%char
 (String (digitChar (m / 10))
 (String (digitChar (m mod 10))
 (String "-"%char
 (String (digitChar (d / 10))
 (String (digitChar (d mod 10)) EmptyString))))))))).

(** The name of month 1 to 12. *)
Definition monthName (m : Z) : string := nth (Z.to_nat (m - 1)) months "".

End Calendar.

(* ===================================================================== *)
(** ** More concrete environments and requests *)
(* ===================================================================== *)

Module Cases.
Import CertificateGenerator.

(** An environment where every library call succeeds, with a template of
    the given page sizes and a database that answers with [answer]. *)
Definition worldOf (sizes : list (Q * Q)) (answer : query -> response) : Env :=
  {| host := JSDate.fixedOffsetHost 330;
     readFile := fun _ => Ok [];
     load := fun _ => Ok sizes;
     embedFont_error := fun _ => None;
     encodeText_error := fun _ _ => None;
     toBuffer_error := fun _ _ => None;
     embedPng_error := fun _ => None;
     save_error := fun _ => None;
     save_length := fun _ => 48213;
     clock := 0;
     random := fun i => (inject_Z (Z.of_nat i) / 8)%Q;
     supabase := answer |}.

(** Every query is answered with [row]. *)
Definition always (row : object) : query -> response :=
  fun _ => {| data := Some row; error := None |}.

(** Reads are answered with [row], writes fail. *)
Definition readOnly (row : object) : query -> response :=
  fun q => match q with
           | Select _ _ _ _ => {| data := Some row; error := None |}
           | Update _ _ _ _ =>
               {| data := None; error := Some (Error "permission denied for table students") |}
           end.

(** Every query fails. *)
Definition offline : query -> response :=
  fun _ => {| data := None; error := Some (Error "fetch failed") |}.

(** No row matches, and no error is reported. *)
Definition nobody : query -> response :=
  fun _ => {| data := None; error := None |}.

Definition a4 : list (Q * Q) := [(842, 595)%Q].
Definition twoPages : list (Q * Q) := [(842, 595)%Q; (595, 842)%Q].

Definition longName : string := "Maximiliana Alexandrovna Wolfeschlegelstein".

Definition maximiliana : object :=
  Demo.studentRow longName "2025-01-15" "QW12ER34".

(** A row whose name is a number. *)
Definition numbered : object :=
  <["preferred_name" := JNum (Int 42)]> Demo.asha.

Definition twoPageBytes : Uint8Array :=
  Demo.bytesOf (generateCertificate (worldOf twoPages (always Demo.asha))
                                    Demo.templatePath Demo.asha).

(** The route parameters of a request for student 7. *)
Definition seven : object := <["studentId" := JStr "7"]> ∅.

(** The URL segment 7abc. *)
Definition sevenAndMore : object := <["studentId" := JStr "7abc"]> ∅.

(** The stored certificate as the database hands it back: text. *)
Definition hexBytes : string := "\x255044462d312e37".

(** A row that holds a certificate. *)
Definition certified : object :=
  <["certificate" := JStr hexBytes]> Demo.asha.

(** A row with a start date and no preferred name. *)
Definition halfFilled : object :=
  <["internship_start_date" := JStr "2025-01-15"]> Demo.enrolled.

(** The URL parameter of the status of a request. *)
Definition phoneOfAsha : object := <["phoneNumber" := JStr "8184930950"]> ∅.



(** The student [Demo.enrolled] is in the table, courses and companies
    are found and updates succeed, but the lookup of the student by phone
    number fails. *)
Definition lookupFails : query -> response :=
  fun q => match q with
           | Select table _ _ _ =>
               if String.eqb table "students"
               then {| data := None;
                       error := Some (Error "TypeError: fetch failed") |}
               else {| data := Some Demo.enrolled; error := None |}
           | Update _ _ _ _ => {| data := Some Demo.enrolled; error := None |}
           end.

(** A row that holds a certificate and a name of two lines. *)
Definition twoLineName : object :=
  <["preferred_name" := JStr ("Asha" ++ String (ascii_of_nat 10) "Rao")]> certified.

(** The response of a run that sent one. *)
Definition sentBy (run : M Server.sent) : Server.sent :=
  match outcome run with
  | Ok s => s
  | Throw e => Server.json 0 [] [("uncaught", Some (JStr (JS.message e)))] None
  end.

(** A body whose [eligible] is the text true. *)
Definition eligibleAsText : object := <["eligible" := JStr "true"]> ∅.

(** A token without a time stamp, and a new name. *)
Definition bareToken : object := <["sessionToken" := JStr "session_7"]> ∅.

Definition renameToAsha : object := <["name" := JStr " Asha "]> ∅.

(** A body that asks for an OTP, and one that presents it. *)
Definition otpRequest : object := <["phoneNumber" := JStr "+91 98765-43210"]> ∅.

Definition otpAttempt : object :=
  <["otp" := JStr "550000"]> (<["phoneNumber" := JStr "+91 98765-43210"]> ∅).

(** The record of an OTP, and an admin who has the id of [Demo.enrolled]. *)
Definition otpSession : object := <["session_id" := JNum (Int 31)]> ∅.

Definition adminSeven : object :=
  <["admin_id" := JNum (Int 7)]> (<["name" := JStr "Registrar"]> ∅).

(** A world whose tables answer with [answer], where every other statement
    succeeds, the gateway accepts the text and the clock advances by a
    millisecond per reading. *)
Definition gatewayOf (answer : query -> response) : OtpService.World :=
  {| OtpService.tables := answer;
     OtpService.insertOtp := fun _ _ _ => {| data := Some otpSession; error := None |};
     OtpService.findOtp := fun _ _ _ => {| data := Some otpSession; error := None |};
     OtpService.markVerified := fun _ => None;
     OtpService.insertLoginLog := fun _ _ _ _ => None;
     OtpService.fetch := fun _ _ => OtpService.Responded 200 "OK";
     OtpService.time := fun n => 1737367200000 + Z.of_nat n;
     OtpService.draw := (1 # 2)%Q |}.

(** The phone number belongs to the student [Demo.enrolled], whose id an
    admin has as well. *)
Definition collision : query -> response :=
  fun q => match q with
           | Select table _ ((key, _) :: _) _ =>
               if String.eqb table "students"
               then {| data := Some Demo.enrolled; error := None |}
               else if String.eqb key "admin_id"
               then {| data := Some adminSeven; error := None |}
               else {| data := None; error := None |}
           | _ => {| data := None; error := None |}
           end.

(** The answer to [otpRequest] where every number is registered. *)
Definition otpReply : OtpService.sendReply :=
  match OtpService.answer (OtpService.send_otp (gatewayOf (always Demo.enrolled))
                                               otpRequest) with
  | Ok r => r
  | Throw _ => OtpService.refusal 0 "" ""
  end.

Definition numberedError : JS.error :=
  match outcome (generateCertificate (worldOf a4 (always numbered))
                                     Demo.templatePath numbered) with
  | Throw e => e
  | Ok _ => Error ""
  end.

Definition readOnlyBytes : Uint8Array :=
  Demo.bytesOf (generateCertificate (worldOf a4 (readOnly Demo.asha))
                                    Demo.templatePath Demo.asha).

Definition maximilianaBytes : Uint8Array :=
  Demo.bytesOf (generateCertificate (worldOf a4 (always maximiliana))
                                    Demo.templatePath maximiliana).

End Cases.

(* ===================================================================== *)
(** * Properties *)
(* ===================================================================== *)

Section RenderFacts.
Import CertificateGenerator Rendering.
Variable env : Env.
Variable path : string.

Lemma generateQRCode_ok (v : option jsval) (l : list event) (img : QRImage) :
  generateQRCode env v = (l, Ok img) ->
  exists cid, v = Some (JStr cid) /\ toBuffer_error env cid qrOptions = None
              /\ img = qrImageOf cid /\ l = [].
Proof.
  unfold generateQRCode, QRCode_toBuffer, try_catch, bind, guard, throw, ret.
  destruct v as [[ | b | n | s] | ]; simpl; try discriminate.
  destruct (toBuffer_error env s qrOptions) eqn:E; simpl; try discriminate.
  intros H. inversion H; subst. eauto.
Qed.

Lemma generateCertificate_rendered (sd : object) (l : list event) (b : Uint8Array) :
  generateCertificate env path sd = (l, Ok b) ->
  rendered env path sd b /\ l = [ReadFile path].
Proof.
  unfold generateCertificate, fs_readFile, PDFDocument_load, embedFont, drawName,
    drawText, embedPng, save, drawImage.
  unfold try_catch, bind, guard, throw, ret, lift, emit.
  destruct (readFile env path) as [buf | e] eqn:Hread; simpl; try discriminate.
  destruct (load env buf) as [sizes | e] eqn:Hload; simpl; try discriminate.
  destruct sizes as [ | [w h] rest]; simpl; try discriminate.
  destruct (embedFont_error env Helvetica) eqn:Hf1; simpl; try discriminate.
  destruct (embedFont_error env HelveticaBold) eqn:Hf2; simpl; try discriminate.
  destruct (sd !! "preferred_name") as [[ | nb | nn | name] | ] eqn:Hname;
    simpl; try discriminate.
  destruct (encodeText_error env HelveticaBold name) eqn:He1; simpl; try discriminate.
  destruct (encodeText_error env Helvetica (completionTextOf sd)) eqn:He2;
    simpl; try discriminate.
  destruct (encodeText_error env Helvetica (dateTextOf env sd)) eqn:He3;
    simpl; try discriminate.
  destruct (generateQRCode env (sd !! "certificate_id")) as [lq [img | e]] eqn:Hqr;
    simpl; try discriminate.
  apply generateQRCode_ok in Hqr as (cid & Hcid & Htb & -> & ->).
  destruct (embedPng_error env (qrImageOf cid)) eqn:Hpng; simpl; try discriminate.
  match goal with
  | |- context [save_error env ?d] =>
      change d with (certificateDocument env sd w h rest name cid)
  end.
  destruct (save_error env (certificateDocument env sd w h rest name cid)) eqn:Hsave;
    simpl; try discriminate.
  intros H. inversion H; subst. split; [ | reflexivity].
  now apply (Rendered env path sd buf w h rest name cid).
Qed.

Lemma rendered_generateCertificate (sd : object) (b : Uint8Array) :
  rendered env path sd b ->
  generateCertificate env path sd = ([ReadFile path], Ok b).
Proof.
  intros [buf w h rest name cid Hread Hload Hf1 Hf2 Hname He1 He2 He3 Hcid Htb Hpng Hsave].
  unfold generateCertificate, fs_readFile, PDFDocument_load, embedFont, drawName,
    drawText, embedPng, save, drawImage, generateQRCode, QRCode_toBuffer.
  unfold try_catch, bind, guard, throw, ret, lift, emit.
  rewrite Hread; simpl. rewrite Hload; simpl. rewrite Hf1, Hf2; simpl.
  rewrite Hname; simpl. rewrite He1; simpl. rewrite He2; simpl. rewrite He3; simpl.
  rewrite Hcid; simpl. rewrite Htb; simpl.
  fold (qrImageOf cid). rewrite Hpng; simpl.
  match goal with
  | |- context [save_error env ?d] =>
      change d with (certificateDocument env sd w h rest name cid)
  end.
  rewrite Hsave; simpl. reflexivity.
Qed.

Lemma generateCertificate_throw (sd : object) (l : list event) (e : JS.error) :
  generateCertificate env path sd = (l, Throw e) ->
  exists m, e = Error ("Certificate generation failed: " ++ m).
Proof.
  unfold generateCertificate, try_catch.
  destruct (bind (fs_readFile env path) _) as [l0 [b0 | e0]]; simpl.
  - discriminate.
  - intros H. inversion H; subst. eauto.
Qed.
End RenderFacts.

Section RenderTheorems.
Import CertificateGenerator Rendering Observe.

Lemma outcome_run {A} (m : M A) (r : result A) :
  outcome m = r -> m = (log m, r).
Proof. destruct m as [l r']. simpl. now intros ->. Qed.

Lemma blank_pages_no_image (rest : list (Q * Q)) :
  flat_map imagesOf (List.map blankPage rest) = [].
Proof. induction rest as [ | wh rest IH]; simpl; auto. Qed.

Lemma blank_pages_no_placement (rest : list (Q * Q)) :
  flat_map placementsOf (List.map blankPage rest) = [].
Proof. induction rest as [ | wh rest IH]; simpl; auto. Qed.

Lemma rendered_decodeQR env path sd b :
  rendered env path sd b ->
  exists cid, sd !! "certificate_id" = Some (JStr cid) /\ decodeQR b = [cid].
Proof.
  intros [buf w h rest name cid]. exists cid. split; [assumption | ].
  unfold decodeQR. simpl. now rewrite blank_pages_no_image.
Qed.

Lemma outcome_rendered env path sd b :
  outcome (generateCertificate env path sd) = Ok b -> rendered env path sd b.
Proof.
  intros H. apply outcome_run in H.
  now apply generateCertificate_rendered in H as [H _].
Qed.

(** C3. For every request whose render succeeds, the string handed to the
    QR encoder is the request's [certificate_id], unchanged, and scanning
    the QR image of the output yields exactly that string. *)
Theorem qr_payload_is_certificate_id env path sd b :
  outcome (generateCertificate env path sd) = Ok b ->
  exists cid,
    sd !! "certificate_id" = Some (JStr cid)
    /\ outcome (generateQRCode env (sd !! "certificate_id"))
       = Ok {| qr_data := cid; qr_options := qrOptions |}
    /\ decodeQR b = [cid].
Proof.
  intros H. apply outcome_rendered in H.
  destruct (rendered_decodeQR _ _ _ _ H) as (cid & Hcid & Hdec).
  exists cid. repeat split; try assumption.
  destruct H as [buf w h rest name cid' ? ? ? ? ? ? ? ? Hcid' Htb].
  rewrite Hcid' in Hcid. injection Hcid as ->.
  rewrite Hcid'. unfold generateQRCode, QRCode_toBuffer, try_catch, bind, guard.
  rewrite Htb. reflexivity.
Qed.

Lemma qr_payload_is_certificate_id_witness :
  exists cid,
    Demo.asha !! "certificate_id" = Some (JStr cid)
    /\ outcome (generateQRCode (Demo.world 0 0 Demo.asha) (Demo.asha !! "certificate_id"))
       = Ok {| qr_data := cid; qr_options := qrOptions |}
    /\ decodeQR Demo.ashaBytes = [cid].
Proof.
  apply (qr_payload_is_certificate_id (Demo.world 0 0 Demo.asha) Demo.templatePath).
  vm_compute. reflexivity.
Defined.

End RenderTheorems.

Section Placement.
Import CertificateGenerator Rendering Observe.

Lemma rendered_placement env path sd b :
  rendered env path sd b ->
  exists buf w h rest,
    readFile env path = Ok buf
    /\ load env buf = Ok ((w, h) :: rest)
    /\ firstPageSize b = Some (w, h)
    /\ imagePlacements b = [((w - 80 - 20)%Q, (h - 80 - 20)%Q, 80%Q, 80%Q)]
    /\ List.map qr_options (imagesDrawn b) = [qrOptions].
Proof.
  intros [buf w h rest name cid Hread Hload]. exists buf, w, h, rest.
  repeat split; try assumption.
  - unfold imagePlacements. simpl. now rewrite blank_pages_no_placement.
  - unfold imagesDrawn. simpl. now rewrite blank_pages_no_image.
Qed.

(** C7. Whenever two requests are rendered on the same template, whatever
    their names, courses, companies, dates and identifiers, each output
    carries exactly one image, the QR code generated 150 wide with a
    margin of 1 in black on white; it is drawn 80 by 80 at
    [(w - 80 - 20, h - 80 - 20)], where [w] x [h] is the size of the first
    page of the template: 20 away from the right edge and from the top
    edge, the same place for both requests. *)
Theorem qr_code_in_top_right_corner env path sd1 sd2 b1 b2 :
  outcome (generateCertificate env path sd1) = Ok b1 ->
  outcome (generateCertificate env path sd2) = Ok b2 ->
  exists w h,
    firstPageSize b1 = Some (w, h) /\ firstPageSize b2 = Some (w, h)
    /\ imagePlacements b1 = [((w - 80 - 20)%Q, (h - 80 - 20)%Q, 80%Q, 80%Q)]
    /\ imagePlacements b2 = imagePlacements b1
    /\ (w - 80 - 20 + 80 == w - 20)%Q /\ (h - 80 - 20 + 80 == h - 20)%Q
    /\ List.map qr_options (imagesDrawn b1)
       = [ {| qr_type := "png"; qr_width := 150; qr_margin := 1;
              qr_dark := "#000000"; qr_light := "#FFFFFF" |} ]
    /\ List.map qr_options (imagesDrawn b2) = List.map qr_options (imagesDrawn b1).
Proof.
  intros H1 H2.
  apply outcome_rendered, rendered_placement in H1
    as (buf & w & h & rest & Hread & Hload & Hsz1 & Hpl1 & Hop1).
  apply outcome_rendered, rendered_placement in H2
    as (buf' & w' & h' & rest' & Hread' & Hload' & Hsz2 & Hpl2 & Hop2).
  rewrite Hread in Hread'. injection Hread' as <-.
  rewrite Hload in Hload'. injection Hload' as <- <- <-.
  exists w, h. rewrite Hpl1, Hpl2, Hop1, Hop2.
  repeat split; try assumption; try reflexivity; ring.
Qed.

Lemma qr_code_in_top_right_corner_witness :
  exists w h,
    firstPageSize Demo.ashaBytes = Some (w, h)
    /\ firstPageSize Demo.bartholomewBytes = Some (w, h)
    /\ imagePlacements Demo.ashaBytes
       = [((w - 80 - 20)%Q, (h - 80 - 20)%Q, 80%Q, 80%Q)]
    /\ imagePlacements Demo.bartholomewBytes = imagePlacements Demo.ashaBytes
    /\ (w - 80 - 20 + 80 == w - 20)%Q /\ (h - 80 - 20 + 80 == h - 20)%Q
    /\ List.map qr_options (imagesDrawn Demo.ashaBytes)
       = [ {| qr_type := "png"; qr_width := 150; qr_margin := 1;
              qr_dark := "#000000"; qr_light := "#FFFFFF" |} ]
    /\ List.map qr_options (imagesDrawn Demo.bartholomewBytes)
       = List.map qr_options (imagesDrawn Demo.ashaBytes).
Proof.
  apply (qr_code_in_top_right_corner (Demo.world 0 0 Demo.asha) Demo.templatePath
                                     Demo.asha Demo.bartholomew).
  - vm_compute. reflexivity.
  - vm_compute. reflexivity.
Defined.

End Placement.

Section AllOrNothing.
Import CertificateGenerator Rendering Observe.

(** C6. A render has exactly two outcomes.  Either it returns bytes, and
    then every step succeeded (the template was read and parsed, both
    fonts were embedded, the three texts were encoded, the QR code was
    generated and embedded, the document was serialised) and the bytes
    are the serialisation of the complete document: the first page of the
    template with the three lines of text and the QR image, in that
    order.  Or it throws an error and returns no bytes; so a failure of
    any step leaves the caller with the error alone. *)
Theorem render_is_all_or_nothing env path sd :
  (exists b,
      outcome (generateCertificate env path sd) = Ok b
      /\ rendered env path sd b)
  \/ (exists m,
        outcome (generateCertificate env path sd)
        = Throw (Error ("Certificate generation failed: " ++ m))
        /\ forall b, ~ rendered env path sd b).
Proof.
  destruct (generateCertificate env path sd) as [l [b | e]] eqn:Hrun.
  - left. exists b. split; [reflexivity | ].
    now apply generateCertificate_rendered in Hrun as [H _].
  - right. destruct (generateCertificate_throw _ _ _ _ _ Hrun) as [m ->].
    exists m. split; [reflexivity | ].
    intros b Hb. apply rendered_generateCertificate in Hb.
    rewrite Hb in Hrun. discriminate.
Qed.

(** Each way for a step to fail, and the error the render ends in. *)
Lemma failing_step_aborts env path sd :
  (exists e, readFile env path = Throw e)
  \/ (exists buf e, readFile env path = Ok buf /\ load env buf = Throw e)
  \/ (exists font e, embedFont_error env font = Some e)
  \/ (exists cid e, sd !! "certificate_id" = Some (JStr cid)
                    /\ toBuffer_error env cid qrOptions = Some e)
  \/ (exists cid e, sd !! "certificate_id" = Some (JStr cid)
                    /\ embedPng_error env (qrImageOf cid) = Some e)
  \/ (forall doc, save_error env doc <> None) ->
  exists m,
    outcome (generateCertificate env path sd)
    = Throw (Error ("Certificate generation failed: " ++ m)).
Proof.
  intros Hfail.
  destruct (generateCertificate env path sd) as [l [b | e]] eqn:Hrun.
  - exfalso. apply generateCertificate_rendered in Hrun as [Hren _].
    destruct Hren as [buf w h rest name cid Hread Hload Hf1 Hf2 _ _ _ _ Hcid Htb Hpng Hsave].
    destruct Hfail as [(e & He) | [(buf' & e & Hb & He) | [(font & e & He)
      | [(cid' & e & Hc & He) | [(cid' & e & Hc & He) | Hall]]]]].
    + congruence.
    + congruence.
    + destruct font; congruence.
    + congruence.
    + congruence.
    + exact (Hall _ Hsave).
  - destruct (generateCertificate_throw _ _ _ _ _ Hrun) as [m ->].
    exists m. reflexivity.
Qed.

End AllOrNothing.

Section Twice.
Import CertificateGenerator Rendering Observe.

Lemma formatDate_host env1 env2 v :
  host env1 = host env2 -> formatDate env1 v = formatDate env2 v.
Proof. unfold formatDate. now intros ->. Qed.

(** C9. Render the same request twice, in two environments that have the
    same template and the same host (time zone and date parsing) and may
    differ in everything else, the clock of the encoder included.  If
    both renders return bytes, the two outputs serialise the same
    document: they have the same page count and both carry one QR image
    whose payload is the request's [certificate_id]; only what the
    encoder adds (the modification date, the byte length) can differ. *)
Theorem render_twice env1 env2 path sd b1 b2 :
  host env1 = host env2 ->
  readFile env1 path = readFile env2 path ->
  (forall buf, load env1 buf = load env2 buf) ->
  outcome (generateCertificate env1 path sd) = Ok b1 ->
  outcome (generateCertificate env2 path sd) = Ok b2 ->
  pageCount b1 = pageCount b2
  /\ (exists cid, sd !! "certificate_id" = Some (JStr cid)
                  /\ decodeQR b1 = [cid] /\ decodeQR b2 = [cid])
  /\ serialized b1 = serialized b2.
Proof.
  intros Hhost Hread Hload H1 H2.
  apply outcome_rendered in H1. apply outcome_rendered in H2.
  destruct (rendered_decodeQR _ _ _ _ H1) as (cid & Hcid & Hd1).
  destruct (rendered_decodeQR _ _ _ _ H2) as (cid' & Hcid' & Hd2).
  rewrite Hcid in Hcid'. injection Hcid' as <-.
  assert (Hser : serialized b1 = serialized b2).
  { destruct H1 as [buf w h rest name c Hr Hl _ _ Hn _ _ _ Hc].
    destruct H2 as [buf' w' h' rest' name' c' Hr' Hl' _ _ Hn' _ _ _ Hc'].
    simpl. rewrite Hread, Hr' in Hr. injection Hr as <-.
    rewrite Hload, Hl' in Hl. injection Hl as <- <- <-.
    rewrite Hn in Hn'. injection Hn' as <-.
    rewrite Hc in Hc'. injection Hc' as <-.
    unfold certificateDocument, certificateOperators, dateTextOf.
    now rewrite !(formatDate_host env1 env2). }
  repeat split.
  - unfold pageCount. now rewrite Hser.
  - exists cid. auto.
  - exact Hser.
Qed.

Lemma render_twice_witness :
  pageCount Demo.mondayBytes = pageCount Demo.tuesdayBytes
  /\ (exists cid, Demo.asha !! "certificate_id" = Some (JStr cid)
                  /\ decodeQR Demo.mondayBytes = [cid]
                  /\ decodeQR Demo.tuesdayBytes = [cid])
  /\ serialized Demo.mondayBytes = serialized Demo.tuesdayBytes.
Proof.
  apply (render_twice (Demo.world 330 1000 Demo.asha) (Demo.world 330 2000 Demo.asha)
                      Demo.templatePath Demo.asha).
  - reflexivity.
  - reflexivity.
  - intros buf. reflexivity.
  - vm_compute. reflexivity.
  - vm_compute. reflexivity.
Defined.

End Twice.

Section SaveFacts.
Import CertificateGenerator Rendering Observe.
Variable env : Env.
Variable path : string.

#[local] Arguments missingFieldsOf : simpl never.

Lemma generateAndSaveCertificate_ok (studentId : jsnum) (l : list event) (res : SaveResult) :
  generateAndSaveCertificate env path studentId = (l, Ok res) ->
  exists row b,
    error (supabase env (fetchStudentQuery studentId)) = None
    /\ data (supabase env (fetchStudentQuery studentId)) = Some row
    /\ missingFieldsOf row = []
    /\ rendered env path row b
    /\ error (supabase env (saveCertificateQuery studentId b)) = None
    /\ l = [Query (fetchStudentQuery studentId); ReadFile path;
            Query (saveCertificateQuery studentId b)]
    /\ res = {| success := true;
                message := "Certificate generated and saved successfully";
                student := row !! "preferred_name";
                certificateId := row !! "certificate_id";
                size := byteLength b |}.
Proof.
  unfold generateAndSaveCertificate, await_query.
  unfold try_catch, bind, throw, ret, emit.
  destruct (error (supabase env (fetchStudentQuery studentId))) eqn:Herr;
    simpl; try discriminate.
  destruct (data (supabase env (fetchStudentQuery studentId))) as [st | ] eqn:Hdata;
    simpl; try discriminate.
  destruct (missingFieldsOf st) as [ | f fs] eqn:Hmiss; simpl; try discriminate.
  destruct (generateCertificate env path st) as [lg [b | e]] eqn:Hgen;
    simpl; try discriminate.
  apply generateCertificate_rendered in Hgen as [Hren ->].
  destruct (error (supabase env (saveCertificateQuery studentId b))) eqn:Hupd;
    simpl; try discriminate.
  intros H. inversion H; subst.
  exists st, b. repeat split; auto.
Qed.

Lemma generateAndSaveCertificate_missing (studentId : jsnum) (st : object) :
  error (supabase env (fetchStudentQuery studentId)) = None ->
  data (supabase env (fetchStudentQuery studentId)) = Some st ->
  missingFieldsOf st <> [] ->
  generateAndSaveCertificate env path studentId
  = ([Query (fetchStudentQuery studentId)],
     Throw (Error ("Missing required fields: " ++ join ", " (missingFieldsOf st)))).
Proof.
  intros Herr Hdata Hmiss.
  unfold generateAndSaveCertificate, await_query.
  unfold try_catch, bind, throw, ret, emit.
  rewrite Herr, Hdata. simpl.
  destruct (missingFieldsOf st) as [ | f fs]; [congruence | ].
  reflexivity.
Qed.
End SaveFacts.

Section Identifier.
Import CertificateGenerator Rendering Observe.


(** C1, counterexample.  Student 7 holds the identifier AB12CD34: the QR
    image and the result carry AB12CD34, and the bytes are stored under
    the key 7. *)
Lemma identifiers_coincide_fails :
  ~ identifiers_coincide
      (generateAndSaveCertificate (Demo.world 0 0 Demo.asha) Demo.templatePath (Int 7)).
Proof.
  intros H.
  destruct (H _ eq_refl) as (id & Hid & Hkeys).
  vm_compute in Hid. injection Hid as <-.
  destruct (Hkeys [("student_id", Some (JNum (Int 7)))] Demo.ashaBytes)
    as [_ Hkey].
  - vm_compute. left. reflexivity.
  - specialize (Hkey "student_id" (Some (JNum (Int 7))) (or_introl eq_refl)).
    vm_compute in Hkey. discriminate.
Qed.

(** C1, amended.  For every render that succeeds through
    [generateAndSaveCertificate], the payload of the QR image and the
    [certificateId] of the result are the same string, the
    [certificate_id] of the student row that was fetched; the bytes are
    written once, to the rows whose [student_id] is the one the row was
    fetched by. *)
Theorem identifier_in_qr_and_result env path studentId res :
  outcome (generateAndSaveCertificate env path studentId) = Ok res ->
  exists row id b,
    data (supabase env (fetchStudentQuery studentId)) = Some row
    /\ row !! "certificate_id" = Some (JStr id)
    /\ certificateId res = Some (JStr id)
    /\ decodeQR b = [id]
    /\ persisted (log (generateAndSaveCertificate env path studentId))
       = [([("student_id", Some (JNum studentId))], b)].
Proof.
  intros H. apply outcome_run in H.
  destruct (generateAndSaveCertificate_ok _ _ _ _ _ H)
    as (st & b & _ & Hdata & _ & Hren & _ & Hlog & ->).
  destruct (rendered_decodeQR _ _ _ _ Hren) as (id & Hid & Hdec).
  exists st, id, b. rewrite H. simpl. rewrite Hlog.
  repeat split; auto.
Qed.

Lemma identifier_in_qr_and_result_witness :
  exists row id b,
    data (supabase (Demo.world 0 0 Demo.asha) (fetchStudentQuery (Int 7))) = Some row
    /\ row !! "certificate_id" = Some (JStr id)
    /\ certificateId Demo.ashaResult = Some (JStr id)
    /\ decodeQR b = [id]
    /\ persisted (log (generateAndSaveCertificate (Demo.world 0 0 Demo.asha)
                                                  Demo.templatePath (Int 7)))
       = [([("student_id", Some (JNum (Int 7)))], b)].
Proof.
  apply (identifier_in_qr_and_result (Demo.world 0 0 Demo.asha) Demo.templatePath (Int 7)).
  vm_compute. reflexivity.
Defined.

(** C4. When the student row that was fetched lacks a required field
    (the property is absent, null or the empty string; any falsy value
    counts), [generateAndSaveCertificate] throws the error that lists the
    missing fields, the field among them, and the only outside call it
    has made is the fetch: the template is not read, nothing is rendered,
    nothing is written. *)
Theorem missing_field_is_rejected env path studentId row field :
  error (supabase env (fetchStudentQuery studentId)) = None ->
  data (supabase env (fetchStudentQuery studentId)) = Some row ->
  In field requiredFields ->
  truthy (row !! field) = false ->
  In field (missingFieldsOf row)
  /\ generateAndSaveCertificate env path studentId
     = ([Query (fetchStudentQuery studentId)],
        Throw (Error ("Missing required fields: "
                        ++ join ", " (missingFieldsOf row))))
  /\ persisted (log (generateAndSaveCertificate env path studentId)) = []
  /\ ~ In (ReadFile path) (log (generateAndSaveCertificate env path studentId)).
Proof.
  intros Herr Hdata Hreq Hfalsy.
  assert (Hin : In field (missingFieldsOf row)).
  { unfold missingFieldsOf. apply filter_In. split; [assumption | ].
    now rewrite Hfalsy. }
  assert (Hne : missingFieldsOf row <> []).
  { intros Hnil. rewrite Hnil in Hin. destruct Hin. }
  rewrite (generateAndSaveCertificate_missing env path studentId row Herr Hdata Hne).
  repeat split; auto.
  simpl. intros [Hq | []]. discriminate.
Qed.

Lemma missing_field_is_rejected_witness :
  In "course_name" (missingFieldsOf Demo.nameless)
  /\ generateAndSaveCertificate (Demo.world 0 0 Demo.nameless) Demo.templatePath (Int 7)
     = ([Query (fetchStudentQuery (Int 7))],
        Throw (Error ("Missing required fields: "
                        ++ join ", " (missingFieldsOf Demo.nameless))))
  /\ persisted (log (generateAndSaveCertificate (Demo.world 0 0 Demo.nameless)
                                                Demo.templatePath (Int 7))) = []
  /\ ~ In (ReadFile Demo.templatePath)
          (log (generateAndSaveCertificate (Demo.world 0 0 Demo.nameless)
                                           Demo.templatePath (Int 7))).
Proof.
  apply (missing_field_is_rejected (Demo.world 0 0 Demo.nameless) Demo.templatePath
                                   (Int 7) Demo.nameless "course_name").
  - reflexivity.
  - reflexivity.
  - simpl. tauto.
  - vm_compute. reflexivity.
Defined.

End Identifier.

Section Dates.
Import CertificateGenerator JSDate.

(** The two conversions agree with each other and with the lengths of the
    months on every day from 1999-01-01 to 2030-12-31, and the epoch is
    1970-01-01. *)
Lemma calendar_1999_2030 :
  calendar_agrees_from
    (Z.to_nat (days_from_civil 2030 12 31 - days_from_civil 1999 1 1 + 1))
    (days_from_civil 1999 1 1) = true
  /\ civil_from_days 0 = (1970, 1, 1).
Proof. split; vm_compute; reflexivity. Qed.

Lemma Day_of_local (d off : Z) :
  0 <= off < msPerDay -> Day (d * msPerDay + off) = d.
Proof.
  intros Hoff. unfold Day.
  rewrite Z.div_add_l by (unfold msPerDay; lia).
  rewrite Z.div_small by assumption. lia.
Qed.

Lemma formatDate_of_day env (s : string) (d : Z) :
  parseISODate s = Some (d * msPerDay) ->
  (forall t, 0 <= LocalTZA (host env) t < msPerDay) ->
  formatDate env (Some (JStr s))
  = ToString (Some (JNum (Int (snd (civil_from_days d))))) ++ " "
      ++ ToString (array_get months (Int (snd (fst (civil_from_days d)) - 1))) ++ " "
      ++ ToString (Some (JNum (Int (fst (fst (civil_from_days d)))))).
Proof.
  intros Hparse Htz.
  unfold formatDate, Date_new, Date_parse. rewrite Hparse.
  unfold getDate, getMonth, getFullYear, DateFromTime, MonthFromTime, YearFromTime,
    LocalTime.
  now rewrite Day_of_local by apply Htz.
Qed.

(** On a host whose local time is at or ahead of UTC (by less than a
    day), the two dates of the specification are formatted as it says. *)
Lemma formatDate_at_or_ahead_of_utc env :
  (forall t, 0 <= LocalTZA (host env) t < msPerDay) ->
  formatDate env (Some (JStr "2025-01-15")) = "15 January 2025"
  /\ formatDate env (Some (JStr "2025-12-01")) = "1 December 2025".
Proof.
  intros Htz. split.
  - rewrite (formatDate_of_day env "2025-01-15" 20103) by (auto; reflexivity).
    reflexivity.
  - rewrite (formatDate_of_day env "2025-12-01" 20423) by (auto; reflexivity).
    reflexivity.
Qed.

(** C2. Where the local time is behind UTC (here five hours, the offset
    of New York in winter) the date-only string, which denotes midnight
    UTC, falls on the previous local day, and [formatDate] names that
    day: the 14th instead of the 15th, and the last day of November
    instead of the first of December. *)
Theorem formatDate_behind_utc :
  formatDate (Demo.world (-300) 0 Demo.asha) (Some (JStr "2025-01-15"))
  = "14 January 2025"
  /\ formatDate (Demo.world (-300) 0 Demo.asha) (Some (JStr "2025-12-01"))
     = "30 November 2025".
Proof. split; reflexivity. Qed.

Lemma formatDate_invalid env (v : option jsval) :
  Date_new (host env) v = None ->
  array_get months (getMonth (host env) (Date_new (host env) v)) = None
  /\ formatDate env v = "NaN undefined NaN".
Proof. intros H. unfold formatDate. rewrite H. split; reflexivity. Qed.

End Dates.

Section Centering.
Import CertificateGenerator.


Lemma length_letters (n : nat) : String.length (letters n) = n.
Proof. induction n as [ | n IH]; simpl; congruence. Qed.

Lemma offCenter_spec_width (w : Q) (name : string) :
  (offCenter w name (len name * 12) == 6 * len name)%Q.
Proof.
  unfold offCenter, nameStart.
  assert (H : (w / 2 - len name * 12 + len name * 12 / 2 - w / 2 == - (6 * len name))%Q)
    by field.
  rewrite H, Qabs_opp. apply Qabs_pos.
  assert (0 <= len name)%Q.
  { unfold len. change 0%Q with (inject_Z 0). rewrite <- Zle_Qle. lia. }
  lra.
Qed.

(** With the estimate of the claim the point lies six units per
    character to the left of the midpoint: 132 units for a name of 22
    characters on a page 842 wide, and beyond any tolerance for a name
    that is long enough. *)
Lemma centred_within_tolerance_fails :
  (offCenter 842 "Bartholomew Fitzgerald" (len "Bartholomew Fitzgerald" * 12) == 132)%Q
  /\ ~ centred_within_tolerance.
Proof.
  split; [reflexivity | ].
  intros [tol H].
  set (n := S (Z.to_nat (Z.max 0 (Qceiling tol)))).
  destruct (H 0%Q "" (letters n)) as [_ Hn].
  { rewrite length_letters. discriminate. }
  rewrite offCenter_spec_width in Hn.
  unfold len in Hn. rewrite length_letters in Hn.
  assert (Hc : (tol <= inject_Z (Qceiling tol))%Q) by apply Qle_ceiling.
  assert (Hz : (inject_Z (Qceiling tol) + 1 <= inject_Z (Z.of_nat n))%Q).
  { change 1%Q with (inject_Z 1). rewrite <- inject_Z_plus, <- Zle_Qle.
    unfold n. lia. }
  assert (Hpos : (0 <= inject_Z (Z.of_nat n))%Q).
  { change 0%Q with (inject_Z 0). rewrite <- Zle_Qle. lia. }
  lra.
Qed.

Lemma len_inj_neq (n1 n2 : string) :
  String.length n1 <> String.length n2 -> ~ (len n1 == len n2)%Q.
Proof.
  intros Hne Heq. unfold len in Heq.
  apply (proj1 (inject_Z_injective _ _)) in Heq. lia.
Qed.

(** C5. The name line is not centred.  In a render that succeeds the name
    is drawn in size 24 from 12 per character left of the page's
    midpoint, and the two sentences in size 14 from 4 per character left
    of it.  With the width estimated as the claim has it, the character
    count times the constant 12 of the start position, the point
    [start + estimatedWidth / 2] of the name line lies 6 per character
    left of the midpoint, and no tolerance bounds the distance for names
    of every length. *)
Theorem name_line_is_off_centre env path sd b :
  outcome (generateCertificate env path sd) = Ok b ->
  exists w h name,
    Observe.firstPageSize b = Some (w, h)
    /\ sd !! "preferred_name" = Some (JStr name)
    /\ Layout.firstPageLines b
       = [ (name, (w / 2 - len name * 12)%Q, (h / 2 + 50)%Q, 24%Q,
            HelveticaBold, rgb 0 0 0);
           (completionTextOf sd, (w / 2 - len (completionTextOf sd) * 4)%Q,
            (h / 2 + 10)%Q, 14%Q, Helvetica, rgb 0 0 0);
           (dateTextOf env sd, (w / 2 - len (dateTextOf env sd) * 4)%Q,
            (h / 2 - 20)%Q, 14%Q, Helvetica, rgb 0 0 0) ]
    /\ (offCenter w name (len name * 12) == 6 * len name)%Q
    /\ ~ centred_within_tolerance.
Proof.
  intros H. apply outcome_rendered in H.
  destruct H as [buf w h rest name cid Hread Hload Hf1 Hf2 Hname].
  exists w, h, name.
  split; [reflexivity | ]. split; [assumption | ]. split; [reflexivity | ].
  split; [apply offCenter_spec_width | ].
  apply centred_within_tolerance_fails.
Qed.

Lemma name_line_is_off_centre_witness :
  exists w h name,
    Observe.firstPageSize Demo.bartholomewBytes = Some (w, h)
    /\ Demo.bartholomew !! "preferred_name" = Some (JStr name)
    /\ Layout.firstPageLines Demo.bartholomewBytes
       = [ (name, (w / 2 - len name * 12)%Q, (h / 2 + 50)%Q, 24%Q,
            HelveticaBold, rgb 0 0 0);
           (completionTextOf Demo.bartholomew,
            (w / 2 - len (completionTextOf Demo.bartholomew) * 4)%Q,
            (h / 2 + 10)%Q, 14%Q, Helvetica, rgb 0 0 0);
           (dateTextOf (Demo.world 0 0 Demo.asha) Demo.bartholomew,
            (w / 2 - len (dateTextOf (Demo.world 0 0 Demo.asha) Demo.bartholomew) * 4)%Q,
            (h / 2 - 20)%Q, 14%Q, Helvetica, rgb 0 0 0) ]
    /\ (offCenter w name (len name * 12) == 6 * len name)%Q
    /\ ~ centred_within_tolerance.
Proof.
  apply (name_line_is_off_centre (Demo.world 0 0 Demo.asha) Demo.templatePath
                                 Demo.bartholomew).
  vm_compute. reflexivity.
Defined.

(** The name of 22 characters on a page 842 wide: drawn from 157, so that
    a line of 12 per character would end at the midpoint 421. *)
Example bartholomew_ends_at_the_midpoint :
  (nameStart 842 "Bartholomew Fitzgerald" == 157)%Q
  /\ (nameStart 842 "Bartholomew Fitzgerald" + len "Bartholomew Fitzgerald" * 12 == 421)%Q.
Proof. split; reflexivity. Qed.

End Centering.

Section MalformedDate.
Import CertificateGenerator Rendering Observe.

Lemma rendered_texts env path sd b :
  rendered env path sd b ->
  exists name,
    sd !! "preferred_name" = Some (JStr name)
    /\ textsDrawn b = [name; completionTextOf sd; dateTextOf env sd].
Proof. intros [buf w h rest name cid]. exists name. now split. Qed.

(** C10. [formatDate] is a total function of its argument: none of the
    built-ins it calls can throw.  For a string that [Date.parse] does not
    recognise, the month index is NaN, the lookup in [months] is
    [undefined], and the result is the string NaN undefined NaN.
    [generateAndSaveCertificate] does not reject such a start date: when
    it succeeds, the bytes it stored carry, as the third line of text,
    the date sentence built from that string. *)
Theorem malformed_date_is_embedded env path studentId res row s :
  outcome (generateAndSaveCertificate env path studentId) = Ok res ->
  data (supabase env (fetchStudentQuery studentId)) = Some row ->
  row !! "internship_start_date" = Some (JStr s) ->
  JSDate.Date_parse (host env) s = None ->
  array_get months
    (JSDate.getMonth (host env) (JSDate.Date_new (host env) (Some (JStr s)))) = None
  /\ formatDate env (Some (JStr s)) = "NaN undefined NaN"
  /\ exists b,
       persisted (log (generateAndSaveCertificate env path studentId))
       = [([("student_id", Some (JNum studentId))], b)]
       /\ nth_error (textsDrawn b) 2
          = Some ("held from NaN undefined NaN to "
                    ++ formatDate env (row !! "internship_end_date") ++ ".").
Proof.
  intros Hok Hdata Hstart Hparse.
  destruct (formatDate_invalid env (Some (JStr s)) Hparse) as [Hmonth Hfmt].
  repeat split; try assumption.
  apply outcome_run in Hok.
  destruct (generateAndSaveCertificate_ok _ _ _ _ _ Hok)
    as (st & b & _ & Hdata' & _ & Hren & _ & Hlog & _).
  rewrite Hdata in Hdata'. injection Hdata' as <-.
  exists b. rewrite Hok. simpl. rewrite Hlog. split; [reflexivity | ].
  destruct (rendered_texts _ _ _ _ Hren) as (name & _ & ->). simpl.
  unfold dateTextOf. now rewrite Hstart, Hfmt.
Qed.

Lemma malformed_date_is_embedded_witness :
  array_get months
    (JSDate.getMonth (host (Demo.world 0 0 Demo.undated))
       (JSDate.Date_new (host (Demo.world 0 0 Demo.undated)) (Some (JStr "soon")))) = None
  /\ formatDate (Demo.world 0 0 Demo.undated) (Some (JStr "soon")) = "NaN undefined NaN"
  /\ exists b,
       persisted (log (generateAndSaveCertificate (Demo.world 0 0 Demo.undated)
                                                  Demo.templatePath (Int 7)))
       = [([("student_id", Some (JNum (Int 7)))], b)]
       /\ nth_error (textsDrawn b) 2
          = Some ("held from NaN undefined NaN to "
                    ++ formatDate (Demo.world 0 0 Demo.undated)
                                  (Demo.undated !! "internship_end_date") ++ ".").
Proof.
  apply (malformed_date_is_embedded (Demo.world 0 0 Demo.undated) Demo.templatePath
                                    (Int 7) Demo.undatedResult Demo.undated "soon").
  - vm_compute. reflexivity.
  - reflexivity.
  - reflexivity.
  - reflexivity.
Defined.

End MalformedDate.

(** Case analysis on a scrutinee that holds no other case analysis. *)
Ltac step :=
  match goal with
  | |- context [match ?x with _ => _ end] =>
      lazymatch x with
      | context [match _ with _ => _ end] => fail
      | _ => destruct x eqn:?; simpl
      end
  end.

Section Request.
Import CertificatesRoute Observe.
Variable env : Env.
Variable parseInt : option jsval -> jsnum.
Variable endDateISO : option jsval -> jsnum -> result string.
Variable nowISO : string.

(** The outcomes of the handler, by what the lookup of the student
    answered.  [written] lists what the updates of a run put in a column. *)
Lemma post_request_certificate_id (req_body : object) :
  let existing := data (supabase env (existingStudentQuery (req_body !! "phone_number"))) in
  let certificateId :=
    or_else (existing ≫= fun st => st !! "certificate_id")
            (Some (JStr (generateCertificateId env))) in
  written "certificate_id" (log (post_request env parseInt endDateISO nowISO req_body)) = []
  \/ written "certificate_id" (log (post_request env parseInt endDateISO nowISO req_body))
     = [Val certificateId].
Proof.
  intros existing certificateId. subst existing certificateId.
  unfold post_request, await_query, call_trim.
  unfold try_catch, bind, throw, ret, emit, lift.
  repeat (first [ left; reflexivity | right; reflexivity | step ]).
Qed.
End Request.

Section KeptIdentifier.
Import CertificatesRoute Observe.

(** When the lookup of the student answers with a row that holds a
    certificate identifier (a truthy [certificate_id]), every update the
    handler sends writes that same identifier to [certificate_id]: the
    identifier is kept, and the one [generateCertificateId] would make
    is not used. *)
Lemma existing_certificate_id_is_kept env parseInt endDateISO nowISO req_body row :
  data (supabase env (existingStudentQuery (req_body !! "phone_number"))) = Some row ->
  truthy (row !! "certificate_id") = true ->
  Forall (fun v => v = Val (row !! "certificate_id"))
         (written "certificate_id"
                  (log (post_request env parseInt endDateISO nowISO req_body))).
Proof.
  intros Hdata Hid.
  destruct (post_request_certificate_id env parseInt endDateISO nowISO req_body)
    as [-> | ->].
  - constructor.
  - rewrite Hdata. simpl. unfold or_else. rewrite Hid. repeat constructor.
Qed.

(** In that run the handler does send the update, with the identifier
    the student already had. *)
Example office_keeps_identifier :
  written "certificate_id"
          (log (post_request Demo.office Demo.parseInt Demo.endDateISO
                             Demo.nowISO Demo.testCertificateRequest))
  = [Val (Some (JStr "AB12CD34"))]
  /\ status (Demo.replyOf (post_request Demo.office Demo.parseInt Demo.endDateISO
                                        Demo.nowISO Demo.testCertificateRequest)) = 200.
Proof. split; vm_compute; reflexivity. Qed.

(** A student who has already submitted a request is turned away before
    any update. *)
Lemma already_submitted_no_update env parseInt endDateISO nowISO req_body row :
  data (supabase env (existingStudentQuery (req_body !! "phone_number"))) = Some row ->
  truthy (or_else (row !! "internship_start_date") (row !! "preferred_name")) = true ->
  written "certificate_id"
          (log (post_request env parseInt endDateISO nowISO req_body)) = [].
Proof.
  intros Hdata Hsub.
  unfold post_request, await_query, call_trim.
  unfold try_catch, bind, throw, ret, emit, lift.
  rewrite Hdata, Hsub.
  repeat (first [ reflexivity | step ]).
Qed.

(** Without a row from the lookup (no such student, or a lookup that
    failed: the handler reads only [data]), an update carries the
    identifier that [generateCertificateId] makes. *)
Lemma no_row_generates_identifier env parseInt endDateISO nowISO req_body :
  data (supabase env (existingStudentQuery (req_body !! "phone_number"))) = None ->
  Forall (fun v => v = Val (Some (JStr (generateCertificateId env))))
         (written "certificate_id"
                  (log (post_request env parseInt endDateISO nowISO req_body))).
Proof.
  intros Hdata.
  destruct (post_request_certificate_id env parseInt endDateISO nowISO req_body)
    as [-> | ->].
  - constructor.
  - rewrite Hdata. repeat constructor.
Qed.

Example generateCertificateId_office :
  generateCertificateId Demo.office = "AEJNSW15".
Proof. vm_compute. reflexivity. Qed.

Lemma truthy_all_fields (req_body : object) :
  Forall (fun field => truthy (req_body !! field) = true) Replies.requestFields ->
  negb (truthy (req_body !! "phone_number"))
  || negb (truthy (req_body !! "internship_start_date"))
  || negb (truthy (req_body !! "internship_duration"))
  || negb (truthy (req_body !! "course_name"))
  || negb (truthy (req_body !! "company_name"))
  || negb (truthy (req_body !! "preferred_name")) = false.
Proof.
  unfold Replies.requestFields. intros H.
  repeat match goal with
         | H : Forall _ (_ :: _) |- _ => inversion_clear H
         end.
  repeat match goal with
         | H : truthy _ = true |- _ => rewrite H; clear H
         end.
  reflexivity.
Qed.

(** C8. The identifier is not immutable.  The handler reads only the
    [data] of the lookup of the student and never its [error]; when that
    lookup fails, for a body that is complete and names a course and a
    company that exist, the handler goes on as for a student without an
    identifier: it sends one update, to the rows of [students] that have
    the phone number and are not deleted, which sets [certificate_id] to
    the identifier that [generateCertificateId] has just made, whatever
    those rows hold, and it answers 200 when the update brings back a
    row. *)
Theorem failed_lookup_replaces_identifier
        env parseInt endDateISO nowISO req_body (name endDate : string)
        (courses companies : object) (lookupError : JS.error) :
  Forall (fun field => truthy (req_body !! field) = true) Replies.requestFields ->
  req_body !! "preferred_name" = Some (JStr name) ->
  supabase env (Replies.courseQuery (req_body !! "course_name"))
  = {| data := Some courses; error := None |} ->
  supabase env (Replies.companyQuery (req_body !! "company_name"))
  = {| data := Some companies; error := None |} ->
  supabase env (existingStudentQuery (req_body !! "phone_number"))
  = {| data := None; error := Some lookupError |} ->
  endDateISO (req_body !! "internship_start_date")
             (parseInt (req_body !! "internship_duration")) = Ok endDate ->
  Replies.updatesOf (log (post_request env parseInt endDateISO nowISO req_body))
  = [Update "students"
            [("internship_start_date", Val (req_body !! "internship_start_date"));
             ("internship_end_date", Val (Some (JStr endDate)));
             ("internship_duration",
              Val (Some (JNum (parseInt (req_body !! "internship_duration")))));
             ("course_id", Val (courses !! "course_id"));
             ("company_id", Val (companies !! "company_id"));
             ("preferred_name", Val (Some (JStr (trim name))));
             ("certificate_id", Val (Some (JStr (generateCertificateId env))))]
            [("phone_number", req_body !! "phone_number");
             ("deleted", Some (JBool false))] true]
  /\ forall updated,
       supabase env
         (Update "students"
            [("internship_start_date", Val (req_body !! "internship_start_date"));
             ("internship_end_date", Val (Some (JStr endDate)));
             ("internship_duration",
              Val (Some (JNum (parseInt (req_body !! "internship_duration")))));
             ("course_id", Val (courses !! "course_id"));
             ("company_id", Val (companies !! "company_id"));
             ("preferred_name", Val (Some (JStr (trim name))));
             ("certificate_id", Val (Some (JStr (generateCertificateId env))))]
            [("phone_number", req_body !! "phone_number");
             ("deleted", Some (JBool false))] true)
       = {| data := Some updated; error := None |} ->
       exists answer,
         outcome (post_request env parseInt endDateISO nowISO req_body) = Ok answer
         /\ status answer = 200.
Proof.
  intros Hall Hname Hcourse Hcompany Hlookup Hend.
  apply truthy_all_fields in Hall.
  unfold post_request, await_query, call_trim.
  unfold try_catch, bind, throw, ret, emit, lift, outcome, log.
  rewrite Hall. simpl.
  unfold Replies.courseQuery, Replies.companyQuery in Hcourse, Hcompany.
  destruct (supabase env (lookup_query "courses" _ _ _)) as [dc ec].
  injection Hcourse as -> ->.
  destruct (supabase env (lookup_query "companies" _ _ _)) as [dk ek].
  injection Hcompany as -> ->. simpl.
  destruct (supabase env (existingStudentQuery _)) as [d e].
  injection Hlookup as -> ->. simpl.
  rewrite Hend, Hname. simpl.
  split.
  - destruct (supabase env _) as [[u | ] [eu | ]]; reflexivity.
  - intros updated Hupdated.
    match goal with
    | |- context [supabase env ?q] =>
        replace (supabase env q) with {| data := Some updated; error := None |}
          by (symmetry; exact Hupdated)
    end.
    simpl. eexists. split; reflexivity.
Qed.

Lemma failed_lookup_replaces_identifier_witness :
  Replies.updatesOf
    (log (post_request (Cases.worldOf Cases.a4 Cases.lookupFails) Demo.parseInt
                       Demo.endDateISO Demo.nowISO Demo.testCertificateRequest))
  = [Update "students"
            [("internship_start_date",
              Val (Demo.testCertificateRequest !! "internship_start_date"));
             ("internship_end_date", Val (Some (JStr "2025-04-15")));
             ("internship_duration",
              Val (Some (JNum (Demo.parseInt
                                 (Demo.testCertificateRequest !! "internship_duration")))));
             ("course_id", Val (Demo.enrolled !! "course_id"));
             ("company_id", Val (Demo.enrolled !! "company_id"));
             ("preferred_name", Val (Some (JStr (trim "Test User Certificate Request"))));
             ("certificate_id",
              Val (Some (JStr (generateCertificateId
                                 (Cases.worldOf Cases.a4 Cases.lookupFails)))))]
            [("phone_number", Demo.testCertificateRequest !! "phone_number");
             ("deleted", Some (JBool false))] true]
  /\ forall updated,
       supabase (Cases.worldOf Cases.a4 Cases.lookupFails)
         (Update "students"
            [("internship_start_date",
              Val (Demo.testCertificateRequest !! "internship_start_date"));
             ("internship_end_date", Val (Some (JStr "2025-04-15")));
             ("internship_duration",
              Val (Some (JNum (Demo.parseInt
                                 (Demo.testCertificateRequest !! "internship_duration")))));
             ("course_id", Val (Demo.enrolled !! "course_id"));
             ("company_id", Val (Demo.enrolled !! "company_id"));
             ("preferred_name", Val (Some (JStr (trim "Test User Certificate Request"))));
             ("certificate_id",
              Val (Some (JStr (generateCertificateId
                                 (Cases.worldOf Cases.a4 Cases.lookupFails)))))]
            [("phone_number", Demo.testCertificateRequest !! "phone_number");
             ("deleted", Some (JBool false))] true)
       = {| data := Some updated; error := None |} ->
       exists answer,
         outcome (post_request (Cases.worldOf Cases.a4 Cases.lookupFails) Demo.parseInt
                               Demo.endDateISO Demo.nowISO Demo.testCertificateRequest)
         = Ok answer
         /\ status answer = 200.
Proof.
  apply (failed_lookup_replaces_identifier
           (Cases.worldOf Cases.a4 Cases.lookupFails) Demo.parseInt Demo.endDateISO
           Demo.nowISO Demo.testCertificateRequest "Test User Certificate Request"
           "2025-04-15" Demo.enrolled Demo.enrolled
           (Error "TypeError: fetch failed")).
  - repeat (constructor; [reflexivity | ]). constructor.
  - reflexivity.
  - reflexivity.
  - reflexivity.
  - reflexivity.
  - reflexivity.
Defined.

(** In that world the student [Demo.enrolled] holds the identifier
    AB12CD34; the request is answered 200 and the update carries the new
    identifier AEJNSW15. *)
Example stored_identifier_is_replaced :
  Demo.enrolled !! "certificate_id" = Some (JStr "AB12CD34")
  /\ written "certificate_id"
             (log (post_request (Cases.worldOf Cases.a4 Cases.lookupFails) Demo.parseInt
                                Demo.endDateISO Demo.nowISO Demo.testCertificateRequest))
     = [Val (Some (JStr "AEJNSW15"))]
  /\ status (Demo.replyOf (post_request (Cases.worldOf Cases.a4 Cases.lookupFails)
                                        Demo.parseInt Demo.endDateISO Demo.nowISO
                                        Demo.testCertificateRequest)) = 200.
Proof. repeat split; vm_compute; reflexivity. Qed.

End KeptIdentifier.
(* ===================================================================== *)
(** * Rounding to the nearest double *)
(* ===================================================================== *)

Section DoubleFacts.
Import JSDouble.
Local Open Scope Q_scope.

Lemma pow2_pos (k : Z) : 0 < 2 ^ k.
Proof. apply Qpower_0_lt. reflexivity. Qed.

Lemma pow2_plus (a b : Z) : 2 ^ (a + b) == 2 ^ a * 2 ^ b.
Proof. apply Qpower_plus. discriminate. Qed.

Lemma pow2_succ (a : Z) : 2 ^ (a + 1) == 2 * 2 ^ a.
Proof. rewrite pow2_plus. change (2 ^ 1) with 2. ring. Qed.

Lemma pow2_le (a b : Z) : (a <= b)%Z -> 2 ^ a <= 2 ^ b.
Proof. intros H. apply Qpower_le_compat_l; [assumption | discriminate]. Qed.

Lemma pow2_lt (a b : Z) : (a < b)%Z -> 2 ^ a < 2 ^ b.
Proof. intros H. apply Qpower_lt_compat_l; [assumption | reflexivity]. Qed.

Lemma pow2_lt_inv (a b : Z) : 2 ^ a < 2 ^ b -> (a < b)%Z.
Proof. intros H. apply (Qpower_lt_compat_l_inv 2); [assumption | reflexivity]. Qed.

Lemma pow2_inject (a : Z) : (0 <= a)%Z -> inject_Z (2 ^ a) == 2 ^ a.
Proof. intros H. now rewrite Zpower_Qpower. Qed.

Lemma pow2_cancel (e : Z) (x : Q) : x / 2 ^ e * 2 ^ e == x.
Proof. field. pose proof (pow2_pos e). lra. Qed.

Lemma binade_spec (x : Q) : 0 < x -> 2 ^ binade x <= x /\ x < 2 ^ (binade x + 1).
Proof.
  intros Hx. destruct x as [n d]. unfold binade. cbn [Qnum Qden].
  assert (Hn : (0 < n)%Z) by (unfold Qlt in Hx; simpl in Hx; lia).
  destruct (Z.log2_spec n Hn) as [Ha1 Ha2].
  destruct (Z.log2_spec (Zpos d) eq_refl) as [Hb1 Hb2].
  pose proof (Z.log2_nonneg n) as Ha0.
  pose proof (Z.log2_nonneg (Zpos d)) as Hb0.
  set (a := Z.log2 n) in *. set (b := Z.log2 (Zpos d)) in *.
  assert (HA1 : 2 ^ a <= inject_Z n).
  { rewrite <- pow2_inject by assumption. now rewrite <- Zle_Qle. }
  assert (HA2 : inject_Z n < 2 * 2 ^ a).
  { rewrite <- pow2_succ, <- pow2_inject by lia. now rewrite <- Zlt_Qlt. }
  assert (HB1 : 2 ^ b <= inject_Z (Zpos d)).
  { rewrite <- pow2_inject by assumption. now rewrite <- Zle_Qle. }
  assert (HB2 : inject_Z (Zpos d) < 2 * 2 ^ b).
  { rewrite <- pow2_succ, <- pow2_inject by lia. now rewrite <- Zlt_Qlt. }
  pose proof (pow2_pos a) as HA. pose proof (pow2_pos b) as HB.
  assert (Hab : 2 ^ (a - b) * 2 ^ b == 2 ^ a).
  { rewrite <- pow2_plus. now replace (a - b + b)%Z with a by ring. }
  pose proof (pow2_pos (a - b)) as HC.
  assert (Hx' : n # d == inject_Z n / inject_Z (Zpos d)) by apply Qmake_Qdiv.
  assert (Hd : 0 < inject_Z (Zpos d)) by lra.
  generalize dependent (inject_Z n). generalize dependent (inject_Z (Zpos d)).
  generalize dependent (2 ^ a). generalize dependent (2 ^ b).
  intros B HB A HA Hab dq HB1 HB2 Hd nq HA1 HA2 Hx'.
  destruct (Qle_bool (2 ^ (a - b)) (n # d)) eqn:E.
  - apply Qle_bool_iff in E. split; [assumption | ].
    rewrite pow2_succ, Hx'. apply Qlt_shift_div_r; [assumption | ].
    generalize dependent (2 ^ (a - b)). intros C HC Hab E. nra.
  - assert (E' : n # d < 2 ^ (a - b)).
    { apply Qnot_le_lt. intros H. apply Qle_bool_iff in H. congruence. }
    replace (a - b - 1 + 1)%Z with (a - b)%Z by ring. split; [ | assumption].
    assert (Hhalf : 2 ^ (a - b) == 2 * 2 ^ (a - b - 1)).
    { rewrite <- pow2_succ. now replace (a - b - 1 + 1)%Z with (a - b)%Z by ring. }
    pose proof (pow2_pos (a - b - 1)) as HD.
    rewrite Hx'. apply Qle_shift_div_l; [assumption | ].
    generalize dependent (2 ^ (a - b)). generalize dependent (2 ^ (a - b - 1)).
    intros D HD C Hab HC E E' Hhalf. nra.
Qed.

Lemma binade_unique (x : Q) (k : Z) : 2 ^ k <= x -> x < 2 ^ (k + 1) -> binade x = k.
Proof.
  intros H1 H2.
  assert (Hx : 0 < x) by (pose proof (pow2_pos k); lra).
  destruct (binade_spec x Hx) as [B1 B2].
  assert (binade x < k + 1)%Z by (apply pow2_lt_inv; lra).
  assert (k < binade x + 1)%Z by (apply pow2_lt_inv; lra).
  lia.
Qed.

Lemma roundHalfEven_le (y : Q) (N : Z) : y <= inject_Z N -> (roundHalfEven y <= N)%Z.
Proof.
  intros H. unfold roundHalfEven.
  pose proof (Qfloor_le y) as Hf. pose proof (Qlt_floor y) as Hc.
  rewrite inject_Z_plus in Hc. change (inject_Z 1) with 1 in Hc.
  assert (Hle : (Qfloor y <= N)%Z) by (rewrite Zle_Qle; lra).
  destruct (Qcompare_spec (y - inject_Z (Qfloor y)) (1 # 2)) as [E | E | E].
  - destruct (Z.even (Qfloor y)); [assumption | ].
    assert (inject_Z (Qfloor y) < inject_Z N) by lra.
    rewrite <- Zlt_Qlt in *. lia.
  - assumption.
  - assert (inject_Z (Qfloor y) < inject_Z N) by lra.
    rewrite <- Zlt_Qlt in *. lia.
Qed.

Lemma roundHalfEven_ge (y : Q) (N : Z) : inject_Z N <= y -> (N <= roundHalfEven y)%Z.
Proof.
  intros H. unfold roundHalfEven.
  pose proof (Qlt_floor y) as Hc.
  assert (Hlt : (N < Qfloor y + 1)%Z) by (rewrite Zlt_Qlt; lra).
  destruct (y - inject_Z (Qfloor y) ?= 1 # 2); [destruct (Z.even _) | | ]; lia.
Qed.

Lemma roundHalfEven_below_half (y : Q) (N : Z) :
  y < inject_Z N - (1 # 2) -> (roundHalfEven y <= N - 1)%Z.
Proof.
  intros H. unfold roundHalfEven.
  pose proof (Qfloor_le y) as Hf. pose proof (Qlt_floor y) as Hc.
  rewrite inject_Z_plus in Hc. change (inject_Z 1) with 1 in Hc.
  assert (Hle : (Qfloor y < N)%Z) by (rewrite Zlt_Qlt; lra).
  destruct (Qcompare_spec (y - inject_Z (Qfloor y)) (1 # 2)) as [E | E | E].
  - assert (inject_Z (Qfloor y) + 1 < inject_Z N) by lra.
    change 1 with (inject_Z 1) in H0. rewrite <- inject_Z_plus, <- Zlt_Qlt in H0.
    destruct (Z.even _); lia.
  - lia.
  - assert (inject_Z (Qfloor y) + 1 < inject_Z N) by lra.
    change 1 with (inject_Z 1) in H0. rewrite <- inject_Z_plus, <- Zlt_Qlt in H0. lia.
Qed.

Lemma roundDouble_positive (x : Q) : 0 < x -> roundDouble x = roundPositive x.
Proof.
  intros H. unfold roundDouble. destruct x as [[ | p | p] d]; try reflexivity;
    unfold Qlt in H; simpl in H; lia.
Qed.

Lemma roundDouble_zero (x : Q) : x == 0 -> roundDouble x = 0.
Proof.
  intros H. unfold roundDouble. destruct x as [[ | p | p] d]; try reflexivity;
    unfold Qeq in H; simpl in H; lia.
Qed.

(** Rounding does not pass a number [M * 2^e] that the format holds at
    the binade of [x] or above. *)
Lemma roundDouble_le (x : Q) (M e : Z) :
  0 < x -> x <= inject_Z M * 2 ^ e -> x < 2 ^ (e + 53) -> (-1074 <= e)%Z ->
  roundDouble x <= inject_Z M * 2 ^ e.
Proof.
  intros Hx Hle Hlt He.
  rewrite (roundDouble_positive x Hx). unfold roundPositive.
  destruct (binade_spec x Hx) as [B1 _].
  assert (Hk : (binade x < e + 53)%Z) by (apply pow2_lt_inv; lra).
  assert (Hu : (ulpExponent x <= e)%Z) by (unfold ulpExponent; lia).
  set (u := ulpExponent x) in *.
  pose proof (pow2_pos u) as Hpu.
  assert (Hsplit : 2 ^ e == inject_Z (2 ^ (e - u)) * 2 ^ u).
  { rewrite pow2_inject by lia. rewrite <- pow2_plus.
    now replace (e - u + u)%Z with e by ring. }
  assert (Hy : x / 2 ^ u <= inject_Z (M * 2 ^ (e - u))).
  { rewrite inject_Z_mult. apply Qle_shift_div_r; [assumption | ].
    rewrite Hsplit in Hle. lra. }
  apply roundHalfEven_le in Hy.
  rewrite Zle_Qle, inject_Z_mult in Hy.
  rewrite Hsplit.
  generalize dependent (inject_Z (roundHalfEven (x / 2 ^ u))).
  generalize dependent (inject_Z (2 ^ (e - u))). generalize dependent (2 ^ u).
  intros. nra.
Qed.

(** Rounding does not fall below a number [M * 2^e] of the format. *)
Lemma roundDouble_ge (x : Q) (M e : Z) :
  (0 < M <= 2 ^ 53)%Z -> (-1074 <= e)%Z -> inject_Z M * 2 ^ e <= x ->
  inject_Z M * 2 ^ e <= roundDouble x.
Proof.
  intros HM He Hle.
  pose proof (pow2_pos e) as Hpe.
  assert (HMq : 0 < inject_Z M) by (change 0 with (inject_Z 0); rewrite <- Zlt_Qlt; lia).
  assert (Hx : 0 < x) by nra.
  rewrite (roundDouble_positive x Hx). unfold roundPositive.
  destruct (binade_spec x Hx) as [B1 B2].
  set (u := ulpExponent x) in *.
  pose proof (pow2_pos u) as Hpu.
  destruct (Z.le_gt_cases u e) as [Hu | Hu].
  - assert (Hsplit : 2 ^ e == inject_Z (2 ^ (e - u)) * 2 ^ u).
    { rewrite pow2_inject by lia. rewrite <- pow2_plus.
      now replace (e - u + u)%Z with e by ring. }
    assert (Hy : inject_Z (M * 2 ^ (e - u)) <= x / 2 ^ u).
    { rewrite inject_Z_mult. apply Qle_shift_div_l; [assumption | ].
      rewrite Hsplit in Hle. lra. }
    apply roundHalfEven_ge in Hy.
    rewrite Zle_Qle, inject_Z_mult in Hy.
    rewrite Hsplit.
    generalize dependent (inject_Z (roundHalfEven (x / 2 ^ u))).
    generalize dependent (inject_Z (2 ^ (e - u))). generalize dependent (2 ^ u).
    intros. nra.
  - assert (Hub : u = (binade x - 52)%Z) by (unfold u, ulpExponent in *; lia).
    assert (Hy : inject_Z (2 ^ 52) <= x / 2 ^ u).
    { apply Qle_shift_div_l; [assumption | ].
      rewrite pow2_inject by lia. rewrite <- pow2_plus.
      now replace (52 + u)%Z with (binade x) by lia. }
    apply roundHalfEven_ge in Hy. rewrite Zle_Qle in Hy.
    assert (Hbig : inject_Z M * 2 ^ e <= inject_Z (2 ^ 52) * 2 ^ u).
    { assert (H1 : inject_Z M <= inject_Z (2 ^ 53)) by (rewrite <- Zle_Qle; lia).
      assert (H2 : 2 ^ (e + 1) <= 2 ^ u) by (apply pow2_le; lia).
      rewrite pow2_succ in H2.
      change (inject_Z (2 ^ 53)) with (2 * inject_Z (2 ^ 52)) in H1.
      assert (0 < inject_Z (2 ^ 52)) by reflexivity.
      generalize dependent (inject_Z (2 ^ 52)). generalize dependent (inject_Z M).
      generalize dependent (2 ^ e). generalize dependent (2 ^ u).
      intros. nra. }
    generalize dependent (inject_Z (roundHalfEven (x / 2 ^ u))).
    generalize dependent (inject_Z (2 ^ 52)). generalize dependent (2 ^ u).
    intros. nra.
Qed.

Lemma roundDouble_nonneg (x : Q) : 0 <= x -> 0 <= roundDouble x.
Proof.
  intros H. destruct (Qlt_le_dec 0 x) as [Hx | Hx].
  - rewrite (roundDouble_positive x Hx). unfold roundPositive.
    pose proof (pow2_pos (ulpExponent x)) as Hp.
    assert (Hy : inject_Z 0 <= x / 2 ^ ulpExponent x).
    { apply Qle_shift_div_l; [assumption | ]. change (inject_Z 0) with 0. lra. }
    apply roundHalfEven_ge in Hy. rewrite Zle_Qle in Hy. change (inject_Z 0) with 0 in Hy.
    generalize dependent (inject_Z (roundHalfEven (x / 2 ^ ulpExponent x))).
    generalize dependent (2 ^ ulpExponent x). intros. nra.
  - rewrite roundDouble_zero by lra. lra.
Qed.

(** In the binade of [x], a number less than half a unit below [N] units
    rounds to [N - 1] units at most. *)
Lemma roundDouble_below_half (x : Q) (N k : Z) :
  2 ^ k <= x -> x < 2 ^ (k + 1) -> (-1022 <= k)%Z ->
  x < (inject_Z N - (1 # 2)) * 2 ^ (k - 52) ->
  roundDouble x <= inject_Z (N - 1) * 2 ^ (k - 52).
Proof.
  intros H1 H2 Hk Hlt.
  assert (Hx : 0 < x) by (pose proof (pow2_pos k); lra).
  rewrite (roundDouble_positive x Hx). unfold roundPositive, ulpExponent.
  rewrite (binade_unique x k H1 H2).
  replace (Z.max (k - 52) (-1074)) with (k - 52)%Z by lia.
  pose proof (pow2_pos (k - 52)) as Hp.
  assert (Hy : x / 2 ^ (k - 52) < inject_Z N - (1 # 2)).
  { apply Qlt_shift_div_r; assumption. }
  apply roundHalfEven_below_half in Hy. rewrite Zle_Qle in Hy.
  generalize dependent (inject_Z (roundHalfEven (x / 2 ^ (k - 52)))).
  generalize dependent (inject_Z (N - 1)). generalize dependent (2 ^ (k - 52)).
  intros. nra.
Qed.

(** The largest Number value below 1 is 1 - 2^-53. *)
Lemma isDouble_below_one (r : Q) :
  isDouble r -> r < 1 -> r <= 1 - 2 ^ (-53).
Proof.
  intros Hd H1.
  destruct (Qlt_le_dec 0 r) as [Hr | Hr];
    [ | assert (0 < 2 ^ (-53)) by reflexivity; assert (2 ^ (-53) < 1) by reflexivity; lra].
  destruct (binade_spec r Hr) as [B1 B2].
  assert (Hk : (binade r < 0)%Z) by (apply pow2_lt_inv; change (2 ^ 0) with 1; lra).
  destruct (Z.eq_dec (binade r) (-1)) as [E | E].
  - unfold isDouble in Hd. rewrite (roundDouble_positive r Hr) in Hd.
    unfold roundPositive, ulpExponent in Hd. rewrite E in Hd.
    change (Z.max (-1 - 52) (-1074)) with (-53)%Z in Hd.
    set (M := roundHalfEven (r / 2 ^ (-53))) in *.
    assert (HM : inject_Z M < inject_Z (2 ^ 53)).
    { assert (H : inject_Z M * 2 ^ (-53) < 1) by lra.
      change (2 ^ (-53)) with (1 # 9007199254740992) in H.
      change (inject_Z (2 ^ 53)) with (9007199254740992 # 1). lra. }
    rewrite <- Zlt_Qlt in HM.
    assert (HM' : inject_Z M <= inject_Z (2 ^ 53 - 1)) by (rewrite <- Zle_Qle; lia).
    change (inject_Z (2 ^ 53 - 1)) with (9007199254740991 # 1) in HM'.
    rewrite <- Hd. change (2 ^ (-53)) with (1 # 9007199254740992). lra.
  - assert (H : 2 ^ (binade r + 1) <= 2 ^ (-1)) by (apply pow2_le; lia).
    change (2 ^ (-1)) with (1 # 2) in H.
    change (2 ^ (-53)) with (1 # 9007199254740992). lra.
Qed.

End DoubleFacts.

Section Draws.
Import JSDouble.
Local Open Scope Q_scope.

(** [Math.floor(Math.random() * 36)] is an index of the 36 characters. *)
Lemma floor_of_draw (r : Q) :
  isDouble r -> 0 <= r -> r < 1 ->
  (0 <= Qfloor (mul r (inject_Z 36)) < 36)%Z.
Proof.
  intros Hd H0 H1.
  pose proof (isDouble_below_one r Hd H1) as Hr.
  change (2 ^ (-53)) with (1 # 9007199254740992) in Hr.
  unfold mul. change (inject_Z 36) with 36.
  set (x := r * 36) in *.
  assert (Hx0 : 0 <= x) by (unfold x; lra).
  assert (Hx1 : x <= 36 - (36 # 9007199254740992)) by (unfold x; lra).
  clearbody x.
  split.
  - change 0%Z with (Qfloor 0). apply Qfloor_resp_le. now apply roundDouble_nonneg.
  - assert (Hlt : roundDouble x < 36).
    { destruct (Qlt_le_dec 0 x) as [Hpos | Hzero].
      - destruct (Qlt_le_dec x 32) as [Hlow | Hhigh].
        + assert (H : roundDouble x <= inject_Z (2 ^ 52) * 2 ^ (-47)).
          { apply roundDouble_le; try assumption; try lia.
            - assert (E : inject_Z (2 ^ 52) * 2 ^ (-47) == 32) by reflexivity. lra.
            - change (2 ^ (-47 + 53)) with 64. lra. }
          assert (E : inject_Z (2 ^ 52) * 2 ^ (-47) == 32) by reflexivity. lra.
        + assert (H : roundDouble x
                      <= inject_Z (36 * 2 ^ 47 - 1) * 2 ^ (5 - 52)).
          { apply roundDouble_below_half; try lia.
            - change (2 ^ 5) with 32. lra.
            - change (2 ^ (5 + 1)) with 64. lra.
            - assert (E : (inject_Z (36 * 2 ^ 47) - (1 # 2)) * 2 ^ (5 - 52)
                          == 36 - (1 # 281474976710656)) by reflexivity.
              lra. }
          assert (E : inject_Z (36 * 2 ^ 47 - 1) * 2 ^ (5 - 52)
                      == 36 - (1 # 140737488355328)) by reflexivity.
          lra.
      - rewrite roundDouble_zero by lra. reflexivity. }
    pose proof (Qfloor_le (roundDouble x)) as Hf.
    rewrite Zlt_Qlt. change (inject_Z 36) with 36. lra.
Qed.

(** [Math.floor(100000 + Math.random() * 900000)] has six digits. *)
Lemma floor_of_otp_draw (r : Q) :
  isDouble r -> 0 <= r -> r < 1 ->
  (100000 <= Qfloor (add 100000 (mul r 900000)) <= 999999)%Z.
Proof.
  intros Hd H0 H1.
  pose proof (isDouble_below_one r Hd H1) as Hr.
  change (2 ^ (-53)) with (1 # 9007199254740992) in Hr.
  unfold add, mul.
  set (x := r * 900000) in *.
  assert (Hx0 : 0 <= x) by (unfold x; lra).
  assert (Hx1 : x <= 900000 - (900000 # 9007199254740992)) by (unfold x; lra).
  clearbody x.
  assert (Hp0 : 0 <= roundDouble x) by now apply roundDouble_nonneg.
  assert (Hp1 : roundDouble x <= 900000 - (1 # 8589934592)).
  { destruct (Qlt_le_dec 0 x) as [Hpos | Hzero].
    - destruct (Qlt_le_dec x 524288) as [Hlow | Hhigh].
      + assert (H : roundDouble x <= inject_Z (2 ^ 52) * 2 ^ (-33)).
        { apply roundDouble_le; try assumption; try lia.
          - assert (E : inject_Z (2 ^ 52) * 2 ^ (-33) == 524288) by reflexivity. lra.
          - change (2 ^ (-33 + 53)) with 1048576. lra. }
        assert (E : inject_Z (2 ^ 52) * 2 ^ (-33) == 524288) by reflexivity. lra.
      + assert (H : roundDouble x
                    <= inject_Z (900000 * 2 ^ 33 - 1) * 2 ^ (19 - 52)).
        { apply roundDouble_below_half; try lia.
          - change (2 ^ 19) with 524288. lra.
          - change (2 ^ (19 + 1)) with 1048576. lra.
          - assert (E : (inject_Z (900000 * 2 ^ 33) - (1 # 2)) * 2 ^ (19 - 52)
                        == 900000 - (1 # 17179869184)) by reflexivity.
            lra. }
        assert (E : inject_Z (900000 * 2 ^ 33 - 1) * 2 ^ (19 - 52)
                    == 900000 - (1 # 8589934592)) by reflexivity.
        lra.
    - rewrite roundDouble_zero by lra. lra. }
  set (p := roundDouble x) in *. clearbody p.
  assert (Hs1 : roundDouble (100000 + p)
                <= inject_Z (1000000 * 2 ^ 33 - 1) * 2 ^ (-33)).
  { apply roundDouble_le; try lia.
    - lra.
    - assert (E : inject_Z (1000000 * 2 ^ 33 - 1) * 2 ^ (-33)
                  == 1000000 - (1 # 8589934592)) by reflexivity.
      lra.
    - change (2 ^ (-33 + 53)) with 1048576. lra. }
  assert (Hs0 : inject_Z (100000 * 2 ^ 36) * 2 ^ (-36) <= roundDouble (100000 + p)).
  { apply roundDouble_ge; try lia.
    assert (E : inject_Z (100000 * 2 ^ 36) * 2 ^ (-36) == 100000) by reflexivity. lra. }
  assert (E1 : inject_Z (1000000 * 2 ^ 33 - 1) * 2 ^ (-33)
               == 1000000 - (1 # 8589934592)) by reflexivity.
  assert (E0 : inject_Z (100000 * 2 ^ 36) * 2 ^ (-36) == 100000) by reflexivity.
  set (s := roundDouble (100000 + p)) in *. clearbody s.
  split.
  - change 100000%Z with (Qfloor 100000). apply Qfloor_resp_le. lra.
  - pose proof (Qfloor_le s) as Hf.
    assert (H : (Qfloor s < 1000000)%Z)
      by (rewrite Zlt_Qlt; change (inject_Z 1000000) with 1000000; lra).
    lia.
Qed.

(** The draws that the rounding changes: the exact product of the double
    nearest to 0.4444444444444444 and 36 lies below 16 and rounds to 16, and
    the double nearest to 0.5000022222222221 gives the password 550002. *)
Example rounded_draws :
  Qfloor (roundDouble (4444444444444444 # 10000000000000000) * 36) = 15%Z
  /\ Qfloor (mul (roundDouble (4444444444444444 # 10000000000000000)) 36) = 16%Z
  /\ Qfloor (add 100000 (mul (roundDouble (5000022222222221 # 10000000000000000)) 900000))
     = 550002%Z.
Proof. repeat split. Qed.

End Draws.


(* ===================================================================== *)
(** * parseInt and the decimal digits of a number *)
(* ===================================================================== *)

Section ParseInt.
Import JSNumber Digits.

Lemma of_lu_revapp_horner (d d' : Decimal.uint) :
  Z.of_N (Unsigned.of_lu (Decimal.revapp d d')) = horner (Z.of_N (Unsigned.of_lu d')) d.
Proof.
  revert d'. induction d; intros d'; simpl; [reflexivity | ..];
    rewrite IHd; f_equal; cbn [Unsigned.of_lu]; lia.
Qed.

Lemma of_uint_horner (d : Decimal.uint) : Z.of_uint d = horner 0 d.
Proof.
  unfold Z.of_uint. rewrite Unsigned.of_uint_alt. unfold Decimal.rev.
  now rewrite of_lu_revapp_horner.
Qed.

Lemma digitsValue_decimal (d : Decimal.uint) (a : Z) (rest : string) :
  digitsValue 10 (NilEmpty.string_of_uint d ++ rest) (Some a)
  = digitsValue 10 rest (Some (horner a d)).
Proof.
  revert a. induction d; intros a; simpl; [reflexivity | ..]; apply IHd.
Qed.

Lemma digitsValue_decimal_first (d : Decimal.uint) (rest : string) :
  d <> Decimal.Nil ->
  digitsValue 10 (NilEmpty.string_of_uint d ++ rest) None
  = digitsValue 10 rest (Some (horner 0 d)).
Proof.
  destruct d; intros Hd; [congruence | ..]; simpl; apply digitsValue_decimal.
Qed.

Lemma digitsValue_stops (rest : string) (acc : option Z) :
  notDigit rest = true -> digitsValue 10 rest acc = acc.
Proof.
  destruct rest as [ | c rest]; simpl; [reflexivity | ].
  destruct (digitValue c) as [v | ]; [ | reflexivity].
  destruct (v <? 10); [discriminate | reflexivity].
Qed.

Lemma unsigned_decimal (d : Decimal.uint) (rest : string) (sign : Z) :
  d <> Decimal.Nil ->
  notDigit rest = true ->
  (d = Decimal.D0 Decimal.Nil -> notHex rest = true) ->
  (let (R, digits) := stripPrefix (NilEmpty.string_of_uint d ++ rest) in
   match digitsValue R digits None with
   | None => NaN
   | Some v => Int (sign * v)
   end) = Int (sign * horner 0 d).
Proof.
  intros Hd Hrest Hhex.
  assert (Hprefix : stripPrefix (NilEmpty.string_of_uint d ++ rest)
                    = (10, NilEmpty.string_of_uint d ++ rest)).
  { destruct d as [ | d' | d' | d' | d' | d' | d' | d' | d' | d' | d' ];
      try congruence; simpl;
      try (destruct (NilEmpty.string_of_uint d' ++ rest); reflexivity).
    destruct d' as [ | d'' | d'' | d'' | d'' | d'' | d'' | d'' | d'' | d'' | d'' ];
      simpl; try reflexivity.
    specialize (Hhex eq_refl). destruct rest as [ | c rest]; simpl in *; [reflexivity | ].
    destruct (Ascii.eqb c "x" || Ascii.eqb c "X"); [discriminate | reflexivity]. }
  rewrite Hprefix, (digitsValue_decimal_first d rest Hd), (digitsValue_stops rest _ Hrest).
  reflexivity.
Qed.

Lemma trimStart_digit (d : Decimal.uint) (rest : string) :
  d <> Decimal.Nil ->
  CertificatesRoute.trimStart (NilEmpty.string_of_uint d ++ rest)
  = NilEmpty.string_of_uint d ++ rest.
Proof. destruct d; intros Hd; [congruence | ..]; reflexivity. Qed.

Lemma stripSign_digit (d : Decimal.uint) (rest : string) :
  d <> Decimal.Nil ->
  stripSign (NilEmpty.string_of_uint d ++ rest) = (1, NilEmpty.string_of_uint d ++ rest).
Proof. destruct d; intros Hd; [congruence | ..]; reflexivity. Qed.

Lemma to_uint_not_zero (p : positive) : Pos.to_uint p <> Decimal.D0 Decimal.Nil.
Proof.
  intros H. pose proof (Unsigned.of_to p) as E. rewrite H in E. discriminate.
Qed.

Lemma horner_to_uint (p : positive) : horner 0 (Pos.to_uint p) = Z.pos p.
Proof.
  rewrite <- of_uint_horner. unfold Z.of_uint. now rewrite Unsigned.of_to.
Qed.

Lemma parseIntString_decimal (z : Z) (rest : string) :
  notDigit rest = true ->
  (z = 0 -> notHex rest = true) ->
  parseIntString (Z_to_string z ++ rest) = Int z.
Proof.
  intros Hrest Hhex. unfold Z_to_string.
  destruct z as [ | p | p].
  - change (NilEmpty.string_of_int (Z.to_int 0))
      with (NilEmpty.string_of_uint (Decimal.D0 Decimal.Nil)).
    unfold parseIntString.
    rewrite trimStart_digit, stripSign_digit by discriminate.
    rewrite unsigned_decimal; auto; discriminate.
  - change (NilEmpty.string_of_int (Z.to_int (Z.pos p)))
      with (NilEmpty.string_of_uint (Pos.to_uint p)).
    unfold parseIntString.
    rewrite trimStart_digit, stripSign_digit by apply Unsigned.to_uint_nonnil.
    rewrite unsigned_decimal; auto using Unsigned.to_uint_nonnil.
    + now rewrite horner_to_uint.
    + intros E. now apply to_uint_not_zero in E.
  - change (NilEmpty.string_of_int (Z.to_int (Z.neg p)) ++ rest)
      with (String "-" (NilEmpty.string_of_uint (Pos.to_uint p) ++ rest)).
    unfold parseIntString.
    change (CertificatesRoute.trimStart
              (String "-" (NilEmpty.string_of_uint (Pos.to_uint p) ++ rest)))
      with (String "-" (NilEmpty.string_of_uint (Pos.to_uint p) ++ rest)).
    change (stripSign (String "-" (NilEmpty.string_of_uint (Pos.to_uint p) ++ rest)))
      with (-1, NilEmpty.string_of_uint (Pos.to_uint p) ++ rest).
    cbv beta iota.
    rewrite unsigned_decimal; auto using Unsigned.to_uint_nonnil.
    + now rewrite horner_to_uint.
    + intros E. now apply to_uint_not_zero in E.
Qed.

Lemma append_empty (s : string) : s ++ "" = s.
Proof.
  induction s as [ | c s IH]; [reflexivity | ].
  change (String c (s ++ "") = String c s). now rewrite IH.
Qed.

Lemma parseInt_of_decimal (z : Z) :
  parseInt (Some (JStr (Z_to_string z))) = Int z
  /\ parseInt (Some (JNum (Int z))) = Int z.
Proof.
  unfold parseInt. simpl.
  rewrite <- (append_empty (Z_to_string z)).
  split; apply parseIntString_decimal; auto.
Qed.

Lemma Z_to_string_not_empty (z : Z) (rest : string) :
  String.eqb (Z_to_string z ++ rest) "" = false.
Proof.
  unfold Z_to_string. destruct z as [ | p | p]; try reflexivity.
  change (NilEmpty.string_of_int (Z.to_int (Z.pos p)))
    with (NilEmpty.string_of_uint (Pos.to_uint p)).
  pose proof (Unsigned.to_uint_nonnil p) as Hd.
  destruct (Pos.to_uint p); [congruence | ..]; reflexivity.
Qed.

End ParseInt.

(* ===================================================================== *)
(** * Further properties of the renderer *)
(* ===================================================================== *)

Section RendererMore.
Import CertificateGenerator Rendering Observe Layout.

Lemma render_reads_template_only_log env path sd :
  log (generateCertificate env path sd) = [ReadFile path].
Proof.
  unfold generateCertificate, generateQRCode, drawName, fs_readFile, PDFDocument_load,
    embedFont, drawText, QRCode_toBuffer, embedPng, save, drawImage.
  unfold try_catch, bind, guard, throw, ret, lift, emit, log.
  repeat (first [ reflexivity | step ]).
Qed.

(** X1. Whatever the request and whatever fails, the only call the
    renderer makes outside the process is one read of the template file: it
    never queries or writes the database, and it reads no other file. *)
Theorem render_reads_template_only env path sd :
  log (generateCertificate env path sd) = [ReadFile path]
  /\ persisted (log (generateCertificate env path sd)) = []
  /\ forall q, ~ In (Query q) (log (generateCertificate env path sd)).
Proof.
  rewrite render_reads_template_only_log. repeat split.
  intros q [H | []]. discriminate.
Qed.

(** X2. A render that succeeds keeps the pages of the template: the output
    has as many pages as the template, page for page of the same size, and
    every page after the first is left as it was loaded. *)
Theorem template_pages_are_kept env path sd b :
  outcome (generateCertificate env path sd) = Ok b ->
  exists buf sizes,
    readFile env path = Ok buf
    /\ load env buf = Ok sizes
    /\ pageSizes b = sizes
    /\ pageCount b = List.length sizes
    /\ Forall (fun p => drawn p = []) (List.tl (pages (serialized b))).
Proof.
  intros H. apply outcome_rendered in H.
  destruct H as [buf w h rest name cid Hread Hload].
  exists buf, ((w, h) :: rest).
  split; [assumption | ]. split; [assumption | ].
  split; [ | split].
  - unfold pageSizes. simpl. f_equal.
    clear. induction rest as [ | [w' h'] rest IH]; simpl; [reflexivity | ].
    now rewrite IH.
  - unfold pageCount. simpl. now rewrite List.length_map.
  - simpl. clear. induction rest as [ | wh rest IH]; simpl; constructor; auto.
Qed.

Lemma template_pages_are_kept_witness :
  exists buf sizes,
    readFile (Cases.worldOf Cases.twoPages (Cases.always Demo.asha)) Demo.templatePath = Ok buf
    /\ load (Cases.worldOf Cases.twoPages (Cases.always Demo.asha)) buf = Ok sizes
    /\ pageSizes Cases.twoPageBytes = sizes
    /\ pageCount Cases.twoPageBytes = List.length sizes
    /\ Forall (fun p => drawn p = []) (List.tl (pages (serialized Cases.twoPageBytes))).
Proof.
  apply (template_pages_are_kept (Cases.worldOf Cases.twoPages (Cases.always Demo.asha))
                                 Demo.templatePath Demo.asha).
  vm_compute. reflexivity.
Defined.

(** X3. A render that succeeds draws exactly three lines of text on the
    first page, all in black: the name in Helvetica Bold 24 on the baseline
    50 above the middle of the page; the sentence naming the course and the
    company in Helvetica 14, 10 above the middle; the sentence giving the
    two formatted dates in Helvetica 14, 20 below the middle.  The name
    starts 12 per character left of the centre, the two sentences 4 per
    character. *)
Theorem three_lines_of_text env path sd b :
  outcome (generateCertificate env path sd) = Ok b ->
  exists w h name,
    firstPageSize b = Some (w, h)
    /\ sd !! "preferred_name" = Some (JStr name)
    /\ firstPageLines b
       = [ (name, (w / 2 - len name * 12)%Q, (h / 2 + 50)%Q, 24%Q,
            HelveticaBold, rgb 0 0 0);
           (completionTextOf sd, (w / 2 - len (completionTextOf sd) * 4)%Q,
            (h / 2 + 10)%Q, 14%Q, Helvetica, rgb 0 0 0);
           (dateTextOf env sd, (w / 2 - len (dateTextOf env sd) * 4)%Q,
            (h / 2 - 20)%Q, 14%Q, Helvetica, rgb 0 0 0) ]
    /\ completionTextOf sd
       = "has successfully completed a " ++ ToString (sd !! "course_name")
           ++ " Internship at " ++ ToString (sd !! "company_name") ++ ","
    /\ dateTextOf env sd
       = "held from " ++ formatDate env (sd !! "internship_start_date")
           ++ " to " ++ formatDate env (sd !! "internship_end_date") ++ ".".
Proof.
  intros H. apply outcome_rendered in H.
  destruct H as [buf w h rest name cid Hread Hload Hf1 Hf2 Hname].
  exists w, h, name. repeat split; try assumption.
Qed.

Lemma three_lines_of_text_witness :
  exists w h name,
    firstPageSize Demo.ashaBytes = Some (w, h)
    /\ Demo.asha !! "preferred_name" = Some (JStr name)
    /\ firstPageLines Demo.ashaBytes
       = [ (name, (w / 2 - len name * 12)%Q, (h / 2 + 50)%Q, 24%Q,
            HelveticaBold, rgb 0 0 0);
           (completionTextOf Demo.asha,
            (w / 2 - len (completionTextOf Demo.asha) * 4)%Q,
            (h / 2 + 10)%Q, 14%Q, Helvetica, rgb 0 0 0);
           (dateTextOf (Demo.world 0 0 Demo.asha) Demo.asha,
            (w / 2 - len (dateTextOf (Demo.world 0 0 Demo.asha) Demo.asha) * 4)%Q,
            (h / 2 - 20)%Q, 14%Q, Helvetica, rgb 0 0 0) ]
    /\ completionTextOf Demo.asha
       = "has successfully completed a " ++ ToString (Demo.asha !! "course_name")
           ++ " Internship at " ++ ToString (Demo.asha !! "company_name") ++ ","
    /\ dateTextOf (Demo.world 0 0 Demo.asha) Demo.asha
       = "held from "
           ++ formatDate (Demo.world 0 0 Demo.asha) (Demo.asha !! "internship_start_date")
           ++ " to "
           ++ formatDate (Demo.world 0 0 Demo.asha) (Demo.asha !! "internship_end_date")
           ++ ".".
Proof.
  apply (three_lines_of_text (Demo.world 0 0 Demo.asha) Demo.templatePath Demo.asha).
  vm_compute. reflexivity.
Defined.

(** The text of that certificate. *)
Example asha_certificate_text :
  List.map (fun l => fst (fst (fst (fst (fst l))))) (firstPageLines Demo.ashaBytes)
  = [ "Asha Rao";
      "has successfully completed a Full Stack Internship at AddWise Tech Innovations,";
      "held from 15 January 2025 to 15 April 2025." ].
Proof. vm_compute. reflexivity. Qed.

(** X4. The start of the name line is not clamped to the page: on a page
    narrower than 24 per character of the name, a render that succeeds
    draws the name from a negative horizontal position, off the left edge;
    on a wider page the start is inside the page. *)
Theorem long_name_starts_off_page env path sd b :
  outcome (generateCertificate env path sd) = Ok b ->
  exists w h name y size font color rest,
    firstPageSize b = Some (w, h)
    /\ sd !! "preferred_name" = Some (JStr name)
    /\ firstPageLines b = (name, nameStart w name, y, size, font, color) :: rest
    /\ ((w < 24 * len name)%Q <-> (nameStart w name < 0)%Q).
Proof.
  intros H. apply outcome_rendered in H.
  destruct H as [buf w h rest name cid Hread Hload Hf1 Hf2 Hname].
  eexists w, h, name, _, _, _, _, _. repeat split; try assumption; try reflexivity.
  - unfold nameStart. intros Hw.
    assert (E : (w / 2 == w * (1 # 2))%Q) by field. rewrite E. lra.
  - unfold nameStart. intros Hx.
    assert (E : (w / 2 == w * (1 # 2))%Q) by field. rewrite E in Hx. lra.
Qed.

Lemma long_name_starts_off_page_witness :
  exists w h name y size font color rest,
    firstPageSize Cases.maximilianaBytes = Some (w, h)
    /\ Cases.maximiliana !! "preferred_name" = Some (JStr name)
    /\ firstPageLines Cases.maximilianaBytes
       = (name, nameStart w name, y, size, font, color) :: rest
    /\ ((w < 24 * len name)%Q <-> (nameStart w name < 0)%Q).
Proof.
  apply (long_name_starts_off_page (Cases.worldOf Cases.a4 (Cases.always Cases.maximiliana))
                                   Demo.templatePath Cases.maximiliana).
  vm_compute. reflexivity.
Defined.

(** The name of [Cases.maximiliana] does start off the page. *)
Example maximiliana_starts_off_page :
  (nameStart 842 Cases.longName == -95)%Q.
Proof. reflexivity. Qed.

End RendererMore.

(* ===================================================================== *)
(** * Further properties of generateAndSaveCertificate *)
(* ===================================================================== *)

Section SaveMore.
Import CertificateGenerator Rendering Observe.
#[local] Arguments missingFieldsOf : simpl never.

Lemma log_outcome {A} (m : M A) : m = (log m, outcome m).
Proof. now destruct m. Qed.

Lemma no_missing_field_iff (row : object) :
  missingFieldsOf row = []
  <-> Forall (fun field => truthy (row !! field) = true) requiredFields.
Proof.
  unfold missingFieldsOf. split.
  - intros H. apply Forall_forall. intros f Hf.
    destruct (truthy (row !! f)) eqn:E; [reflexivity | exfalso].
    assert (Hin : In f (List.filter (fun field => negb (truthy (row !! field)))
                                    requiredFields)).
    { apply filter_In. split; [assumption | now rewrite E]. }
    rewrite H in Hin. destruct Hin.
  - intros H.
    destruct (List.filter (fun field => negb (truthy (row !! field))) requiredFields)
      as [ | f fs] eqn:E; [reflexivity | exfalso].
    assert (Hin : In f (List.filter (fun field => negb (truthy (row !! field)))
                                    requiredFields)) by (rewrite E; now left).
    apply filter_In in Hin as [Hin Hf].
    rewrite Forall_forall in H. rewrite (H f Hin) in Hf. discriminate.
Qed.

(** X5. When the fetch of the student reports an error or brings no row,
    [generateAndSaveCertificate] throws (the error of the fetch wrapped in
    Failed to fetch student, or Student not found) and has made no other
    outside call: no template is read and nothing is written. *)
Theorem failed_fetch_stops_everything env path studentId :
  error (supabase env (fetchStudentQuery studentId)) <> None
  \/ data (supabase env (fetchStudentQuery studentId)) = None ->
  generateAndSaveCertificate env path studentId
  = ([Query (fetchStudentQuery studentId)],
     Throw (Error
              match error (supabase env (fetchStudentQuery studentId)) with
              | Some fetchError => "Failed to fetch student: " ++ JS.message fetchError
              | None => "Student not found"
              end)).
Proof.
  intros H.
  unfold generateAndSaveCertificate, await_query.
  unfold try_catch, bind, throw, ret, emit.
  destruct (error (supabase env (fetchStudentQuery studentId))) as [e | ] eqn:Herr; simpl.
  - reflexivity.
  - destruct H as [H | H]; [congruence | ]. rewrite H. reflexivity.
Qed.

Lemma failed_fetch_stops_everything_witness :
  generateAndSaveCertificate (Cases.worldOf Cases.a4 Cases.offline) Demo.templatePath (Int 7)
  = ([Query (fetchStudentQuery (Int 7))],
     Throw (Error
              match error (supabase (Cases.worldOf Cases.a4 Cases.offline)
                                    (fetchStudentQuery (Int 7))) with
              | Some fetchError => "Failed to fetch student: " ++ JS.message fetchError
              | None => "Student not found"
              end)).
Proof.
  apply (failed_fetch_stops_everything (Cases.worldOf Cases.a4 Cases.offline)
                                       Demo.templatePath (Int 7)).
  left. discriminate.
Defined.

(** X6. When the row passes the check of the required fields and the
    render fails, [generateAndSaveCertificate] throws the error of the
    render, Certificate generation failed and its cause, and sends no
    update: a certificate stored earlier is not overwritten.  The check is
    one of truthiness, so a row whose name is a number gets this far. *)
Theorem failed_render_stores_nothing env path studentId row e :
  error (supabase env (fetchStudentQuery studentId)) = None ->
  data (supabase env (fetchStudentQuery studentId)) = Some row ->
  Forall (fun field => truthy (row !! field) = true) requiredFields ->
  outcome (generateCertificate env path row) = Throw e ->
  generateAndSaveCertificate env path studentId
  = ([Query (fetchStudentQuery studentId); ReadFile path], Throw e)
  /\ persisted (log (generateAndSaveCertificate env path studentId)) = []
  /\ exists cause, e = Error ("Certificate generation failed: " ++ cause).
Proof.
  intros Herr Hdata Hreq Hgen.
  apply no_missing_field_iff in Hreq.
  assert (Hrun : generateCertificate env path row = ([ReadFile path], Throw e)).
  { rewrite (log_outcome (generateCertificate env path row)).
    now rewrite render_reads_template_only_log, Hgen. }
  assert (Hsave : generateAndSaveCertificate env path studentId
                  = ([Query (fetchStudentQuery studentId); ReadFile path], Throw e)).
  { unfold generateAndSaveCertificate, await_query.
    unfold try_catch, bind, throw, ret, emit.
    rewrite Herr, Hdata. simpl. rewrite Hreq. simpl. rewrite Hrun. reflexivity. }
  rewrite Hsave. repeat split.
  apply (generateCertificate_throw env path row _ e Hrun).
Qed.

Lemma failed_render_stores_nothing_witness :
  generateAndSaveCertificate (Cases.worldOf Cases.a4 (Cases.always Cases.numbered))
                             Demo.templatePath (Int 7)
  = ([Query (fetchStudentQuery (Int 7)); ReadFile Demo.templatePath],
     Throw Cases.numberedError)
  /\ persisted (log (generateAndSaveCertificate
                       (Cases.worldOf Cases.a4 (Cases.always Cases.numbered))
                       Demo.templatePath (Int 7))) = []
  /\ exists cause, Cases.numberedError = Error ("Certificate generation failed: " ++ cause).
Proof.
  apply (failed_render_stores_nothing (Cases.worldOf Cases.a4 (Cases.always Cases.numbered))
                                      Demo.templatePath (Int 7) Cases.numbered).
  - reflexivity.
  - reflexivity.
  - repeat constructor.
  - vm_compute. reflexivity.
Defined.

(** X7. When the render succeeds and the update that stores the bytes
    reports an error, [generateAndSaveCertificate] throws that error wrapped
    in Failed to save certificate; the rendered bytes were sent once and are
    not returned. *)
Theorem failed_update_is_reported env path studentId row b updateError :
  error (supabase env (fetchStudentQuery studentId)) = None ->
  data (supabase env (fetchStudentQuery studentId)) = Some row ->
  Forall (fun field => truthy (row !! field) = true) requiredFields ->
  outcome (generateCertificate env path row) = Ok b ->
  error (supabase env (saveCertificateQuery studentId b)) = Some updateError ->
  generateAndSaveCertificate env path studentId
  = ([Query (fetchStudentQuery studentId); ReadFile path;
      Query (saveCertificateQuery studentId b)],
     Throw (Error ("Failed to save certificate: " ++ JS.message updateError))).
Proof.
  intros Herr Hdata Hreq Hgen Hupd.
  apply no_missing_field_iff in Hreq.
  assert (Hrun : generateCertificate env path row = ([ReadFile path], Ok b)).
  { rewrite (log_outcome (generateCertificate env path row)).
    now rewrite render_reads_template_only_log, Hgen. }
  unfold generateAndSaveCertificate, await_query.
  unfold try_catch, bind, throw, ret, emit.
  rewrite Herr, Hdata. simpl. rewrite Hreq. simpl. rewrite Hrun. simpl.
  rewrite Hupd. reflexivity.
Qed.

Lemma failed_update_is_reported_witness :
  generateAndSaveCertificate (Cases.worldOf Cases.a4 (Cases.readOnly Demo.asha))
                             Demo.templatePath (Int 7)
  = ([Query (fetchStudentQuery (Int 7)); ReadFile Demo.templatePath;
      Query (saveCertificateQuery (Int 7) Cases.readOnlyBytes)],
     Throw (Error ("Failed to save certificate: "
                     ++ JS.message (Error "permission denied for table students")))).
Proof.
  apply (failed_update_is_reported (Cases.worldOf Cases.a4 (Cases.readOnly Demo.asha))
                                   Demo.templatePath (Int 7) Demo.asha).
  - reflexivity.
  - reflexivity.
  - repeat constructor.
  - vm_compute. reflexivity.
  - reflexivity.
Defined.

(** X8. [generateAndSaveCertificate] returns a result exactly when the
    fetch brings a row without an error, the six required fields of the row
    are truthy, the render of the row succeeds and the update that stores
    its bytes reports no error; the result then carries the name and the
    identifier of the row and the length of the bytes that were stored. *)
Theorem save_succeeds_exactly_when env path studentId res :
  outcome (generateAndSaveCertificate env path studentId) = Ok res
  <-> exists row b,
        error (supabase env (fetchStudentQuery studentId)) = None
        /\ data (supabase env (fetchStudentQuery studentId)) = Some row
        /\ Forall (fun field => truthy (row !! field) = true) requiredFields
        /\ outcome (generateCertificate env path row) = Ok b
        /\ error (supabase env (saveCertificateQuery studentId b)) = None
        /\ res = {| success := true;
                    message := "Certificate generated and saved successfully";
                    student := row !! "preferred_name";
                    certificateId := row !! "certificate_id";
                    size := byteLength b |}.
Proof.
  split.
  - intros H. apply outcome_run in H.
    destruct (generateAndSaveCertificate_ok _ _ _ _ _ H)
      as (row & b & Herr & Hdata & Hmiss & Hren & Hupd & _ & Hres).
    exists row, b. repeat split; try assumption.
    + now apply no_missing_field_iff.
    + now rewrite (rendered_generateCertificate _ _ _ _ Hren).
  - intros (row & b & Herr & Hdata & Hreq & Hgen & Hupd & ->).
    apply no_missing_field_iff in Hreq.
    assert (Hrun : generateCertificate env path row = ([ReadFile path], Ok b)).
    { rewrite (log_outcome (generateCertificate env path row)).
      now rewrite render_reads_template_only_log, Hgen. }
    unfold generateAndSaveCertificate, await_query.
    unfold try_catch, bind, throw, ret, emit.
    rewrite Herr, Hdata. simpl. rewrite Hreq. simpl. rewrite Hrun. simpl.
    rewrite Hupd. reflexivity.
Qed.

End SaveMore.

(* ===================================================================== *)
(** * Properties of the endpoints of src/index.js *)
(* ===================================================================== *)

Section Endpoints.
Import CertificateGenerator Observe Replies.
Variable env : Env.
Variable path : string.
Variable parseInt : option jsval -> jsnum.

(** X9. A student row that lacks a required field makes the generate
    endpoint answer 500, Failed to generate certificate, with the list of
    the missing fields as details; only the fetch of the student was made. *)
Theorem missing_field_is_a_server_error (params row : object) (field : string) :
  truthy (params !! "studentId") = true ->
  error (supabase env (fetchStudentQuery (parseInt (params !! "studentId")))) = None ->
  data (supabase env (fetchStudentQuery (parseInt (params !! "studentId")))) = Some row ->
  In field requiredFields ->
  truthy (row !! field) = false ->
  Server.post_generate env path parseInt params
  = ([Query (fetchStudentQuery (parseInt (params !! "studentId")))],
     Ok {| Server.status := 500;
           Server.headers := [];
           Server.body :=
             Server.JsonBody
               [("success", Some (JBool false));
                ("error", Some (JStr "Failed to generate certificate"));
                ("details", Some (JStr ("Missing required fields: "
                                          ++ join ", " (missingFieldsOf row))))]
               None |}).
Proof.
  intros Hid Herr Hdata Hreq Hfalsy.
  assert (Hne : missingFieldsOf row <> []).
  { intros Hnil.
    assert (Hin : In field (missingFieldsOf row)).
    { unfold missingFieldsOf. apply filter_In. split; [assumption | now rewrite Hfalsy]. }
    rewrite Hnil in Hin. destruct Hin. }
  unfold Server.post_generate. rewrite Hid. simpl.
  rewrite (generateAndSaveCertificate_missing env path _ row Herr Hdata Hne).
  reflexivity.
Qed.

End Endpoints.

Lemma missing_field_is_a_server_error_witness :
  Server.post_generate (Demo.world 0 0 Demo.nameless) Demo.templatePath JSNumber.parseInt
                       Cases.seven
  = ([Query (CertificateGenerator.fetchStudentQuery
               (JSNumber.parseInt (Cases.seven !! "studentId")))],
     Ok {| Server.status := 500;
           Server.headers := [];
           Server.body :=
             Server.JsonBody
               [("success", Some (JBool false));
                ("error", Some (JStr "Failed to generate certificate"));
                ("details",
                 Some (JStr ("Missing required fields: "
                               ++ join ", " (CertificateGenerator.missingFieldsOf
                                               Demo.nameless))))]
               None |}).
Proof.
  apply (missing_field_is_a_server_error (Demo.world 0 0 Demo.nameless) Demo.templatePath
                                         JSNumber.parseInt Cases.seven Demo.nameless
                                         "company_name").
  - reflexivity.
  - reflexivity.
  - reflexivity.
  - simpl. tauto.
  - reflexivity.
Defined.

Section Download.
Import CertificateReader Observe Replies.
Variable env : Env.
Variable path : string.
Variable parseInt : option jsval -> jsnum.

(** X10. When the student row holds a certificate (a string that is not
    empty), the download endpoint makes one query, a select, and writes
    nothing.  If the file name built from the preferred name and the
    certificate id is a value that a header can hold, it answers 200 with
    exactly the stored string as content, typed application/pdf and named
    <preferred_name>_Certificate_<certificate_id>.pdf.  If the name holds a
    character that a header cannot hold (a line feed, say), setting the
    header throws and the answer is 500, Failed to download certificate. *)
Theorem download_sends_the_stored_certificate (params row : object) (content : string) :
  truthy (params !! "studentId") = true ->
  error (supabase env (getCertificateQuery (parseInt (params !! "studentId")))) = None ->
  data (supabase env (getCertificateQuery (parseInt (params !! "studentId")))) = Some row ->
  row !! "certificate" = Some (JStr content) ->
  content <> "" ->
  Server.get_download env parseInt params
  = ([Query (getCertificateQuery (parseInt (params !! "studentId")))],
     Ok (if Server.validHeaderValue
              (Server.contentDisposition (row !! "preferred_name")
                                         (row !! "certificate_id"))
         then {| Server.status := 200;
                 Server.headers :=
                   [("Content-Type", "application/pdf");
                    ("Content-Disposition",
                     "attachment; filename=" ++ Server.dquote
                       ++ ToString (row !! "preferred_name") ++ "_Certificate_"
                       ++ ToString (row !! "certificate_id") ++ ".pdf"
                       ++ Server.dquote)];
                 Server.body := Server.Raw content |}
         else {| Server.status := 500;
                 Server.headers := [("Content-Type", "application/pdf")];
                 Server.body :=
                   Server.JsonBody
                     [("success", Some (JBool false));
                      ("error", Some (JStr "Failed to download certificate"));
                      ("details",
                       Some (JStr ("Invalid character in header content ["
                                     ++ Server.dquote ++ "Content-Disposition"
                                     ++ Server.dquote ++ "]")))]
                     None |}))
  /\ updatesOf (log (Server.get_download env parseInt params)) = [].
Proof.
  intros Hid Herr Hdata Hcert Hne.
  assert (Htruthy : truthy (row !! "certificate") = true).
  { rewrite Hcert. simpl. destruct (String.eqb_spec content ""); [contradiction | reflexivity]. }
  unfold Server.get_download, getCertificate, await_query, Server.setHeader.
  unfold try_catch, bind, throw, ret, emit, lift, log.
  rewrite Hid. simpl. rewrite Herr, Hdata. simpl. rewrite Htruthy. simpl.
  rewrite Hcert.
  destruct (Server.validHeaderValue _); split; reflexivity.
Qed.

(** X11. When there is no row for the student, or the row holds no
    certificate (the column is absent, null or empty), the download
    endpoint answers 500, Failed to download certificate, with the details
    Certificate not found; no header of a file is set. *)
Theorem download_without_certificate (params : object) :
  truthy (params !! "studentId") = true ->
  error (supabase env (getCertificateQuery (parseInt (params !! "studentId")))) = None ->
  match data (supabase env (getCertificateQuery (parseInt (params !! "studentId")))) with
  | Some row => truthy (row !! "certificate") = false
  | None => True
  end ->
  Server.get_download env parseInt params
  = ([Query (getCertificateQuery (parseInt (params !! "studentId")))],
     Ok {| Server.status := 500;
           Server.headers := [];
           Server.body :=
             Server.JsonBody
               [("success", Some (JBool false));
                ("error", Some (JStr "Failed to download certificate"));
                ("details", Some (JStr "Certificate not found"))]
               None |}).
Proof.
  intros Hid Herr Hrow.
  unfold Server.get_download, getCertificate, await_query.
  unfold try_catch, bind, throw, ret, emit, lift.
  rewrite Hid. simpl. rewrite Herr.
  destruct (data (supabase env (getCertificateQuery (parseInt (params !! "studentId")))))
    as [row | ]; simpl; [rewrite Hrow | ]; reflexivity.
Qed.

(** X12. When the status endpoint and the download endpoint see the same
    row, and the certificate column of the row is absent, null or a string,
    the download endpoint answers 200 exactly when the status endpoint
    reports generated and the file name built from the row is a value that
    a header can hold; otherwise it answers 500.  So a status of
    not_generated means that the download fails, while a status of
    generated means that it succeeds only for such a name. *)
Theorem status_agrees_with_download (params row : object) :
  truthy (params !! "studentId") = true ->
  supabase env (Server.certificateStatusQuery (parseInt (params !! "studentId")))
  = {| data := Some row; error := None |} ->
  supabase env (getCertificateQuery (parseInt (params !! "studentId")))
  = {| data := Some row; error := None |} ->
  (row !! "certificate" = None \/ row !! "certificate" = Some JNull
   \/ exists c, row !! "certificate" = Some (JStr c)) ->
  exists reported downloaded,
    outcome (Server.get_status env parseInt params) = Ok reported
    /\ outcome (Server.get_download env parseInt params) = Ok downloaded
    /\ Server.status reported = 200
    /\ (Server.status downloaded = 200
        <-> dataField "status" reported = Some (Some (JStr "generated"))
            /\ Server.validHeaderValue
                 (Server.contentDisposition (row !! "preferred_name")
                                            (row !! "certificate_id")) = true)
    /\ (Server.status downloaded = 500
        <-> dataField "status" reported = Some (Some (JStr "not_generated"))
            \/ Server.validHeaderValue
                 (Server.contentDisposition (row !! "preferred_name")
                                            (row !! "certificate_id")) = false).
Proof.
  intros Hid Hstatus Hget Hcert.
  unfold Server.get_status, Server.get_download, getCertificate, await_query,
    Server.setHeader.
  unfold try_catch, bind, throw, ret, emit, lift.
  rewrite Hid, Hstatus, Hget. simpl.
  destruct Hcert as [Hc | [Hc | [c Hc]]]; rewrite Hc; simpl;
    try (destruct (String.eqb c ""); simpl);
    destruct (Server.validHeaderValue _) eqn:Hv; simpl;
    eexists _, _;
    (split; [reflexivity | ]); (split; [reflexivity | ]); (split; [reflexivity | ]);
    simpl; (split; split; intros H);
    repeat match goal with
           | H : _ /\ _ |- _ => destruct H
           | H : _ \/ _ |- _ => destruct H
           end;
    try discriminate; try reflexivity;
    try solve [split; reflexivity | left; reflexivity | right; reflexivity].
Qed.

(** X13. The eligibility endpoint writes at most once, and only the column
    [eligible]: for a boolean it sends one update that sets [eligible] to
    that boolean on the rows of the student; for any other value (the
    string true, the number 1, null, no field) it sends nothing at all,
    and with a student id in the URL it answers 400, Eligible status must
    be a boolean value. *)
Theorem eligibility_writes_a_boolean_or_nothing (params req_body : object) :
  log (Server.put_eligibility env parseInt params req_body)
  = match req_body !! "eligible" with
    | Some (JBool b) =>
        if truthy (params !! "studentId")
        then [Query (Update "students" [("eligible", Val (Some (JBool b)))]
                            [("student_id",
                              Some (JNum (parseInt (params !! "studentId"))))] true)]
        else []
    | _ => []
    end
  /\ (truthy (params !! "studentId") = true ->
      (forall b, req_body !! "eligible" <> Some (JBool b)) ->
      outcome (Server.put_eligibility env parseInt params req_body)
      = Ok {| Server.status := 400;
              Server.headers := [];
              Server.body :=
                Server.JsonBody
                  [("success", Some (JBool false));
                   ("error", Some (JStr "Eligible status must be a boolean value"))]
                  None |}).
Proof.
  split.
  - unfold Server.put_eligibility, Server.eligibilityUpdate, await_query.
    unfold try_catch, bind, throw, ret, emit, lift, log.
    destruct (truthy (params !! "studentId")); simpl.
    + destruct (req_body !! "eligible") as [[ | b | n | s] | ]; try reflexivity.
      simpl.
      destruct (supabase env _) as [[row | ] [e | ]]; reflexivity.
    + destruct (req_body !! "eligible") as [[ | b | n | s] | ]; reflexivity.
  - intros Hid Hnot.
    unfold Server.put_eligibility. rewrite Hid. simpl.
    destruct (req_body !! "eligible") as [[ | b | n | s] | ] eqn:E; try reflexivity.
    exfalso. now apply (Hnot b).
Qed.

End Download.

Lemma download_sends_the_stored_certificate_witness :
  Server.get_download (Cases.worldOf Cases.a4 (Cases.always Cases.certified))
                      JSNumber.parseInt Cases.seven
  = ([Query (CertificateReader.getCertificateQuery
               (JSNumber.parseInt (Cases.seven !! "studentId")))],
     Ok (if Server.validHeaderValue
              (Server.contentDisposition (Cases.certified !! "preferred_name")
                                         (Cases.certified !! "certificate_id"))
         then {| Server.status := 200;
                 Server.headers :=
                   [("Content-Type", "application/pdf");
                    ("Content-Disposition",
                     "attachment; filename=" ++ Server.dquote
                       ++ ToString (Cases.certified !! "preferred_name")
                       ++ "_Certificate_"
                       ++ ToString (Cases.certified !! "certificate_id") ++ ".pdf"
                       ++ Server.dquote)];
                 Server.body := Server.Raw Cases.hexBytes |}
         else {| Server.status := 500;
                 Server.headers := [("Content-Type", "application/pdf")];
                 Server.body :=
                   Server.JsonBody
                     [("success", Some (JBool false));
                      ("error", Some (JStr "Failed to download certificate"));
                      ("details",
                       Some (JStr ("Invalid character in header content ["
                                     ++ Server.dquote ++ "Content-Disposition"
                                     ++ Server.dquote ++ "]")))]
                     None |}))
  /\ Replies.updatesOf
       (log (Server.get_download (Cases.worldOf Cases.a4 (Cases.always Cases.certified))
                                 JSNumber.parseInt Cases.seven)) = [].
Proof.
  apply (download_sends_the_stored_certificate
           (Cases.worldOf Cases.a4 (Cases.always Cases.certified))
           JSNumber.parseInt Cases.seven Cases.certified Cases.hexBytes).
  - reflexivity.
  - reflexivity.
  - reflexivity.
  - reflexivity.
  - discriminate.
Defined.

(** The two cases of the file name: the name of [Demo.asha] gives 200, a
    name with a line feed in it gives 500. *)
Example download_by_file_name :
  Server.status
    (Cases.sentBy (Server.get_download (Cases.worldOf Cases.a4 (Cases.always Cases.certified))
                                       JSNumber.parseInt Cases.seven)) = 200
  /\ Server.status
       (Cases.sentBy (Server.get_download
                        (Cases.worldOf Cases.a4 (Cases.always Cases.twoLineName))
                        JSNumber.parseInt Cases.seven)) = 500.
Proof. split; vm_compute; reflexivity. Qed.

Lemma download_without_certificate_witness :
  Server.get_download (Cases.worldOf Cases.a4 (Cases.always Demo.asha))
                      JSNumber.parseInt Cases.seven
  = ([Query (CertificateReader.getCertificateQuery
               (JSNumber.parseInt (Cases.seven !! "studentId")))],
     Ok {| Server.status := 500;
           Server.headers := [];
           Server.body :=
             Server.JsonBody
               [("success", Some (JBool false));
                ("error", Some (JStr "Failed to download certificate"));
                ("details", Some (JStr "Certificate not found"))]
               None |}).
Proof.
  apply (download_without_certificate (Cases.worldOf Cases.a4 (Cases.always Demo.asha))
                                      JSNumber.parseInt Cases.seven).
  - reflexivity.
  - reflexivity.
  - reflexivity.
Defined.

Lemma status_agrees_with_download_witness :
  exists reported downloaded,
    outcome (Server.get_status (Cases.worldOf Cases.a4 (Cases.always Cases.twoLineName))
                               JSNumber.parseInt Cases.seven) = Ok reported
    /\ outcome (Server.get_download (Cases.worldOf Cases.a4 (Cases.always Cases.twoLineName))
                                    JSNumber.parseInt Cases.seven) = Ok downloaded
    /\ Server.status reported = 200
    /\ (Server.status downloaded = 200
        <-> Replies.dataField "status" reported = Some (Some (JStr "generated"))
            /\ Server.validHeaderValue
                 (Server.contentDisposition (Cases.twoLineName !! "preferred_name")
                                            (Cases.twoLineName !! "certificate_id")) = true)
    /\ (Server.status downloaded = 500
        <-> Replies.dataField "status" reported = Some (Some (JStr "not_generated"))
            \/ Server.validHeaderValue
                 (Server.contentDisposition (Cases.twoLineName !! "preferred_name")
                                            (Cases.twoLineName !! "certificate_id")) = false).
Proof.
  apply (status_agrees_with_download
           (Cases.worldOf Cases.a4 (Cases.always Cases.twoLineName))
           JSNumber.parseInt Cases.seven Cases.twoLineName).
  - reflexivity.
  - reflexivity.
  - reflexivity.
  - right. right. exists Cases.hexBytes. reflexivity.
Defined.

Lemma eligibility_writes_a_boolean_or_nothing_witness :
  outcome (Server.put_eligibility (Cases.worldOf Cases.a4 (Cases.always Demo.asha))
                                  JSNumber.parseInt Cases.seven Cases.eligibleAsText)
  = Ok {| Server.status := 400;
          Server.headers := [];
          Server.body :=
            Server.JsonBody
              [("success", Some (JBool false));
               ("error", Some (JStr "Eligible status must be a boolean value"))]
              None |}.
Proof.
  apply (proj2 (eligibility_writes_a_boolean_or_nothing
                  (Cases.worldOf Cases.a4 (Cases.always Demo.asha))
                  JSNumber.parseInt Cases.seven Cases.eligibleAsText)).
  - reflexivity.
  - intros b. discriminate.
Defined.

Section StudentIdInTheUrl.
Import CertificateGenerator JSNumber Digits Observe.
Variable env : Env.
Variable path : string.

(** X14. The generate endpoint reads the student id with parseInt, so only
    the leading decimal digits of the URL segment count: when the segment
    is the decimal form of z followed by anything that does not start with
    a digit (nor, after a lone 0, with x), the endpoint makes exactly the
    calls of generateAndSaveCertificate for student z, answers 200 when
    that call returns and 500 when it throws.  The id is one that a number
    of JavaScript holds exactly, up to 2^53 in magnitude. *)
Theorem generate_reads_leading_digits (params : object) (z : Z) (rest : string) :
  Z.abs z <= 2 ^ 53 ->
  params !! "studentId" = Some (JStr (Z_to_string z ++ rest)) ->
  notDigit rest = true ->
  (z = 0 -> notHex rest = true) ->
  log (Server.post_generate env path parseInt params)
  = log (generateAndSaveCertificate env path (Int z))
  /\ exists reply,
       outcome (Server.post_generate env path parseInt params) = Ok reply
       /\ Server.status reply
          = match outcome (generateAndSaveCertificate env path (Int z)) with
            | Ok _ => 200
            | Throw _ => 500
            end.
Proof.
  intros _ Hid Hrest Hhex.
  unfold Server.post_generate. rewrite Hid.
  assert (Hparse : parseInt (Some (JStr (Z_to_string z ++ rest))) = Int z).
  { unfold parseInt. simpl. now apply parseIntString_decimal. }
  rewrite Hparse.
  assert (Htruthy : truthy (Some (JStr (Z_to_string z ++ rest))) = true).
  { simpl. now rewrite Z_to_string_not_empty. }
  rewrite Htruthy. simpl.
  destruct (generateAndSaveCertificate env path (Int z)) as [l [r | e]]; simpl.
  - rewrite List.app_nil_r. split; [reflexivity | ]. eexists. split; reflexivity.
  - rewrite List.app_nil_r. split; [reflexivity | ]. eexists. split; reflexivity.
Qed.

End StudentIdInTheUrl.

Lemma generate_reads_leading_digits_witness :
  log (Server.post_generate (Cases.worldOf Cases.a4 (Cases.always Demo.asha))
                            Demo.templatePath JSNumber.parseInt Cases.sevenAndMore)
  = log (CertificateGenerator.generateAndSaveCertificate (Cases.worldOf Cases.a4 (Cases.always Demo.asha))
                                    Demo.templatePath (Int 7))
  /\ exists reply,
       outcome (Server.post_generate (Cases.worldOf Cases.a4 (Cases.always Demo.asha))
                                     Demo.templatePath JSNumber.parseInt
                                     Cases.sevenAndMore) = Ok reply
       /\ Server.status reply
          = match outcome (CertificateGenerator.generateAndSaveCertificate
                             (Cases.worldOf Cases.a4 (Cases.always Demo.asha))
                             Demo.templatePath (Int 7)) with
            | Ok _ => 200
            | Throw _ => 500
            end.
Proof.
  apply (generate_reads_leading_digits (Cases.worldOf Cases.a4 (Cases.always Demo.asha))
                                       Demo.templatePath Cases.sevenAndMore 7 "abc").
  - vm_compute. discriminate.
  - reflexivity.
  - reflexivity.
  - intros H. discriminate H.
Defined.

(* ===================================================================== *)
(** ** The certificates router, further *)
(* ===================================================================== *)

Section RequestMore.
Import CertificatesRoute Observe Replies.
Variable env : Env.
Variable parseInt : option jsval -> jsnum.
Variable endDateISO : option jsval -> jsnum -> result string.
Variable nowISO : string.

(** X15. The request handler always answers, with 200, 400, 404 or 500;
    it sends at most one update, and an answer of 200 is given only after
    an update was sent. *)
Theorem request_always_answers (req_body : object) :
  exists answer,
    outcome (post_request env parseInt endDateISO nowISO req_body) = Ok answer
    /\ (status answer = 200 \/ status answer = 400
        \/ status answer = 404 \/ status answer = 500)
    /\ (status answer = 200 ->
        length (updatesOf (log (post_request env parseInt endDateISO nowISO req_body)))
        = 1%nat)
    /\ (length (updatesOf (log (post_request env parseInt endDateISO nowISO req_body)))
        <= 1)%nat.
Proof.
  unfold post_request, await_query, call_trim.
  unfold try_catch, bind, throw, ret, emit, lift, outcome, log.
  repeat step;
    (eexists; split; [reflexivity | ]; simpl; repeat split; auto; try lia;
     intros H; discriminate H).
Qed.

(** X16. The request handler leaves the database alone exactly when one of
    the six fields of the body is absent or falsy: then, and only then, it
    answers 400, Missing required fields, without any query. *)
Theorem request_needs_all_fields (req_body : object) :
  post_request env parseInt endDateISO nowISO req_body
  = ([], Ok (failure 400 "Missing required fields" "message"
                     "All fields are required for certificate request"))
  <-> Exists (fun field => truthy (req_body !! field) = false) requestFields.
Proof.
  split.
  - intros Hrun.
    destruct (Exists_dec (fun field => truthy (req_body !! field) = false) requestFields)
      as [Hex | Hno]; [ | assumption | exfalso].
    + intros field. destruct (truthy (req_body !! field)); [right | left]; congruence.
    + assert (Hall : Forall (fun field => truthy (req_body !! field) = true) requestFields).
      { apply Forall_forall. intros field Hin.
        destruct (truthy (req_body !! field)) eqn:E; [reflexivity | exfalso].
        apply Hno. apply Exists_exists. now exists field. }
      apply truthy_all_fields in Hall.
      unfold post_request, await_query in Hrun.
      unfold try_catch, bind, throw, ret, emit, lift in Hrun.
      rewrite Hall in Hrun.
      repeat match type of Hrun with
             | context [match ?x with _ => _ end] =>
                 lazymatch x with
                 | context [match _ with _ => _ end] => fail
                 | _ => destruct x; simpl in Hrun
                 end
             end; discriminate Hrun.
  - intros Hex. unfold requestFields in Hex.
    unfold post_request.
    repeat match goal with
           | H : Exists _ (_ :: _) |- _ => inversion_clear H
           | H : Exists _ [] |- _ => inversion H
           end;
      match goal with
      | H : truthy _ = false |- _ => rewrite H
      end;
      rewrite ?orb_true_r; reflexivity.
Qed.

(** X17. A course or a company that the lookup does not find ends the
    request with 400 and without any update; the course is looked up
    first, and when it is not found the company is not looked up at all.
    In neither case is the student looked up. *)
Theorem unknown_selection_ends_the_request (req_body : object) :
  Forall (fun field => truthy (req_body !! field) = true) requestFields ->
  found (supabase env (courseQuery (req_body !! "course_name")))
  && found (supabase env (companyQuery (req_body !! "company_name"))) = false ->
  post_request env parseInt endDateISO nowISO req_body
  = if found (supabase env (courseQuery (req_body !! "course_name")))
    then ([Query (courseQuery (req_body !! "course_name"));
           Query (companyQuery (req_body !! "company_name"))],
          Ok (failure 400 "Invalid company selection" "message"
                      "Selected company not found"))
    else ([Query (courseQuery (req_body !! "course_name"))],
          Ok (failure 400 "Invalid course selection" "message"
                      "Selected course not found")).
Proof.
  intros Hall Hfound. apply truthy_all_fields in Hall.
  unfold post_request, await_query.
  unfold try_catch, bind, throw, ret, emit, lift.
  rewrite Hall.
  unfold found, courseQuery, companyQuery in *.
  destruct (supabase env (lookup_query "courses" _ _ _)) as [[c | ] [ec | ]];
    simpl in *; try reflexivity.
  destruct (supabase env (lookup_query "companies" _ _ _)) as [[k | ] [ek | ]];
    simpl in *; try reflexivity.
  discriminate Hfound.
Qed.

(** X18. The status endpoint and the request handler judge differently
    whether a request was made.  The status reads pending only when the row
    has both a start date and a preferred name; the handler refuses a new
    request as already submitted as soon as the row has either.  So a
    status of pending means that a request will be refused without an
    update, while a row with only one of the two reads not_requested and
    is refused all the same.  The status never reports a certificate. *)
Theorem status_and_request_judge_differently (params req_body seen existing : object) :
  Forall (fun field => truthy (req_body !! field) = true) requestFields ->
  found (supabase env (courseQuery (req_body !! "course_name"))) = true ->
  found (supabase env (companyQuery (req_body !! "company_name"))) = true ->
  params !! "phoneNumber" = req_body !! "phone_number" ->
  supabase env (RequestStatus.requestStatusQuery (params !! "phoneNumber"))
  = {| data := Some seen; error := None |} ->
  data (supabase env (existingStudentQuery (req_body !! "phone_number"))) = Some existing ->
  existing !! "internship_start_date" = seen !! "internship_start_date" ->
  existing !! "preferred_name" = seen !! "preferred_name" ->
  exists reported answered,
    outcome (RequestStatus.get_request_status env params) = Ok reported
    /\ outcome (post_request env parseInt endDateISO nowISO req_body) = Ok answered
    /\ (dataField "status" reported = Some (Some (JStr "pending"))
        <-> truthy (seen !! "internship_start_date")
            && truthy (seen !! "preferred_name") = true)
    /\ (dataField "status" reported = Some (Some (JStr "not_requested"))
        <-> truthy (seen !! "internship_start_date")
            && truthy (seen !! "preferred_name") = false)
    /\ dataField "hasCertificate" reported = Some (Some (JBool false))
    /\ (answered = failure 400 "Certificate request already submitted" "message"
                           "You have already submitted a certificate request. Each student can only request a certificate once."
        <-> truthy (seen !! "internship_start_date")
            || truthy (seen !! "preferred_name") = true)
    /\ (truthy (seen !! "internship_start_date")
        || truthy (seen !! "preferred_name") = true ->
        updatesOf (log (post_request env parseInt endDateISO nowISO req_body)) = []).
Proof.
  intros Hall Hcourse Hcompany Hphone Hseen Hexisting Hstart Hname.
  assert (Htruthy : truthy (params !! "phoneNumber") = true).
  { rewrite Hphone. unfold requestFields in Hall. now inversion_clear Hall. }
  apply truthy_all_fields in Hall.
  unfold RequestStatus.get_request_status, post_request, await_query, call_trim.
  unfold try_catch, bind, throw, ret, emit, lift, outcome, log.
  rewrite Htruthy, Hseen, Hall. simpl.
  unfold found, courseQuery, companyQuery in Hcourse, Hcompany.
  destruct (supabase env (lookup_query "courses" _ _ _)) as [[c | ] [ec | ]];
    simpl in Hcourse; try discriminate Hcourse.
  destruct (supabase env (lookup_query "companies" _ _ _)) as [[k | ] [ek | ]];
    simpl in Hcompany; try discriminate Hcompany.
  simpl.
  destruct (supabase env (existingStudentQuery _)) as [d e].
  simpl in Hexisting. subst d. simpl.
  unfold or_else. rewrite Hstart, Hname.
  destruct (truthy (seen !! "internship_start_date")) eqn:Es;
    [ | destruct (truthy (seen !! "preferred_name")) eqn:En ]; simpl.
  - rewrite ?Es. simpl.
    destruct (truthy (seen !! "preferred_name")); simpl;
      (eexists _, _; repeat split; try reflexivity; intros H; discriminate H).
  - rewrite ?En, ?Es. simpl.
    eexists _, _; repeat split; try reflexivity; intros H; discriminate H.
  - rewrite ?En, ?Es. simpl.
    repeat step;
      (eexists _, _; repeat split; try reflexivity; intros H; discriminate H).
Qed.


End RequestMore.

Section RequestCases.
Import CertificatesRoute.

Lemma unknown_selection_ends_the_request_witness :
  post_request (Cases.worldOf Cases.a4 Cases.nobody) JSNumber.parseInt Demo.endDateISO
               Demo.nowISO Demo.testCertificateRequest
  = if Replies.found
         (supabase (Cases.worldOf Cases.a4 Cases.nobody)
                   (Replies.courseQuery (Demo.testCertificateRequest !! "course_name")))
    then ([Query (Replies.courseQuery (Demo.testCertificateRequest !! "course_name"));
           Query (Replies.companyQuery (Demo.testCertificateRequest !! "company_name"))],
          Ok (failure 400 "Invalid company selection" "message"
                      "Selected company not found"))
    else ([Query (Replies.courseQuery (Demo.testCertificateRequest !! "course_name"))],
          Ok (failure 400 "Invalid course selection" "message"
                      "Selected course not found")).
Proof.
  apply (unknown_selection_ends_the_request
           (Cases.worldOf Cases.a4 Cases.nobody) JSNumber.parseInt Demo.endDateISO
           Demo.nowISO Demo.testCertificateRequest).
  - repeat (constructor; [reflexivity | ]). constructor.
  - reflexivity.
Defined.

Lemma status_and_request_judge_differently_witness :
  exists reported answered,
    outcome (RequestStatus.get_request_status
               (Cases.worldOf Cases.a4 (Cases.always Cases.halfFilled))
               Cases.phoneOfAsha) = Ok reported
    /\ outcome (post_request (Cases.worldOf Cases.a4 (Cases.always Cases.halfFilled))
                             JSNumber.parseInt Demo.endDateISO Demo.nowISO
                             Demo.testCertificateRequest) = Ok answered
    /\ (Replies.dataField "status" reported = Some (Some (JStr "pending"))
        <-> truthy (Cases.halfFilled !! "internship_start_date")
            && truthy (Cases.halfFilled !! "preferred_name") = true)
    /\ (Replies.dataField "status" reported = Some (Some (JStr "not_requested"))
        <-> truthy (Cases.halfFilled !! "internship_start_date")
            && truthy (Cases.halfFilled !! "preferred_name") = false)
    /\ Replies.dataField "hasCertificate" reported = Some (Some (JBool false))
    /\ (answered = failure 400 "Certificate request already submitted" "message"
                           "You have already submitted a certificate request. Each student can only request a certificate once."
        <-> truthy (Cases.halfFilled !! "internship_start_date")
            || truthy (Cases.halfFilled !! "preferred_name") = true)
    /\ (truthy (Cases.halfFilled !! "internship_start_date")
        || truthy (Cases.halfFilled !! "preferred_name") = true ->
        Replies.updatesOf
          (log (post_request (Cases.worldOf Cases.a4 (Cases.always Cases.halfFilled))
                             JSNumber.parseInt Demo.endDateISO Demo.nowISO
                             Demo.testCertificateRequest)) = []).
Proof.
  apply (status_and_request_judge_differently
           (Cases.worldOf Cases.a4 (Cases.always Cases.halfFilled))
           JSNumber.parseInt Demo.endDateISO Demo.nowISO
           Cases.phoneOfAsha Demo.testCertificateRequest
           Cases.halfFilled Cases.halfFilled).
  - repeat (constructor; [reflexivity | ]). constructor.
  - reflexivity.
  - reflexivity.
  - reflexivity.
  - reflexivity.
  - reflexivity.
  - reflexivity.
  - reflexivity.
Defined.


End RequestCases.

Section Identifier.
Import CertificatesRoute.
Variable env : Env.

Lemma charAt_chars (i : Z) :
  0 <= i < 36 ->
  exists c, charAt chars i = String c EmptyString /\ In c (list_ascii_of_string chars).
Proof.
  intros Hi. unfold charAt.
  destruct (i <? 0) eqn:E; [lia | ].
  assert (Hn : (Z.to_nat i < 36)%nat) by lia.
  generalize dependent (Z.to_nat i). intros n Hn.
  do 36 (destruct n as [ | n];
         [eexists; split; [reflexivity | simpl; tauto] | ]).
  lia.
Qed.
Lemma length_snoc (a : string) (c : ascii) :
  String.length (a ++ String c EmptyString) = S (String.length a).
Proof.
  induction a as [ | x a IH]; [reflexivity | ].
  change (String x a ++ String c EmptyString) with (String x (a ++ String c EmptyString)).
  simpl. now rewrite IH.
Qed.

Lemma list_ascii_snoc (a : string) (c : ascii) :
  list_ascii_of_string (a ++ String c EmptyString)
  = (list_ascii_of_string a ++ [c])%list.
Proof.
  induction a as [ | x a IH]; [reflexivity | ].
  change (String x a ++ String c EmptyString) with (String x (a ++ String c EmptyString)).
  simpl. now rewrite IH.
Qed.

Lemma generateCertificateId_loop_shape (n i : nat) (acc : string) :
  (forall j, (i <= j < i + n)%nat ->
             JSDouble.isDouble (random env j)
             /\ (0 <= random env j)%Q /\ (random env j < 1)%Q) ->
  String.length (generateCertificateId_loop env n i acc) = (String.length acc + n)%nat
  /\ (Forall (fun c => In c (list_ascii_of_string chars)) (list_ascii_of_string acc) ->
      Forall (fun c => In c (list_ascii_of_string chars))
             (list_ascii_of_string (generateCertificateId_loop env n i acc))).
Proof.
  revert i acc. induction n as [ | n IH]; intros i acc Hdraw.
  - simpl. split; [lia | auto].
  - cbn [generateCertificateId_loop].
    change (inject_Z (Z.of_nat (String.length chars))) with (inject_Z 36).
    destruct (Hdraw i ltac:(lia)) as (Hd & H0 & H1).
    destruct (charAt_chars _ (floor_of_draw _ Hd H0 H1)) as (c & -> & Hin).
    destruct (IH (S i) (acc ++ String c EmptyString)) as [Hlen Hall].
    { intros j Hj. apply Hdraw. lia. }
    rewrite Hlen, length_snoc. split; [lia | ].
    intros Hacc. apply Hall. rewrite list_ascii_snoc.
    apply Forall_app. split; [assumption | ]. now constructor.
Qed.

(** X20. As long as the eight draws of Math.random are what it promises,
    doubles that are at least 0 and below 1, the identifier that the
    handler generates has eight characters, each a capital letter or a
    digit: the product of a draw and 36, rounded to a double, stays below
    36. *)
Theorem certificate_id_is_eight_characters :
  (forall i, (i < 8)%nat ->
             JSDouble.isDouble (random env i)
             /\ (0 <= random env i)%Q /\ (random env i < 1)%Q) ->
  String.length (generateCertificateId env) = 8%nat
  /\ Forall (fun c => In c (list_ascii_of_string chars))
            (list_ascii_of_string (generateCertificateId env)).
Proof.
  intros Hdraw. unfold generateCertificateId.
  destruct (generateCertificateId_loop_shape 8 0 "") as [Hlen Hall].
  { intros j Hj. apply Hdraw. lia. }
  split; [exact Hlen | ]. apply Hall. constructor.
Qed.

End Identifier.

Section IdentifierCases.
Import CertificatesRoute.

Lemma certificate_id_is_eight_characters_witness :
  String.length (generateCertificateId Demo.office) = 8%nat
  /\ Forall (fun c => In c (list_ascii_of_string chars))
            (list_ascii_of_string (generateCertificateId Demo.office)).
Proof.
  apply (certificate_id_is_eight_characters Demo.office).
  intros i Hi.
  do 8 (destruct i as [ | i];
        [split; [vm_compute; reflexivity | split; [discriminate | reflexivity]] | ]).
  lia.
Defined.

End IdentifierCases.

(* ===================================================================== *)
(** ** formatDate on every date of the calendar *)
(* ===================================================================== *)

Section Cal.
Import JSDate Calendar CertificateGenerator.
Lemma yoe_of_doe (yoe doy : Z) :
  0 <= yoe <= 399 -> 0 <= doy <= 365 ->
  (doy = 365 -> (yoe + 1) mod 4 = 0 /\ ((yoe + 1) mod 100 <> 0 \/ yoe = 399)) ->
  (yoe * 365 + yoe / 4 - yoe / 100 + doy
   - (yoe * 365 + yoe / 4 - yoe / 100 + doy) / 1460
   + (yoe * 365 + yoe / 4 - yoe / 100 + doy) / 36524
   - (yoe * 365 + yoe / 4 - yoe / 100 + doy) / 146096) / 365 = yoe
  /\ 0 <= yoe * 365 + yoe / 4 - yoe / 100 + doy <= 146096.
Proof.
  intros Hy Hd Hleap. Z.div_mod_to_equations; lia.
Qed.

Lemma isLeapYear_true (y : Z) :
  isLeapYear y = true -> y mod 4 = 0 /\ (y mod 100 <> 0 \/ y mod 400 = 0).
Proof.
  unfold isLeapYear. rewrite orb_true_iff, andb_true_iff, negb_true_iff, !Z.eqb_eq, Z.eqb_neq.
  intros [[H4 H100] | H400]; [tauto | ].
  split; [ | tauto]. Z.div_mod_to_equations; lia.
Qed.

(** The day of the year counted from March 1st, for a date of the calendar *)
Lemma day_of_shifted_year (y m d : Z) :
  1 <= m <= 12 -> 1 <= d <= daysInMonth y m ->
  let mp := if m >? 2 then m - 3 else m + 9 in
  let doy := (153 * mp + 2) / 5 + d - 1 in
  0 <= doy <= 365
  /\ (doy = 365 -> m = 2 /\ isLeapYear y = true)
  /\ (5 * doy + 2) / 153 = mp
  /\ doy - (153 * mp + 2) / 5 + 1 = d
  /\ (if mp <? 10 then mp + 3 else mp - 9) = m.
Proof.
  intros Hm Hd.
  assert (m = 1 \/ m = 2 \/ m = 3 \/ m = 4 \/ m = 5 \/ m = 6 \/ m = 7 \/ m = 8
          \/ m = 9 \/ m = 10 \/ m = 11 \/ m = 12) as Hcase by lia.
  unfold daysInMonth in Hd.
  destruct Hcase as [-> | [-> | [-> | [-> | [-> | [-> | [-> | [-> | [-> | [-> | [-> | ->]]]]]]]]]]];
    cbn in Hd |- *; try (destruct (isLeapYear y)); 
    repeat split; try (Z.div_mod_to_equations; lia); try reflexivity.
Qed.

Lemma civil_roundtrip (y m d : Z) :
  1 <= m <= 12 -> 1 <= d <= daysInMonth y m ->
  civil_from_days (days_from_civil y m d) = (y, m, d).
Proof.
  intros Hm Hd.
  destruct (day_of_shifted_year y m d Hm Hd) as (Hdoy & H365 & Hmp & Hday & Hmonth).
  unfold days_from_civil.
  set (y' := if m <=? 2 then y - 1 else y).
  set (mp := if m >? 2 then m - 3 else m + 9) in *.
  set (doy := (153 * mp + 2) / 5 + d - 1) in *.
  set (era := y' / 400).
  set (yoe := y' - era * 400).
  assert (Hyoe : 0 <= yoe <= 399) by (unfold yoe, era; Z.div_mod_to_equations; lia).
  assert (Hleap : doy = 365 -> (yoe + 1) mod 4 = 0 /\ ((yoe + 1) mod 100 <> 0 \/ yoe = 399)).
  { intros E. destruct (H365 E) as [-> Hl]. apply isLeapYear_true in Hl.
    unfold yoe, era, y'. cbn. Z.div_mod_to_equations; lia. }
  destruct (yoe_of_doe yoe doy Hyoe Hdoy Hleap) as [Hy Hdoe].
  set (doe := yoe * 365 + yoe / 4 - yoe / 100 + doy) in *.
  unfold civil_from_days.
  replace (era * 146097 + doe - 719468 + 719468) with (era * 146097 + doe) by ring.
  assert (Hera : (era * 146097 + doe) / 146097 = era) by (Z.div_mod_to_equations; lia).
  rewrite Hera.
  replace (era * 146097 + doe - era * 146097) with doe by ring.
  rewrite Hy.
  replace (doe - (365 * yoe + yoe / 4 - yoe / 100)) with doy by (unfold doe; ring).
  rewrite Hmp, Hday, Hmonth.
  f_equal. f_equal.
  unfold yoe, y'. destruct (m <=? 2); ring.
Qed.

Lemma digit_digitChar (k : Z) : 0 <= k <= 9 -> digit (digitChar k) = Some k.
Proof.
  intros Hk.
  assert (k = 0 \/ k = 1 \/ k = 2 \/ k = 3 \/ k = 4 \/ k = 5 \/ k = 6 \/ k = 7
          \/ k = 8 \/ k = 9) as Hcase by lia.
  repeat (destruct Hcase as [-> | Hcase]; [reflexivity | ]). now subst.
Qed.

Lemma daysInMonth_le (y m : Z) : 28 <= daysInMonth y m <= 31.
Proof.
  unfold daysInMonth.
  destruct (m =? 2); [destruct (isLeapYear y); lia | ].
  destruct ((m =? 4) || (m =? 6) || (m =? 9) || (m =? 11)); lia.
Qed.

Lemma parseISODate_isoDate (y m d : Z) :
  0 <= y <= 9999 -> 1 <= m <= 12 -> 1 <= d <= daysInMonth y m ->
  parseISODate (isoDate y m d) = Some (days_from_civil y m d * msPerDay).
Proof.
  intros Hy Hm Hd. pose proof (daysInMonth_le y m) as Hdm.
  unfold parseISODate, isoDate.
  rewrite !digit_digitChar by (Z.div_mod_to_equations; lia).
  replace (y / 1000 * 1000 + y / 100 mod 10 * 100 + y / 10 mod 10 * 10 + y mod 10)
    with y by (Z.div_mod_to_equations; lia).
  replace (m / 10 * 10 + m mod 10) with m by (Z.div_mod_to_equations; lia).
  replace (d / 10 * 10 + d mod 10) with d by (Z.div_mod_to_equations; lia).
  change (is_dash "-"%char) with true. cbn [andb].
  destruct Hm as [Hm1 Hm2]. destruct Hd as [Hd1 Hd2].
  apply Z.leb_le in Hm1, Hm2, Hd1, Hd2.
  now rewrite Hm1, Hm2, Hd1, Hd2.
Qed.

Lemma Day_behind (d off : Z) :
  - msPerDay <= off < 0 -> Day (d * msPerDay + off) = d - 1.
Proof.
  intros Hoff. unfold Day, msPerDay in *. Z.div_mod_to_equations; lia.
Qed.

Lemma month_of_months (m : Z) :
  1 <= m <= 12 -> ToString (array_get months (Int (m - 1))) = monthName m.
Proof.
  intros Hm. unfold array_get, monthName.
  destruct (m - 1 <? 0) eqn:E; [lia | ].
  assert (Hn : (Z.to_nat (m - 1) < 12)%nat) by lia.
  generalize dependent (Z.to_nat (m - 1)). intros n Hn.
  do 12 (destruct n as [ | n]; [reflexivity | ]). lia.
Qed.

Variable env : Env.

(** X21. On a host whose local time is at or ahead of UTC by less than a
    day, formatDate turns every calendar date of the years 0 to 9999,
    written in the date-only form YYYY-MM-DD, into that day, the English
    name of that month and that year: day and year without leading
    zeros. *)
Theorem formatDate_names_the_date (y m d : Z) :
  0 <= y <= 9999 -> 1 <= m <= 12 -> 1 <= d <= daysInMonth y m ->
  (forall t, 0 <= LocalTZA (host env) t < msPerDay) ->
  formatDate env (Some (JStr (isoDate y m d)))
  = Z_to_string d ++ " " ++ monthName m ++ " " ++ Z_to_string y.
Proof.
  intros Hy Hm Hd Htz.
  rewrite (formatDate_of_day env _ (days_from_civil y m d))
    by (auto using parseISODate_isoDate).
  rewrite civil_roundtrip by assumption. cbn [fst snd].
  now rewrite month_of_months.
Qed.

(** X22. On a host whose local time is behind UTC, by a day at most,
    formatDate names the day before the one written: for every calendar
    date YYYY-MM-DD of the years 0 to 9999 that is not the first of its
    month, the text carries the previous day of the same month. *)
Theorem formatDate_names_the_day_before (y m d : Z) :
  0 <= y <= 9999 -> 1 <= m <= 12 -> 2 <= d <= daysInMonth y m ->
  (forall t, - msPerDay <= LocalTZA (host env) t < 0) ->
  formatDate env (Some (JStr (isoDate y m d)))
  = Z_to_string (d - 1) ++ " " ++ monthName m ++ " " ++ Z_to_string y.
Proof.
  intros Hy Hm Hd Htz.
  unfold formatDate, Date_new, Date_parse.
  rewrite parseISODate_isoDate by (auto; lia).
  unfold getDate, getMonth, getFullYear, DateFromTime, MonthFromTime, YearFromTime,
    LocalTime.
  rewrite Day_behind by apply Htz.
  replace (days_from_civil y m d - 1) with (days_from_civil y m (d - 1))
    by (unfold days_from_civil; lia).
  rewrite civil_roundtrip by lia. cbn [fst snd].
  now rewrite month_of_months.
Qed.

End Cal.

Section CalCases.
Import JSDate Calendar CertificateGenerator.

Example isoDate_leap_day : isoDate 2024 2 29 = "2024-02-29".
Proof. reflexivity. Qed.

Lemma formatDate_names_the_date_witness :
  formatDate (Demo.world 330 0 Demo.asha) (Some (JStr (isoDate 2024 2 29)))
  = Z_to_string 29 ++ " " ++ monthName 2 ++ " " ++ Z_to_string 2024.
Proof.
  apply (formatDate_names_the_date (Demo.world 330 0 Demo.asha) 2024 2 29).
  - lia.
  - lia.
  - vm_compute. split; discriminate.
  - intros t. vm_compute. split; [discriminate | reflexivity].
Defined.

Lemma formatDate_names_the_day_before_witness :
  formatDate (Demo.world (-300) 0 Demo.asha) (Some (JStr (isoDate 2024 2 29)))
  = Z_to_string (29 - 1) ++ " " ++ monthName 2 ++ " " ++ Z_to_string 2024.
Proof.
  apply (formatDate_names_the_day_before (Demo.world (-300) 0 Demo.asha) 2024 2 29).
  - lia.
  - lia.
  - vm_compute. split; discriminate.
  - intros t. vm_compute. split; [discriminate | reflexivity].
Defined.

End CalCases.

(* ===================================================================== *)
(** ** One-time passwords and phone numbers *)
(* ===================================================================== *)

Section OtpShape.
Import Otp Digits.

Lemma string_of_uint_digits (d : Decimal.uint) :
  Forall (fun c => is_digit c = true)
         (list_ascii_of_string (NilEmpty.string_of_uint d)).
Proof. induction d; simpl; constructor; auto. Qed.

Lemma length_string_of_uint (d : Decimal.uint) :
  String.length (NilEmpty.string_of_uint d) = Decimal.nb_digits d.
Proof. induction d; simpl; congruence. Qed.

Lemma horner_bounds (d : Decimal.uint) (a : Z) :
  0 <= a ->
  a * 10 ^ Z.of_nat (Decimal.nb_digits d) <= horner a d
  < (a + 1) * 10 ^ Z.of_nat (Decimal.nb_digits d).
Proof.
  revert a. induction d; intros a Ha; cbn [horner Decimal.nb_digits];
    [rewrite Z.pow_0_r; lia | ..];
    rewrite Nat2Z.inj_succ, Z.pow_succ_r by lia;
    match goal with
    | |- _ <= horner ?b _ < _ =>
        specialize (IHd b ltac:(lia));
        assert (0 < 10 ^ Z.of_nat (Decimal.nb_digits d)) by (apply Z.pow_pos_nonneg; lia);
        nia
    end.
Qed.

Lemma to_uint_leading (p : positive) :
  exists k d', 1 <= k <= 9 /\ horner 0 (Pos.to_uint p) = horner k d'
               /\ Decimal.nb_digits (Pos.to_uint p) = S (Decimal.nb_digits d').
Proof.
  pose proof (Unsigned.to_of (Pos.to_uint p)) as Hnorm.
  rewrite Unsigned.of_to in Hnorm. cbn [N.to_uint] in Hnorm.
  pose proof (Unsigned.to_uint_nonzero p) as Hnz.
  pose proof (Unsigned.to_uint_nonnil p) as Hnn.
  destruct (Pos.to_uint p) as [ | d' | d' | d' | d' | d' | d' | d' | d' | d' | d' ] eqn:E;
    [congruence | .. ];
    try (eexists _, d'; cbn [horner Decimal.nb_digits];
         split; [ | split; reflexivity]; lia).
  exfalso. rewrite unorm_D0 in Hnorm.
  destruct d' as [ | d'' | d'' | d'' | d'' | d'' | d'' | d'' | d'' | d'' | d'' ] eqn:E';
    [now apply Hnz | ..];
    match type of Hnorm with
    | _ = Decimal.unorm ?u =>
        assert (Hle : (Decimal.nb_digits (Decimal.unorm u) <= Decimal.nb_digits u)%nat)
          by (apply nb_digits_unorm; discriminate);
        rewrite <- Hnorm in Hle; cbn [Decimal.nb_digits] in Hle; lia
    end.
Qed.

Lemma six_digits (n : Z) :
  100000 <= n <= 999999 -> otpFormat (Z_to_string n) = true.
Proof.
  intros Hn. destruct n as [ | p | p]; try lia.
  unfold Z_to_string.
  change (NilEmpty.string_of_int (Z.to_int (Z.pos p)))
    with (NilEmpty.string_of_uint (Pos.to_uint p)).
  unfold otpFormat. rewrite length_string_of_uint.
  apply andb_true_iff. split.
  - apply Nat.eqb_eq.
    destruct (to_uint_leading p) as (k & d' & Hk & Hh & Hnb).
    rewrite horner_to_uint in Hh.
    pose proof (horner_bounds d' k ltac:(lia)) as Hb. rewrite <- Hh in Hb.
    rewrite Hnb. f_equal.
    set (m := Decimal.nb_digits d') in *.
    assert (Hpos : 0 < 10 ^ Z.of_nat m) by (apply Z.pow_pos_nonneg; lia).
    destruct (Nat.lt_trichotomy m 5) as [Hlt | [Heq | Hgt]]; [exfalso | assumption | exfalso].
    + assert (10 ^ Z.of_nat m <= 10 ^ 4) by (apply Z.pow_le_mono_r; lia).
      change (10 ^ 4) with 10000 in *. nia.
    + assert (10 ^ 6 <= 10 ^ Z.of_nat m) by (apply Z.pow_le_mono_r; lia).
      change (10 ^ 6) with 1000000 in *. nia.
  - apply forallb_forall. apply Forall_forall. apply string_of_uint_digits.
Qed.

(** X23. Every one-time password that generateOTP makes from a draw of
    Math.random that is what it promises, a double at least 0 and below 1,
    is a string of exactly six decimal digits: it passes the format check
    that POST /verify-otp applies before it looks the password up.  The
    product and the sum are rounded to doubles as the code computes
    them. *)
Theorem generated_otp_passes_the_format_check (r : Q) :
  JSDouble.isDouble r -> (0 <= r)%Q -> (r < 1)%Q -> otpFormat (generateOTP r) = true.
Proof.
  intros Hd H0 H1. unfold generateOTP. apply six_digits. now apply floor_of_otp_draw.
Qed.

End OtpShape.

Lemma generated_otp_passes_the_format_check_witness :
  Otp.otpFormat (Otp.generateOTP (1 # 2)) = true.
Proof.
  apply (generated_otp_passes_the_format_check (1 # 2)).
  - vm_compute. reflexivity.
  - unfold Qle. simpl. lia.
  - unfold Qlt. simpl. lia.
Defined.

Section Phone.
Import Otp.

Lemma clean_unchanged (s : string) :
  forallb (fun c => negb (is_separator c)) (list_ascii_of_string s) = true ->
  clean s = s.
Proof.
  induction s as [ | c s IH]; simpl; [reflexivity | ].
  intros H. apply andb_true_iff in H. destruct H as [Hc Hs].
  apply negb_true_iff in Hc. rewrite Hc. now rewrite IH.
Qed.

Lemma clean_has_no_separator (s : string) :
  forallb (fun c => negb (is_separator c)) (list_ascii_of_string (clean s)) = true.
Proof.
  induction s as [ | c s IH]; simpl; [reflexivity | ].
  destruct (is_separator c) eqn:E; [assumption | ].
  simpl. now rewrite E, IH.
Qed.

Lemma prefix_91 (s : string) :
  String.prefix "91" s = true -> exists t, s = String "9" (String "1" t).
Proof.
  intros H. apply String.prefix_correct in H.
  destruct s as [ | a [ | b t]]; try discriminate H.
  change (String a (String b (substring 0 0 t)) = "91") in H.
  injection H as -> -> _. now exists t.
Qed.

Lemma indianMobileRegex_length (s : string) :
  indianMobileRegex s = true -> String.length s = 10%nat.
Proof.
  destruct s as [ | c rest]; simpl; [discriminate | ].
  rewrite !andb_true_iff, Nat.eqb_eq. intros [[_ ->] _]. reflexivity.
Qed.

(** X24. Which phone numbers the auth endpoints accept.  After
    formatPhoneNumber, validatePhoneNumber holds exactly when the number as
    typed, without its spaces, dashes and plus signs, is ten digits that
    start with 6 to 9, or is 91 followed by ten such digits; and the
    formatted number, which is what the handlers pass on, is then itself
    ten digits that start with 6 to 9. *)
Theorem accepted_phone_numbers (phoneNumber : string) :
  (validatePhoneNumber (formatPhoneNumber phoneNumber) = true
   <-> validatePhoneNumber phoneNumber = true
       \/ exists t, clean phoneNumber = "91" ++ t /\ indianMobileRegex t = true)
  /\ (validatePhoneNumber (formatPhoneNumber phoneNumber) = true ->
      indianMobileRegex (formatPhoneNumber phoneNumber) = true).
Proof.
  unfold validatePhoneNumber, formatPhoneNumber.
  pose proof (clean_has_no_separator phoneNumber) as Hclean.
  set (c := clean phoneNumber) in *.
  destruct (String.prefix "91" c && (String.length c =? 12)%nat) eqn:E.
  - apply andb_true_iff in E. destruct E as [Hp Hl].
    destruct (prefix_91 c Hp) as [t Ht]. rewrite Ht in *.
    cbn [substringFrom].
    simpl in Hclean.
    rewrite (clean_unchanged t Hclean).
    split; [split | auto].
    + intros H. right. exists t. split; [reflexivity | assumption].
    + intros [H | (t' & Heq & H)].
      * apply indianMobileRegex_length in H. apply Nat.eqb_eq in Hl.
        rewrite H in Hl. discriminate.
      * change ("91" ++ t') with (String "9" (String "1" t')) in Heq.
        now injection Heq as ->.
  - rewrite (clean_unchanged c Hclean).
    split; [split | auto].
    + intros H. now left.
    + intros [H | (t' & Heq & H)]; [assumption | exfalso].
      rewrite Heq in E.
      apply indianMobileRegex_length in H.
      change ("91" ++ t') with (String "9" (String "1" t')) in E.
      cbn [String.length] in E. rewrite H in E.
      destruct t'; discriminate.
Qed.

Example plus_91_is_dropped :
  formatPhoneNumber "+91 98765-43210" = "9876543210"
  /\ validatePhoneNumber "+91 98765-43210" = false
  /\ validatePhoneNumber (formatPhoneNumber "+91 98765-43210") = true.
Proof. repeat split. Qed.

End Phone.

(* ===================================================================== *)
(** ** Session tokens and the profile endpoints *)
(* ===================================================================== *)

Section Tokens.
Import Auth Replies.

(** The characters of the decimal form of an integer are digits and the
    minus sign. *)
Lemma Z_to_string_chars (z : Z) :
  Forall (fun c => Otp.is_digit c = true \/ c = "-"%char)
         (list_ascii_of_string (Z_to_string z)).
Proof.
  unfold Z_to_string.
  destruct (Z.to_int z) as [d | d]; simpl.
  - eapply Forall_impl; [ | apply string_of_uint_digits]. intros c Hc. now left.
  - constructor; [now right | ].
    eapply Forall_impl; [ | apply string_of_uint_digits]. intros c Hc. now left.
Qed.

Lemma Z_to_string_no_underscore (z : Z) :
  Forall (fun c => Ascii.eqb c "_"%char = false) (list_ascii_of_string (Z_to_string z)).
Proof.
  eapply Forall_impl; [ | apply Z_to_string_chars].
  intros c [Hc | ->]; [ | reflexivity].
  destruct (Ascii.eqb_spec c "_"%char) as [-> | ]; [discriminate Hc | reflexivity].
Qed.

Lemma split_nonempty (sep : ascii) (s : string) : split sep s <> [].
Proof.
  induction s as [ | c s IH]; simpl; [discriminate | ].
  destruct (Ascii.eqb c sep); [discriminate | ].
  destruct (split sep s); [contradiction | discriminate].
Qed.

Lemma split_first (sep : ascii) (a b : string) :
  Forall (fun c => Ascii.eqb c sep = false) (list_ascii_of_string a) ->
  split sep (a ++ String sep b) = a :: split sep b.
Proof.
  induction a as [ | c a IH]; intros Ha.
  - change ("" ++ String sep b) with (String sep b). simpl.
    now rewrite Ascii.eqb_refl.
  - change (String c a ++ String sep b) with (String c (a ++ String sep b)).
    simpl in Ha. inversion_clear Ha as [ | ? ? Hc Hrest].
    simpl. rewrite Hc, IH by assumption. reflexivity.
Qed.

Lemma split_whole (sep : ascii) (a : string) :
  Forall (fun c => Ascii.eqb c sep = false) (list_ascii_of_string a) ->
  split sep a = [a].
Proof.
  induction a as [ | c a IH]; intros Ha; [reflexivity | ].
  simpl in Ha. inversion_clear Ha as [ | ? ? Hc Hrest].
  simpl. rewrite Hc, IH by assumption. reflexivity.
Qed.

Lemma split_sessionToken (userId : string) (rest : string) :
  Forall (fun c => Ascii.eqb c "_"%char = false) (list_ascii_of_string userId) ->
  split "_" ("session_" ++ userId ++ "_" ++ rest)
  = "session" :: userId :: split "_" rest.
Proof.
  intros Hid.
  change ("session_" ++ userId ++ "_" ++ rest)
    with ("session" ++ String "_" (userId ++ String "_" rest)).
  rewrite split_first by (repeat constructor).
  now rewrite split_first by assumption.
Qed.

Lemma prefix_session (rest : string) : String.prefix "session_" ("session_" ++ rest) = true.
Proof. destruct rest; reflexivity. Qed.

Variable env : Env.

(** The profile endpoint finds the user of a token built from a numeric
    id and a time: it looks the decimal form of the id up among the
    admins and, only when no admin has it, among the students that are not
    deleted. *)
Lemma get_profile_of_token (params : object) (id now : Z) :
  params !! "sessionToken" = Some (JStr (sessionToken (Some (JNum (Int id))) now)) ->
  get_profile env params
  = match isFound (supabase env (adminQuery (Some (JStr (Z_to_string id))))) with
    | Some adminUser =>
        ([Query (adminQuery (Some (JStr (Z_to_string id))))],
         Ok (profile "Profile retrieved successfully" "admin" "admin_id" adminUser))
    | None =>
        ([Query (adminQuery (Some (JStr (Z_to_string id))));
          Query (studentQuery (Some (JStr (Z_to_string id))))],
         Ok match isFound (supabase env (studentQuery (Some (JStr (Z_to_string id))))) with
            | Some studentUser =>
                profile "Profile retrieved successfully" "student" "student_id"
                        studentUser
            | None => refusal 404 "User not found" "User profile not found"
            end)
    end.
Proof.
  intros Htoken. unfold get_profile. rewrite Htoken.
  unfold sessionToken. cbn [ToString Number_toString].
  assert (Htruthy : truthy (Some (JStr ("session_" ++ Z_to_string id ++ "_"
                                                   ++ Z_to_string now))) = true)
    by reflexivity.
  rewrite Htruthy. cbn [negb].
  rewrite prefix_session. cbn [negb].
  rewrite split_sessionToken by apply Z_to_string_no_underscore.
  assert (Hlen : (length ("session" :: Z_to_string id :: split "_" (Z_to_string now)) <? 3)%nat
                 = false).
  { apply Nat.ltb_ge. pose proof (split_nonempty "_" (Z_to_string now)) as Hne.
    destruct (split "_" (Z_to_string now)); [contradiction | simpl; lia]. }
  rewrite Hlen.
  cbn [nth_error fmap option_fmap option_map].
  unfold await_query, try_catch, bind, throw, ret, emit, lift.
  destruct (isFound (supabase env (adminQuery _))); [reflexivity | ].
  simpl.
  destruct (isFound (supabase env (studentQuery _))); reflexivity.
Qed.

(** X29. The two profile endpoints disagree on a token without a time
    stamp, session_ followed by an id: GET refuses it with 401 before any
    query, while PUT, given a name of two characters or more, goes on to
    look the id up among the admins. *)
Theorem token_without_a_time_stamp (params req_body : object) (userId name : string) :
  params !! "sessionToken" = Some (JStr ("session_" ++ userId)) ->
  Forall (fun c => Ascii.eqb c "_"%char = false) (list_ascii_of_string userId) ->
  req_body !! "name" = Some (JStr name) ->
  (2 <= String.length (CertificatesRoute.trim name))%nat ->
  get_profile env params
  = ([], Ok (refusal 401 "Invalid session token format"
                     "Session token format is invalid"))
  /\ exists rest,
       log (put_profile env params req_body)
       = Query (adminQuery (Some (JStr userId))) :: rest.
Proof.
  intros Htoken Hid Hname Hlen.
  assert (Hsplit : split "_" ("session_" ++ userId) = ["session"; userId]).
  { change ("session_" ++ userId) with ("session" ++ String "_" userId).
    rewrite split_first by (repeat constructor). now rewrite split_whole. }
  assert (Hnonempty : truthy (Some (JStr name)) = true).
  { destruct name; [simpl in Hlen; lia | reflexivity]. }
  split.
  - unfold get_profile. rewrite Htoken.
    replace (truthy (Some (JStr ("session_" ++ userId)))) with true by reflexivity.
    cbn [negb]. rewrite prefix_session, Hsplit. reflexivity.
  - unfold put_profile. rewrite Htoken, Hname, Hnonempty.
    replace (truthy (Some (JStr ("session_" ++ userId)))) with true by reflexivity.
    cbn [negb]. rewrite prefix_session, Hsplit. cbn [negb trimName].
    unfold await_query, updatedProfile, try_catch, bind, throw, ret, emit, lift, log.
    apply Nat.ltb_ge in Hlen. rewrite Hlen.
    cbn [nth_error fmap option_fmap option_map].
    repeat step; eexists; reflexivity.
Qed.

(** X30. Whatever the request, PUT /profile sends at most one update, and
    that update sets nothing but the column name, to the name of the body
    without the white space around it, which then has two characters or
    more; it goes to the table of admins or to the table of students. *)
Theorem profile_update_writes_the_name_only (params req_body : object) :
  (length (updatesOf (log (put_profile env params req_body))) <= 1)%nat
  /\ Forall (fun q => exists table key userId name,
                        q = renameQuery table key userId (CertificatesRoute.trim name)
                        /\ req_body !! "name" = Some (JStr name)
                        /\ (2 <= String.length (CertificatesRoute.trim name))%nat
                        /\ (table = "admin" /\ key = "admin_id"
                            \/ table = "students" /\ key = "student_id"))
            (updatesOf (log (put_profile env params req_body))).
Proof.
  unfold put_profile, await_query, updatedProfile, trimName.
  unfold try_catch, bind, throw, ret, emit, lift, log.
  repeat step; simpl; (split; [lia | ]);
    first
      [ apply Forall_nil
      | apply Forall_cons; [ | apply Forall_nil];
        match goal with
        | H : (String.length _ <? 2)%nat = false |- _ => apply Nat.ltb_ge in H
        end;
        eexists _, _, _, _; (split; [reflexivity | ]); (split; [reflexivity | ]);
        (split; [assumption | ]); tauto ].
Qed.

End Tokens.

Lemma token_without_a_time_stamp_witness :
  Auth.get_profile (Cases.worldOf Cases.a4 (Cases.always Demo.enrolled)) Cases.bareToken
  = ([], Ok (Auth.refusal 401 "Invalid session token format"
                          "Session token format is invalid"))
  /\ exists rest,
       log (Auth.put_profile (Cases.worldOf Cases.a4 (Cases.always Demo.enrolled))
                             Cases.bareToken Cases.renameToAsha)
       = Query (Auth.adminQuery (Some (JStr "7"))) :: rest.
Proof.
  apply (token_without_a_time_stamp (Cases.worldOf Cases.a4 (Cases.always Demo.enrolled))
                                    Cases.bareToken Cases.renameToAsha "7" " Asha ").
  - reflexivity.
  - repeat constructor.
  - reflexivity.
  - vm_compute. lia.
Defined.

(* ===================================================================== *)
(** ** Sending and verifying a one-time password *)
(* ===================================================================== *)

Section Flow.
Import Otp OtpService OtpCalls.

Lemma clean_formatPhoneNumber (phoneNumber : string) :
  clean (formatPhoneNumber phoneNumber) = formatPhoneNumber phoneNumber.
Proof.
  unfold formatPhoneNumber.
  pose proof (clean_has_no_separator phoneNumber) as Hc.
  destruct (String.prefix "91" (clean phoneNumber)
            && (String.length (clean phoneNumber) =? 12)%nat) eqn:E.
  - apply andb_true_iff in E. destruct E as [Hp _].
    destruct (prefix_91 _ Hp) as [t Ht]. rewrite Ht in *.
    cbn [substringFrom]. simpl in Hc. now apply clean_unchanged.
  - now apply clean_unchanged.
Qed.

Lemma formatPhoneNumber_valid (phoneNumber : string) :
  validatePhoneNumber (formatPhoneNumber phoneNumber) = true ->
  formatPhoneNumber (formatPhoneNumber phoneNumber) = formatPhoneNumber phoneNumber
  /\ indianMobileRegex (formatPhoneNumber phoneNumber) = true.
Proof.
  unfold validatePhoneNumber. rewrite clean_formatPhoneNumber. intros Hregex.
  split; [ | assumption].
  unfold formatPhoneNumber at 1. rewrite clean_formatPhoneNumber.
  apply indianMobileRegex_length in Hregex. rewrite Hregex.
  now rewrite andb_false_r.
Qed.

Variable world : World.

Ltac refused :=
  let H := fresh in let Hs := fresh in
  intros H Hs; inversion H; subst; cbn in Hs; discriminate Hs.

Lemma validatePhoneInDatabase_calls (phone : string) (role : option jsval) :
  exists v, validatePhoneInDatabase world phone role = (lookupsOf world role phone, Ok v).
Proof.
  unfold validatePhoneInDatabase, lookupsOf, await_sql, try_catch, bind, emit, ret.
  destruct (isRole role "admin"); simpl.
  - destruct (Auth.isFound _); eexists; reflexivity.
  - destruct (isRole role "user" || isRole role "student"); simpl.
    + destruct (Auth.isFound _); eexists; reflexivity.
    + destruct (Auth.isFound _); simpl; [eexists; reflexivity | ].
      destruct (Auth.isFound _); eexists; reflexivity.
Qed.

Lemma includes_prefix (needle rest : string) : includes needle (needle ++ rest) = true.
Proof.
  assert (H : String.prefix needle (needle ++ rest) = true).
  { apply String.prefix_correct.
    induction needle as [ | c n IH].
    - destruct rest; reflexivity.
    - change (String c n ++ rest) with (String c (n ++ rest)).
      simpl. now rewrite IH. }
  revert H. generalize (needle ++ rest). intros hay H.
  destruct hay; cbn [includes]; rewrite H; reflexivity.
Qed.

(** X25. When POST /send-otp answers 200, the answer itself carries, as
    debug.generatedOtp, the one-time password that was just stored for the
    formatted phone number (after the earlier ones of that number were
    invalidated, and with an expiry ten minutes after the clock reading)
    and texted to it; those three calls follow the lookups of the number
    and nothing else is done.  The answer is 200 whether or not the
    gateway accepted the text: smsStatus is true exactly when it responded
    with status 200. *)
Theorem send_otp_hands_out_the_otp (req_body : object) (reply : sendReply) :
  answer (send_otp world req_body) = Ok reply ->
  status reply = 200 ->
  exists phone,
    field "phoneNumber" (body reply) = Some (JStr phone)
    /\ indianMobileRegex phone = true
    /\ debug reply = Some [("generatedOtp", Some (JStr (generateOTP (draw world))));
                           ("service", Some (JStr "WorkingOtpService"))]
    /\ calls (send_otp world req_body)
       = (lookupsOf world (req_body !! "role") phone
            ++ [InvalidateOtps phone;
                InsertOtp phone (generateOTP (draw world)) (time world 0 + 600000);
                HttpGet phone (smsText (generateOTP (draw world)))])%list
    /\ (field "smsStatus" (body reply) = Some (JBool true)
        <-> exists text,
              fetch world phone (smsText (generateOTP (draw world))) = Responded 200 text).
Proof.
  unfold send_otp, formatted.
  destruct (truthy (req_body !! "phoneNumber")) eqn:Htruthy; cbn [negb];
    [ | refused].
  destruct (req_body !! "phoneNumber") as [[ | b | n | raw] | ] eqn:Hphone;
    try (cbn; refused).
  cbn [bind ret try_catch].
  destruct (validatePhoneNumber (formatPhoneNumber raw)) eqn:Hvalid; cbn [negb];
    [ | cbn; refused].
  destruct (formatPhoneNumber_valid raw Hvalid) as [Hidem Hregex].
  unfold sendOTP. rewrite Hidem, Hvalid. cbn [negb].
  destruct (validatePhoneInDatabase_calls (formatPhoneNumber raw) (req_body !! "role"))
    as [v ->].
  unfold storeOTP, sendOtpSms, try_catch, bind, emit, ret, throw, answer, calls.
  cbn [fst snd].
  destruct (exists_ v); cbn [negb].
  2:{ destruct (includes _ _); cbn; refused. }
  change (10 * 60 * 1000) with 600000.
  destruct (error (insertOtp world _ _ _)) as [e | ].
  { cbn. destruct (includes _ _); cbn; refused. }
  cbn.
  destruct (fetch world _ _) as [code text | name msg] eqn:Hfetch.
  - destruct (code =? 200) eqn:Hcode; cbn; intros Hr Hstatus; inversion Hr; subst reply;
      exists (formatPhoneNumber raw); cbn; rewrite ?List.app_nil_r;
      (repeat split; try assumption; try reflexivity).
    + intros _. apply Z.eqb_eq in Hcode. subst code. exists text. exact Hfetch.
    + intros Hs. discriminate Hs.
    + intros [text' Hf]. rewrite Hfetch in Hf. injection Hf as -> _. discriminate Hcode.
  - cbn. intros Hr Hstatus. inversion Hr. subst reply.
    exists (formatPhoneNumber raw). cbn. rewrite ?List.app_nil_r.
    repeat split; try assumption; try reflexivity.
    + intros Hs. discriminate Hs.
    + intros [text' Hf]. rewrite Hfetch in Hf. discriminate Hf.
Qed.

Lemma valid_phone_is_truthy (raw : string) :
  validatePhoneNumber (formatPhoneNumber raw) = true -> truthy (Some (JStr raw)) = true.
Proof. destruct raw; [discriminate | reflexivity]. Qed.

(** X26. For a valid phone number that no table holds, POST /send-otp
    answers 400, Phone number not registered, after the lookups of the role
    alone (the admins for the role admin, the students for the roles user
    and student, both otherwise): no one-time password is stored and no
    text is sent. *)
Theorem unregistered_phone_gets_no_otp (req_body : object) (raw : string) :
  req_body !! "phoneNumber" = Some (JStr raw) ->
  validatePhoneNumber (formatPhoneNumber raw) = true ->
  (forall q, Auth.isFound (tables world q) = None) ->
  send_otp world req_body
  = (lookupsOf world (req_body !! "role") (formatPhoneNumber raw),
     Ok (refusal 400 "Phone number not registered"
                 ("Phone number not registered in " ++ roleMessage (req_body !! "role")
                    ++ ". Please contact administrator to register your phone number."))).
Proof.
  intros Hphone Hvalid Hnone.
  destruct (formatPhoneNumber_valid raw Hvalid) as [Hidem _].
  unfold send_otp, formatted. rewrite Hphone, (valid_phone_is_truthy raw Hvalid).
  cbn [negb bind ret try_catch]. rewrite Hvalid. cbn [negb].
  unfold sendOTP. rewrite Hidem, Hvalid. cbn [negb].
  unfold validatePhoneInDatabase, lookupsOf, await_sql, try_catch, bind, emit, ret, throw.
  destruct (isRole (req_body !! "role") "admin"); cbn.
  - rewrite Hnone. cbn.
    change ("Phone number not registered in " ++ ?x)
      with ("Phone number not registered" ++ (" in " ++ x)).
    now rewrite includes_prefix.
  - destruct (isRole (req_body !! "role") "user" || isRole (req_body !! "role") "student");
      cbn; rewrite !Hnone; cbn; rewrite ?Hnone; cbn;
      change ("Phone number not registered in " ++ ?x)
        with ("Phone number not registered" ++ (" in " ++ x));
      now rewrite includes_prefix.
Qed.

Lemma otpFormat_truthy (otp : option jsval) :
  otpFormat (ToString otp) = true -> truthy otp = true.
Proof.
  destruct otp as [[ | [ | ] | [ | z] | s] | ]; try discriminate.
  - destruct z; [discriminate | reflexivity | reflexivity].
  - destruct s; [discriminate | reflexivity].
Qed.

(** X27. POST /verify-otp for a phone number that no table holds, with a
    well-formed code: a code that is not found (wrong, used or expired) is
    refused with 401 after the one search, and nothing is written; a code
    that is found is marked as used before the user is looked up, so the
    answer 404, User not found, has consumed it; and when marking fails the
    answer is 500. *)
Theorem verify_otp_of_an_unknown_user (req_body : object) (raw : string) :
  req_body !! "phoneNumber" = Some (JStr raw) ->
  validatePhoneNumber (formatPhoneNumber raw) = true ->
  otpFormat (ToString (req_body !! "otp")) = true ->
  (forall q, Auth.isFound (tables world q) = None) ->
  verify_otp world req_body
  = match Auth.isFound (findOtp world (formatPhoneNumber raw) (req_body !! "otp")
                                (time world 0)) with
    | None =>
        ([FindOtp (formatPhoneNumber raw) (req_body !! "otp") (time world 0)],
         Ok (Auth.refusal 401 "Invalid or expired OTP" "Invalid or expired OTP"))
    | Some otpRecord =>
        match markVerified world (otpRecord !! "session_id") with
        | Some updateError =>
            ([FindOtp (formatPhoneNumber raw) (req_body !! "otp") (time world 0);
              MarkVerified (otpRecord !! "session_id")],
             Ok (Auth.refusal 500 "OTP verification failed"
                              ("Failed to update OTP status: "
                                 ++ JS.message updateError)))
        | None =>
            ([FindOtp (formatPhoneNumber raw) (req_body !! "otp") (time world 0);
              MarkVerified (otpRecord !! "session_id");
              Sql (adminByPhone "*" (formatPhoneNumber raw));
              Sql (studentByPhone "*" (formatPhoneNumber raw))],
             Ok (Auth.refusal 404 "User not found"
                              "Phone number not registered. Please contact administrator to register your phone number."))
        end
    end.
Proof.
  intros Hphone Hvalid Hotp Hnone.
  unfold verify_otp, formatted.
  rewrite Hphone, (valid_phone_is_truthy raw Hvalid), (otpFormat_truthy _ Hotp).
  cbn [negb orb bind ret try_catch]. rewrite Hvalid, Hotp. cbn [negb].
  unfold verifyOTP, await_sql, try_catch, bind, emit, ret, throw.
  destruct (Auth.isFound (findOtp world _ _ _)) as [otpRecord | ]; cbn; [ | reflexivity].
  destruct (markVerified world _) as [e | ]; cbn; [reflexivity | ].
  rewrite !Hnone. cbn. rewrite ?Hnone. reflexivity.
Qed.

(** X28. A student who logs in when an admin has the same numeric id:
    POST /verify-otp answers 200 for the student, with the token
    session_<student id>_<time>, after the search of the code, its marking,
    the two lookups by phone number and the login log; GET /profile with
    that token, on the same tables, looks the id up among the admins first
    and answers with the profile of the admin, without consulting the
    students. *)
Theorem student_token_reaches_an_admin
        (env : Env) (req_body : object) (raw : string) (otpRecord studentRow adminRow : object)
        (id : Z) :
  req_body !! "phoneNumber" = Some (JStr raw) ->
  validatePhoneNumber (formatPhoneNumber raw) = true ->
  otpFormat (ToString (req_body !! "otp")) = true ->
  Auth.isFound (findOtp world (formatPhoneNumber raw) (req_body !! "otp") (time world 0))
  = Some otpRecord ->
  markVerified world (otpRecord !! "session_id") = None ->
  Auth.isFound (tables world (adminByPhone "*" (formatPhoneNumber raw))) = None ->
  Auth.isFound (tables world (studentByPhone "*" (formatPhoneNumber raw)))
  = Some studentRow ->
  studentRow !! "student_id" = Some (JNum (Int id)) ->
  Z.abs id < 10 ^ 21 ->
  0 <= time world 1 < 10 ^ 21 ->
  (forall q, supabase env q = tables world q) ->
  Auth.isFound (tables world (Auth.adminQuery (Some (JStr (Z_to_string id)))))
  = Some adminRow ->
  exists token,
    verify_otp world req_body
    = ([FindOtp (formatPhoneNumber raw) (req_body !! "otp") (time world 0);
        MarkVerified (otpRecord !! "session_id");
        Sql (adminByPhone "*" (formatPhoneNumber raw));
        Sql (studentByPhone "*" (formatPhoneNumber raw));
        InsertLoginLog "student_login_logs" "student_id" (Some (JNum (Int id)))
                       (time world 2)],
       Ok (loggedIn "Student login successful" "student" "student_id" studentRow token))
    /\ token = "session_" ++ Z_to_string id ++ "_" ++ Z_to_string (time world 1)
    /\ Auth.get_profile env (<["sessionToken" := JStr token]> ∅)
       = ([Query (Auth.adminQuery (Some (JStr (Z_to_string id))))],
          Ok (Auth.profile "Profile retrieved successfully" "admin" "admin_id" adminRow)).
Proof.
  intros Hphone Hvalid Hotp Hfind Hmark Hadmin Hstudent Hid Hidr Htime Hsame Hcollide.
  exists (Auth.sessionToken (Some (JNum (Int id))) (time world 1)).
  split; [ | split; [reflexivity | ]].
  - unfold verify_otp, formatted.
    rewrite Hphone, (valid_phone_is_truthy raw Hvalid), (otpFormat_truthy _ Hotp).
    cbn [negb orb bind ret try_catch]. rewrite Hvalid, Hotp. cbn [negb].
    unfold verifyOTP, login, await_sql, try_catch, bind, emit, ret, throw.
    rewrite Hfind. cbn. rewrite Hmark. cbn. rewrite Hadmin. cbn. rewrite Hstudent. cbn.
    rewrite Hid. reflexivity.
  - rewrite (get_profile_of_token env _ id (time world 1)).
    + rewrite Hsame, Hcollide. reflexivity.
    + apply lookup_insert_eq.
Qed.

End Flow.

Section FlowCases.
Import Otp OtpService OtpCalls.

Lemma send_otp_hands_out_the_otp_witness :
  exists phone,
    field "phoneNumber" (body Cases.otpReply) = Some (JStr phone)
    /\ indianMobileRegex phone = true
    /\ debug Cases.otpReply
       = Some [("generatedOtp",
                Some (JStr (generateOTP (draw (Cases.gatewayOf (Cases.always Demo.enrolled))))));
               ("service", Some (JStr "WorkingOtpService"))]
    /\ calls (send_otp (Cases.gatewayOf (Cases.always Demo.enrolled)) Cases.otpRequest)
       = (lookupsOf (Cases.gatewayOf (Cases.always Demo.enrolled))
                    (Cases.otpRequest !! "role") phone
            ++ [InvalidateOtps phone;
                InsertOtp phone
                          (generateOTP (draw (Cases.gatewayOf (Cases.always Demo.enrolled))))
                          (time (Cases.gatewayOf (Cases.always Demo.enrolled)) 0 + 600000);
                HttpGet phone
                        (smsText (generateOTP
                                    (draw (Cases.gatewayOf (Cases.always Demo.enrolled)))))])%list
    /\ (field "smsStatus" (body Cases.otpReply) = Some (JBool true)
        <-> exists text,
              fetch (Cases.gatewayOf (Cases.always Demo.enrolled)) phone
                    (smsText (generateOTP
                                (draw (Cases.gatewayOf (Cases.always Demo.enrolled)))))
              = Responded 200 text).
Proof.
  apply (send_otp_hands_out_the_otp (Cases.gatewayOf (Cases.always Demo.enrolled))
                                    Cases.otpRequest Cases.otpReply).
  - vm_compute. reflexivity.
  - vm_compute. reflexivity.
Defined.

Lemma unregistered_phone_gets_no_otp_witness :
  send_otp (Cases.gatewayOf Cases.nobody) Cases.otpRequest
  = (lookupsOf (Cases.gatewayOf Cases.nobody) (Cases.otpRequest !! "role")
               (formatPhoneNumber "+91 98765-43210"),
     Ok (refusal 400 "Phone number not registered"
                 ("Phone number not registered in "
                    ++ roleMessage (Cases.otpRequest !! "role")
                    ++ ". Please contact administrator to register your phone number."))).
Proof.
  apply (unregistered_phone_gets_no_otp (Cases.gatewayOf Cases.nobody) Cases.otpRequest
                                        "+91 98765-43210").
  - reflexivity.
  - reflexivity.
  - intros q. reflexivity.
Defined.

Lemma verify_otp_of_an_unknown_user_witness :
  verify_otp (Cases.gatewayOf Cases.nobody) Cases.otpAttempt
  = match Auth.isFound (findOtp (Cases.gatewayOf Cases.nobody)
                                (formatPhoneNumber "+91 98765-43210")
                                (Cases.otpAttempt !! "otp")
                                (time (Cases.gatewayOf Cases.nobody) 0)) with
    | None =>
        ([FindOtp (formatPhoneNumber "+91 98765-43210") (Cases.otpAttempt !! "otp")
                  (time (Cases.gatewayOf Cases.nobody) 0)],
         Ok (Auth.refusal 401 "Invalid or expired OTP" "Invalid or expired OTP"))
    | Some otpRecord =>
        match markVerified (Cases.gatewayOf Cases.nobody) (otpRecord !! "session_id") with
        | Some updateError =>
            ([FindOtp (formatPhoneNumber "+91 98765-43210") (Cases.otpAttempt !! "otp")
                      (time (Cases.gatewayOf Cases.nobody) 0);
              MarkVerified (otpRecord !! "session_id")],
             Ok (Auth.refusal 500 "OTP verification failed"
                              ("Failed to update OTP status: "
                                 ++ JS.message updateError)))
        | None =>
            ([FindOtp (formatPhoneNumber "+91 98765-43210") (Cases.otpAttempt !! "otp")
                      (time (Cases.gatewayOf Cases.nobody) 0);
              MarkVerified (otpRecord !! "session_id");
              Sql (adminByPhone "*" (formatPhoneNumber "+91 98765-43210"));
              Sql (studentByPhone "*" (formatPhoneNumber "+91 98765-43210"))],
             Ok (Auth.refusal 404 "User not found"
                              "Phone number not registered. Please contact administrator to register your phone number."))
        end
    end.
Proof.
  apply (verify_otp_of_an_unknown_user (Cases.gatewayOf Cases.nobody) Cases.otpAttempt
                                       "+91 98765-43210").
  - reflexivity.
  - reflexivity.
  - reflexivity.
  - intros q. reflexivity.
Defined.

Lemma student_token_reaches_an_admin_witness :
  exists token,
    verify_otp (Cases.gatewayOf Cases.collision) Cases.otpAttempt
    = ([FindOtp (formatPhoneNumber "+91 98765-43210") (Cases.otpAttempt !! "otp")
                (time (Cases.gatewayOf Cases.collision) 0);
        MarkVerified (Cases.otpSession !! "session_id");
        Sql (adminByPhone "*" (formatPhoneNumber "+91 98765-43210"));
        Sql (studentByPhone "*" (formatPhoneNumber "+91 98765-43210"));
        InsertLoginLog "student_login_logs" "student_id" (Some (JNum (Int 7)))
                       (time (Cases.gatewayOf Cases.collision) 2)],
       Ok (loggedIn "Student login successful" "student" "student_id" Demo.enrolled token))
    /\ token = "session_" ++ Z_to_string 7 ++ "_"
                 ++ Z_to_string (time (Cases.gatewayOf Cases.collision) 1)
    /\ Auth.get_profile (Cases.worldOf Cases.a4 Cases.collision)
                        (<["sessionToken" := JStr token]> ∅)
       = ([Query (Auth.adminQuery (Some (JStr (Z_to_string 7))))],
          Ok (Auth.profile "Profile retrieved successfully" "admin" "admin_id"
                           Cases.adminSeven)).
Proof.
  apply (student_token_reaches_an_admin
           (Cases.gatewayOf Cases.collision) (Cases.worldOf Cases.a4 Cases.collision)
           Cases.otpAttempt "+91 98765-43210" Cases.otpSession Demo.enrolled
           Cases.adminSeven 7).
  - reflexivity.
  - reflexivity.
  - reflexivity.
  - reflexivity.
  - reflexivity.
  - reflexivity.
  - reflexivity.
  - reflexivity.
  - vm_compute. reflexivity.
  - vm_compute. split; [discriminate | reflexivity].
  - intros q. reflexivity.
  - reflexivity.
Defined.

End FlowCases.
